(** * GloboCorp GPT Genie: message lifecycle and conversation state

    A shallow embedding of the two chat front ends of the repository,
    [good code/genie.js] (class [GlobocorpGenie], configured by
    [config.js]) and [good code/app.js] (object [Utils] and class
    [GenieChat], configured by the constant [CONFIG]), together with the
    properties of validation, reply selection, history bounding,
    persistence and submission ordering that the specification states.

    Conventions.
    - A JavaScript string is the list of its UTF-16 code units, so that
      [length] is the [.length] of the source.
    - [Math.random()] is an argument of the functions that call it: a
      fraction [num / den] with [0 <= num < den].  Products with integers
      are taken exactly.
    - [new Date()] is an argument as well (milliseconds since the epoch).
    - The host functions [JSON.parse] and [JSON.stringify] are the two
      fields of the class [JSONHost]; [MiniJSON] implements them for the
      concrete runs.
    - A method of a class is a computation in the monad [M]: it reads and
      updates the instance and the page, may throw, and keeps the updates
      made before the throw, as JavaScript does. *)

From Stdlib Require Import ZArith List String Ascii Lia Bool.
From stdpp Require Import base option list gmap.
Import ListNotations.
Local Open Scope Z_scope.

(** ** JavaScript strings *)

Module JS.

(** A string value: its UTF-16 code units. *)
Definition jsstring : Type := list N.

(** Code points of a UTF-8 byte sequence (the bytes of a literal of this
    file). *)
Fixpoint utf8_decode (bs : list N) : list N :=
  match bs with
  | [] => []
  | b :: r =>
      if (b <? 128)%N then b :: utf8_decode r
      else if (b <? 224)%N then
        match r with
        | c1 :: r1 => ((b mod 32) * 64 + c1 mod 64)%N :: utf8_decode r1
        | _ => []
        end
      else if (b <? 240)%N then
        match r with
        | c1 :: c2 :: r2 =>
            ((b mod 16) * 4096 + (c1 mod 64) * 64 + c2 mod 64)%N
              :: utf8_decode r2
        | _ => []
        end
      else
        match r with
        | c1 :: c2 :: c3 :: r3 =>
            ((b mod 8) * 262144 + (c1 mod 64) * 4096
             + (c2 mod 64) * 64 + c3 mod 64)%N :: utf8_decode r3
        | _ => []
        end
  end.

(** UTF-16 code units of a code point. *)
Definition utf16_units (cp : N) : list N :=
  if (cp <? 65536)%N then [cp]
  else let c := (cp - 65536)%N in
       [(55296 + c / 1024)%N; (56320 + c mod 1024)%N].

(** The string value of a literal. *)
Definition js (s : string) : jsstring :=
  concat (map utf16_units
            (utf8_decode (map N_of_ascii (list_ascii_of_string s)))).

(** The string value of a literal in which the apostrophe stands for the
    double quote. *)
Definition jsq (s : string) : jsstring :=
  map (fun c => if (c =? 39)%N then 34%N else c) (js s).

(** [WhiteSpace] and [LineTerminator] of ECMAScript: what
    [String.prototype.trim] strips. *)
Definition isWhiteSpace (c : N) : bool :=
  ((9 <=? c) && (c <=? 13) || (c =? 32) || (c =? 160) || (c =? 5760)
   || (8192 <=? c) && (c <=? 8202) || (c =? 8232) || (c =? 8233)
   || (c =? 8239) || (c =? 8287) || (c =? 12288) || (c =? 65279))%N.

Fixpoint trimStart (s : jsstring) : jsstring :=
  match s with
  | c :: r => if isWhiteSpace c then trimStart r else s
  | [] => []
  end.

Definition trimEnd (s : jsstring) : jsstring := rev (trimStart (rev s)).

(** [s.trim()] *)
Definition trim (s : jsstring) : jsstring := trimEnd (trimStart s).

(** [!s] for a string: only the empty string is falsy. *)
Definition falsy (s : jsstring) : bool :=
  match s with [] => true | _ => false end.

(** Decimal digits of a natural number, as [String(n)] prints it. *)
Fixpoint digits_fuel (fuel : nat) (n : N) (acc : jsstring) : jsstring :=
  match fuel with
  | O => acc
  | S f =>
      let acc' := (48 + n mod 10)%N :: acc in
      if (n <? 10)%N then acc' else digits_fuel f (n / 10)%N acc'
  end.

Definition decimal (n : N) : jsstring :=
  digits_fuel (S (N.to_nat (N.log2 n))) n [].

(** [Math.random()]: a fraction in [[0, 1)]. *)
Record Draw : Type := { num : Z; den : Z }.

Definition valid_draw (r : Draw) : Prop := 0 <= num r < den r.

(** [Math.floor(r * n)] for an integer [n]. *)
Definition floor_mul (r : Draw) (n : Z) : Z := (num r * n) / den r.

(** [a.slice(start)] on an array: the elements from index [k] on, where a
    negative [start] counts from the end. *)
Definition Array_slice {A : Type} (start : Z) (a : list A) : list A :=
  let len := Z.of_nat (length a) in
  let k := if start <? 0 then Z.max (len + start) 0 else Z.min start len in
  skipn (Z.to_nat k) a.

End JS.

Import JS.

Example js_ascii : js "hi!" = [104; 105; 33]%N.
Proof. reflexivity. Qed.

Example js_astral : js "a✨💡" = [97; 10024; 55357; 56481]%N.
Proof. reflexivity. Qed.

Example trim_example : trim (js "  hello world 	") = js "hello world".
Proof. reflexivity. Qed.

Example decimal_500 : decimal 500 = js "500".
Proof. reflexivity. Qed.

Example slice_last_two : Array_slice (-2) [1; 2; 3] = [2; 3].
Proof. reflexivity. Qed.

Example slice_minus_zero : Array_slice (- 0) [1; 2; 3] = [1; 2; 3].
Proof. reflexivity. Qed.

(** ** JavaScript values, the host and the page *)

(** The values that the history, the storage payload and a reply can be. *)
#[warnings="-register-all"]
Inductive JSValue : Type :=
| JUndefined
| JNull
| JBool (b : bool)
| JNum (mantissa exponent : Z)      (* mantissa * 10 ^ exponent *)
| JStr (s : jsstring)
| JDate (ms : Z)                    (* a Date object *)
| JArr (items : list JSValue)
| JObj (props : list (jsstring * JSValue)).

Module ISODate.

(** Two, three, four or six decimal digits, zero padded. *)
Definition pad (width : nat) (n : Z) : jsstring :=
  let d := decimal (Z.to_N n) in
  repeat 48%N (width - length d) ++ d.

(** Year, month and day of a day number counted from 1970-01-01. *)
Definition civil (days : Z) : Z * Z * Z :=
  let z := days + 719468 in
  let era := z / 146097 in
  let doe := z - era * 146097 in
  let yoe := (doe - doe / 1460 + doe / 36524 - doe / 146096) / 365 in
  let doy := doe - (365 * yoe + yoe / 4 - yoe / 100) in
  let mp := (5 * doy + 2) / 153 in
  let d := doy - (153 * mp + 2) / 5 + 1 in
  let m := if mp <? 10 then mp + 3 else mp - 9 in
  let y := yoe + era * 400 + (if m <=? 2 then 1 else 0) in
  (y, m, d).

(** [new Date(ms).toISOString()] *)
Definition toISOString (ms : Z) : jsstring :=
  let day := ms / 86400000 in
  let t := ms mod 86400000 in
  let '(y, m, d) := civil day in
  let year :=
    if (0 <=? y) && (y <=? 9999) then pad 4 y
    else (if y <? 0 then js "-" else js "+") ++ pad 6 (Z.abs y) in
  year ++ js "-" ++ pad 2 m ++ js "-" ++ pad 2 d ++ js "T"
    ++ pad 2 (t / 3600000) ++ js ":" ++ pad 2 (t / 60000 mod 60) ++ js ":"
    ++ pad 2 (t / 1000 mod 60) ++ js "." ++ pad 3 (t mod 1000) ++ js "Z".

End ISODate.

Example iso_epoch : ISODate.toISOString 0 = js "1970-01-01T00:00:00.000Z".
Proof. reflexivity. Qed.

Example iso_2023 :
  ISODate.toISOString 1700000000123 = js "2023-11-14T22:13:20.123Z".
Proof. reflexivity. Qed.

Example iso_leap_day :
  ISODate.toISOString 1709210096789 = js "2024-02-29T12:34:56.789Z".
Proof. reflexivity. Qed.

(** What [JSON.parse(JSON.stringify(v))] is: a Date becomes its ISO
    string, an undefined property is dropped, an undefined array element
    becomes null. *)
Fixpoint toJSON (v : JSValue) : JSValue :=
  match v with
  | JDate ms => JStr (ISODate.toISOString ms)
  | JUndefined => JNull
  | JArr items => JArr (map toJSON items)
  | JObj props =>
      JObj ((fix go (ps : list (jsstring * JSValue)) :=
               match ps with
               | [] => []
               | (_, JUndefined) :: r => go r
               | (k, x) :: r => (k, toJSON x) :: go r
               end) props)
  | _ => v
  end.

(** The two JSON functions of the host.  [JSON_parse] is [None] where
    [JSON.parse] throws a SyntaxError.  [JSON_stringify] is applied to
    arrays and strings only, where [JSON.stringify] returns a string. *)
Class JSONHost : Type := {
  JSON_parse : jsstring -> option JSValue;
  JSON_stringify : JSValue -> jsstring;
}.

(** The errors that the modelled code can meet. *)
Inductive Exn : Type :=
| TypeError
| SyntaxError
| QuotaExceededError
| SecurityError
| MissingElements (names : list string).

(** [window.localStorage].  When [available] is false every access
    throws; with [quota = Some q] a write of more than [q] code units
    throws. *)
Record Storage : Type := {
  available : bool;
  quota : option nat;
  items : gmap jsstring jsstring;
}.

Definition Storage_getItem (st : Storage) (key : jsstring)
  : Exn + option jsstring :=
  if available st then inr (items st !! key) else inl SecurityError.

Definition Storage_setItem (st : Storage) (key value : jsstring)
  : Exn + Storage :=
  if available st then
    match quota st with
    | Some q =>
        if (q <? length value)%nat then inl QuotaExceededError
        else inr {| available := true; quota := quota st;
                    items := <[key := value]> (items st) |}
    | None => inr {| available := true; quota := None;
                     items := <[key := value]> (items st) |}
    end
  else inl SecurityError.

(** Who sent a message: the literals ["user"] and ["genie"] of the call
    sites. *)
Inductive Sender : Type := user | genie.

Definition senderName (who : Sender) : string :=
  match who with user => "user" | genie => "genie" end.

Definition Sender_eqb (a b : Sender) : bool :=
  match a, b with user, user | genie, genie => true | _, _ => false end.

(** An element of the chat window: its node identity, its class list and
    its text. *)
Record Element : Type := {
  el_id : nat;
  el_classes : list string;
  el_text : JSValue;
}.

Definition hasClass (c : string) (e : Element) : bool :=
  existsb (String.eqb c) (el_classes e).

(** What the code does to the world outside the instance, in order. *)
Inductive Effect : Type :=
| Alert (message : jsstring)
| ConsoleLog (what : jsstring)
| ConsoleWarn (what : jsstring)
| ConsoleError (what : jsstring)
| FocusInput
| Placeholder (message : jsstring)
| MessageAppended (who : Sender) (text : JSValue)
| ScrollToBottom
| Announce (text : JSValue)
| StorageRead (key : jsstring)
| StorageWrite (key value : jsstring).

(** ** Computations that update a state and may throw *)

Inductive Outcome (A : Type) : Type :=
| Ret (a : A)
| Throw (e : Exn).
Arguments Ret {A} a.
Arguments Throw {A} e.

Definition M (S A : Type) : Type := S -> Outcome A * S.

Definition ret {S A} (a : A) : M S A := fun s => (Ret a, s).

Definition bind {S A B} (m : M S A) (k : A -> M S B) : M S B :=
  fun s => match m s with
           | (Ret a, s') => k a s'
           | (Throw e, s') => (Throw e, s')
           end.

Definition throw {S A} (e : Exn) : M S A := fun s => (Throw e, s).

Definition gets {S A} (f : S -> A) : M S A := fun s => (Ret (f s), s).

Definition modify {S} (f : S -> S) : M S unit := fun s => (Ret tt, f s).

(** [try { body } catch (error) { handler }] *)
Definition try_catch {S A} (body : M S A) (handler : Exn -> M S A) : M S A :=
  fun s => match body s with
           | (Throw e, s') => handler e s'
           | r => r
           end.

(** [try { body } finally { final }]: [final] runs on both exits; what
    [body] returned or threw is kept unless [final] throws. *)
Definition try_finally {S A} (body : M S A) (final : M S unit) : M S A :=
  fun s => match body s with
           | (r, s') => match final s' with
                        | (Ret _, s'') => (r, s'')
                        | (Throw e, s'') => (Throw e, s'')
                        end
           end.

Definition when {S} (b : bool) (m : M S unit) : M S unit :=
  if b then m else ret tt.

Declare Scope js_scope.
Delimit Scope js_scope with js.
Notation "x <- m ;; k" := (bind m (fun x => k))
  (at level 100, m at next level, right associativity) : js_scope.
Notation "m ;; k" := (bind m (fun _ => k))
  (at level 100, right associativity) : js_scope.
Local Open Scope js_scope.

(** [a[i]]: undefined outside the array. *)
Definition Array_get {A : Type} (a : list A) (i : Z) : option A :=
  if (0 <=? i) && (i <? Z.of_nat (length a)) then nth_error a (Z.to_nat i)
  else None.

(** [v.slice(start)] for the values that have the method. *)
Definition slice (start : Z) (v : JSValue) : Exn + JSValue :=
  match v with
  | JArr a => inr (JArr (Array_slice start a))
  | JStr s => inr (JStr (Array_slice start s))
  | _ => inl TypeError
  end.

(** ** A JSON reader and writer for the concrete runs *)

Module MiniJSON.

Definition hexDigit (d : N) : N := if (d <? 10)%N then (48 + d)%N else (87 + d)%N.

(** [\uXXXX] *)
Definition unicodeEscape (c : N) : jsstring :=
  js "\u" ++ [hexDigit (c / 4096); hexDigit (c / 256 mod 16);
              hexDigit (c / 16 mod 16); hexDigit (c mod 16)]%N.

Definition isHigh (c : N) : bool := ((55296 <=? c) && (c <=? 56319))%N.
Definition isLow (c : N) : bool := ((56320 <=? c) && (c <=? 57343))%N.

(** The characters of a string between its quotes: control characters,
    the quote, the backslash and lone surrogates are escaped. *)
Fixpoint escape (s : jsstring) : jsstring :=
  match s with
  | [] => []
  | c :: r =>
      if (c =? 34)%N then js "\" ++ [34%N] ++ escape r
      else if (c =? 92)%N then js "\\" ++ escape r
      else if (c =? 8)%N then js "\b" ++ escape r
      else if (c =? 9)%N then js "\t" ++ escape r
      else if (c =? 10)%N then js "\n" ++ escape r
      else if (c =? 12)%N then js "\f" ++ escape r
      else if (c =? 13)%N then js "\r" ++ escape r
      else if (c <? 32)%N then unicodeEscape c ++ escape r
      else if isHigh c then
        match r with
        | d :: r' => if isLow d then c :: d :: escape r'
                     else unicodeEscape c ++ escape r
        | [] => unicodeEscape c
        end
      else if isLow c then unicodeEscape c ++ escape r
      else c :: escape r
  end.

Definition quote (s : jsstring) : jsstring := [34%N] ++ escape s ++ [34%N].

Fixpoint join (sep : jsstring) (parts : list jsstring) : jsstring :=
  match parts with
  | [] => []
  | [p] => p
  | p :: r => p ++ sep ++ join sep r
  end.

Fixpoint stripZeros (fuel : nat) (m e : Z) : Z * Z :=
  match fuel with
  | O => (m, e)
  | S f => if (e <? 0) && (m mod 10 =? 0) && negb (m =? 0)
           then stripZeros f (m / 10) (e + 1) else (m, e)
  end.

(** A number in positional notation. *)
Definition number (m e : Z) : jsstring :=
  let '(m, e) := stripZeros (Z.to_nat (- e)) m e in
  let sign := if m <? 0 then js "-" else [] in
  let a := Z.abs m in
  if 0 <=? e then sign ++ decimal (Z.to_N (a * 10 ^ e))
  else
    let scale := 10 ^ (- e) in
    sign ++ decimal (Z.to_N (a / scale)) ++ js "."
      ++ ISODate.pad (Z.to_nat (- e)) (a mod scale).

(** [JSON.stringify(v)] for a value that is not undefined. *)
Fixpoint stringify (v : JSValue) : jsstring :=
  match v with
  | JUndefined | JNull => js "null"
  | JBool true => js "true"
  | JBool false => js "false"
  | JNum m e => number m e
  | JStr s => quote s
  | JDate ms => quote (ISODate.toISOString ms)
  | JArr items => js "[" ++ join (js ",") (map stringify items) ++ js "]"
  | JObj props =>
      js "{"
        ++ join (js ",")
             ((fix go (ps : list (jsstring * JSValue)) :=
                 match ps with
                 | [] => []
                 | (_, JUndefined) :: r => go r
                 | (k, x) :: r => (quote k ++ js ":" ++ stringify x) :: go r
                 end) props)
        ++ js "}"
  end.

Definition isSpace (c : N) : bool :=
  ((c =? 32) || (c =? 9) || (c =? 10) || (c =? 13))%N.

Fixpoint skipSpace (s : jsstring) : jsstring :=
  match s with
  | c :: r => if isSpace c then skipSpace r else s
  | [] => []
  end.

Definition isDigit (c : N) : bool := ((48 <=? c) && (c <=? 57))%N.

Definition hexValue (c : N) : option N :=
  if isDigit c then Some (c - 48)%N
  else if ((97 <=? c) && (c <=? 102))%N then Some (c - 87)%N
  else if ((65 <=? c) && (c <=? 70))%N then Some (c - 55)%N
  else None.

(** The rest of a string literal after its opening quote. *)
Fixpoint parseChars (s : jsstring) (acc : jsstring)
  : option (jsstring * jsstring) :=
  match s with
  | [] => None
  | c :: r =>
      if (c =? 34)%N then Some (rev acc, r)
      else if (c <? 32)%N then None
      else if (c =? 92)%N then
        match r with
        | e :: r1 =>
            if (e =? 34)%N then parseChars r1 (34%N :: acc)
            else if (e =? 92)%N then parseChars r1 (92%N :: acc)
            else if (e =? 47)%N then parseChars r1 (47%N :: acc)
            else if (e =? 98)%N then parseChars r1 (8%N :: acc)
            else if (e =? 102)%N then parseChars r1 (12%N :: acc)
            else if (e =? 110)%N then parseChars r1 (10%N :: acc)
            else if (e =? 114)%N then parseChars r1 (13%N :: acc)
            else if (e =? 116)%N then parseChars r1 (9%N :: acc)
            else if (e =? 117)%N then
              match r1 with
              | h1 :: h2 :: h3 :: h4 :: r2 =>
                  match hexValue h1, hexValue h2, hexValue h3, hexValue h4 with
                  | Some a, Some b, Some c', Some d =>
                      parseChars r2
                        ((a * 4096 + b * 256 + c' * 16 + d)%N :: acc)
                  | _, _, _, _ => None
                  end
              | _ => None
              end
            else None
        | [] => None
        end
      else parseChars r (c :: acc)
  end.

(** A run of digits: its value, how many there are, and the rest. *)
Fixpoint parseDigits (s : jsstring) (value : Z) (count : Z)
  : Z * Z * jsstring :=
  match s with
  | c :: r => if isDigit c
              then parseDigits r (value * 10 + Z.of_N (c - 48)) (count + 1)
              else (value, count, s)
  | [] => (value, count, [])
  end.

(** A number literal: [-? int frac? exp?]. *)
Definition parseNumber (s : jsstring) : option (JSValue * jsstring) :=
  let '(negative, s1) :=
    match s with
    | c :: r => if (c =? 45)%N then (true, r) else (false, s)
    | [] => (false, s)
    end in
  let '(int, n, s2) := parseDigits s1 0 0 in
  let leadingZero :=
    match s1 with c :: _ => (c =? 48)%N | [] => false end in
  if (n =? 0) || (leadingZero && (1 <? n)) then None
  else
    let fraction :=
      match s2 with
      | c :: r =>
          if (c =? 46)%N then
            let '(m, k, s3) := parseDigits r int 0 in
            if k =? 0 then None else Some (m, - k, s3)
          else Some (int, 0, s2)
      | [] => Some (int, 0, s2)
      end in
    match fraction with
    | None => None
    | Some (m, e, s3) =>
        let m := if negative then - m else m in
        match s3 with
        | c :: r =>
            if (c =? 101)%N || (c =? 69)%N then
              let '(minus, r1) :=
                match r with
                | d :: r' => if (d =? 45)%N then (true, r')
                             else if (d =? 43)%N then (false, r')
                             else (false, r)
                | [] => (false, r)
                end in
              let '(x, k, s4) := parseDigits r1 0 0 in
              if k =? 0 then None
              else Some (JNum m (e + (if minus then - x else x)), s4)
            else Some (JNum m e, s3)
        | [] => Some (JNum m e, s3)
        end
    end.

Definition expect (word : jsstring) (v : JSValue) (s : jsstring)
  : option (JSValue * jsstring) :=
  if decide (firstn (length word) s = word)
  then Some (v, skipn (length word) s) else None.

(** A property set on an object: a repeated key keeps its place and takes
    the later value. *)
Fixpoint setProp (k : jsstring) (v : JSValue)
    (props : list (jsstring * JSValue)) : list (jsstring * JSValue) :=
  match props with
  | [] => [(k, v)]
  | (k', v') :: r => if decide (k' = k) then (k, v) :: r
                     else (k', v') :: setProp k v r
  end.

(** A value, then the elements of an array after its bracket, then the
    members of an object after its brace. *)
Fixpoint parseValue (fuel : nat) (s : jsstring)
  : option (JSValue * jsstring) :=
  match fuel with
  | O => None
  | S f =>
      match s with
      | [] => None
      | c :: r =>
          if (c =? 34)%N then
            match parseChars r [] with
            | Some (str, r') => Some (JStr str, r')
            | None => None
            end
          else if (c =? 91)%N then
            match skipSpace r with
            | d :: r' => if (d =? 93)%N then Some (JArr [], r')
                         else parseElements f (d :: r') []
            | [] => None
            end
          else if (c =? 123)%N then
            match skipSpace r with
            | d :: r' => if (d =? 125)%N then Some (JObj [], r')
                         else parseMembers f (d :: r') []
            | [] => None
            end
          else if (c =? 116)%N then expect (js "true") (JBool true) s
          else if (c =? 102)%N then expect (js "false") (JBool false) s
          else if (c =? 110)%N then expect (js "null") JNull s
          else parseNumber s
      end
  end
with parseElements (fuel : nat) (s : jsstring) (acc : list JSValue)
  : option (JSValue * jsstring) :=
  match fuel with
  | O => None
  | S f =>
      match parseValue f s with
      | Some (v, r) =>
          match skipSpace r with
          | c :: r' =>
              if (c =? 44)%N then parseElements f (skipSpace r') (acc ++ [v])
              else if (c =? 93)%N then Some (JArr (acc ++ [v]), r')
              else None
          | [] => None
          end
      | None => None
      end
  end
with parseMembers (fuel : nat) (s : jsstring)
    (acc : list (jsstring * JSValue)) : option (JSValue * jsstring) :=
  match fuel with
  | O => None
  | S f =>
      match s with
      | q :: r =>
          if (q =? 34)%N then
            match parseChars r [] with
            | Some (k, r1) =>
                match skipSpace r1 with
                | c :: r2 =>
                    if (c =? 58)%N then
                      match parseValue f (skipSpace r2) with
                      | Some (v, r3) =>
                          match skipSpace r3 with
                          | d :: r4 =>
                              if (d =? 44)%N
                              then parseMembers f (skipSpace r4)
                                     (setProp k v acc)
                              else if (d =? 125)%N
                              then Some (JObj (setProp k v acc), r4)
                              else None
                          | [] => None
                          end
                      | None => None
                      end
                    else None
                | [] => None
                end
            | None => None
            end
          else None
      | [] => None
      end
  end.

(** [JSON.parse(text)]: [None] for a SyntaxError. *)
Definition parse (text : jsstring) : option JSValue :=
  match parseValue (2 * length text + 2) (skipSpace text) with
  | Some (v, r) => match skipSpace r with [] => Some v | _ => None end
  | None => None
  end.

#[export] Instance host : JSONHost :=
  {| JSON_parse := parse; JSON_stringify := stringify |}.

End MiniJSON.

Example parse_number : MiniJSON.parse (js "42") = Some (JNum 42 0).
Proof. vm_compute. reflexivity. Qed.

Example parse_fraction : MiniJSON.parse (js " -1.50e3 ") = Some (JNum (-150) 1).
Proof. vm_compute. reflexivity. Qed.

Example parse_nested :
  MiniJSON.parse (jsq "{ 'a' : [1, true, null], 'b':{}, 'a':'x\nA' }")
  = Some (JObj [(js "a", JStr [120; 10; 65]%N); (js "b", JObj [])]).
Proof. vm_compute. reflexivity. Qed.

Example parse_truncated : MiniJSON.parse (jsq "[{'text':'hi'") = None.
Proof. vm_compute. reflexivity. Qed.

Example parse_garbage : MiniJSON.parse (js "not json") = None.
Proof. vm_compute. reflexivity. Qed.

(** ** genie.js: class GlobocorpGenie *)

Module Genie.

(** The fields of [window.GenieConfig] that the class reads. *)
Record Config : Type := {
  app_name : jsstring;
  app_version : jsstring;
  messages_errorEmpty : jsstring;
  messages_errorNetwork : jsstring;
  messages_processing : jsstring;
  responses_replies : list jsstring;
  responses_delay_min : Z;
  responses_delay_max : Z;
  ui_maxMessageLength : nat;
  ui_autoScroll : bool;
  ui_showTypingIndicator : bool;
  ui_messageLimit : nat;
  features_enableMessageHistory : bool;
  accessibility_announceMessages : bool;
  development_enableLogging : bool;
  development_debugMode : bool;
  development_mockResponses : bool;
}.

(** config.js *)
Definition GenieConfig : Config := {|
  app_name := js "GloboCorp GPT Genie";
  app_version := js "2.0";
  messages_errorEmpty := js "Please enter a message before sending!";
  messages_errorNetwork :=
    js "Sorry, I'm having trouble connecting right now. Please try again.";
  messages_processing := js "Genie is thinking...";
  responses_replies := [
    js "Presto...100 points!";
    js "Your wish is granted! ✨";
    js "Abracadabra! Consider it done!";
    js "By the power of GloboCorp, it shall be so!";
    js "Wish granted with corporate efficiency!";
    js "Magic is happening behind the scenes!";
    js "The GloboCorp magic is working!";
    js "Your request has been processed successfully!";
    js "Behold! Your wish comes true!";
    js "The corporate genie delivers!" ];
  responses_delay_min := 800;
  responses_delay_max := 2000;
  ui_maxMessageLength := 500;
  ui_autoScroll := true;
  ui_showTypingIndicator := true;
  ui_messageLimit := 100;
  features_enableMessageHistory := true;
  accessibility_announceMessages := true;
  development_enableLogging := true;
  development_debugMode := false;
  development_mockResponses := true;
|}.

(** The instance together with the part of the page and of the host that
    it reads and writes. *)
Record State : Type := {
  chatWindow : list Element;      (* the elements inside #chatWindow *)
  nextNode : nat;                 (* identity of the next created element *)
  inputValue : jsstring;          (* messageInput.value *)
  inputDisabled : bool;           (* messageInput.disabled *)
  typingIndicator : option nat;   (* this.typingIndicator *)
  messageHistory : JSValue;       (* this.messageHistory *)
  isProcessing : bool;            (* this.isProcessing *)
  localStorage : Storage;
  effects : list Effect;
}.

Definition with_chatWindow (v : list Element) (s : State) : State :=
  {| chatWindow := v; nextNode := nextNode s; inputValue := inputValue s;
     inputDisabled := inputDisabled s; typingIndicator := typingIndicator s;
     messageHistory := messageHistory s; isProcessing := isProcessing s;
     localStorage := localStorage s; effects := effects s |}.

Definition with_nextNode (v : nat) (s : State) : State :=
  {| chatWindow := chatWindow s; nextNode := v; inputValue := inputValue s;
     inputDisabled := inputDisabled s; typingIndicator := typingIndicator s;
     messageHistory := messageHistory s; isProcessing := isProcessing s;
     localStorage := localStorage s; effects := effects s |}.

Definition with_inputValue (v : jsstring) (s : State) : State :=
  {| chatWindow := chatWindow s; nextNode := nextNode s; inputValue := v;
     inputDisabled := inputDisabled s; typingIndicator := typingIndicator s;
     messageHistory := messageHistory s; isProcessing := isProcessing s;
     localStorage := localStorage s; effects := effects s |}.

Definition with_inputDisabled (v : bool) (s : State) : State :=
  {| chatWindow := chatWindow s; nextNode := nextNode s;
     inputValue := inputValue s; inputDisabled := v;
     typingIndicator := typingIndicator s;
     messageHistory := messageHistory s; isProcessing := isProcessing s;
     localStorage := localStorage s; effects := effects s |}.

Definition with_typingIndicator (v : option nat) (s : State) : State :=
  {| chatWindow := chatWindow s; nextNode := nextNode s;
     inputValue := inputValue s; inputDisabled := inputDisabled s;
     typingIndicator := v; messageHistory := messageHistory s;
     isProcessing := isProcessing s; localStorage := localStorage s;
     effects := effects s |}.

Definition with_messageHistory (v : JSValue) (s : State) : State :=
  {| chatWindow := chatWindow s; nextNode := nextNode s;
     inputValue := inputValue s; inputDisabled := inputDisabled s;
     typingIndicator := typingIndicator s; messageHistory := v;
     isProcessing := isProcessing s; localStorage := localStorage s;
     effects := effects s |}.

Definition with_isProcessing (v : bool) (s : State) : State :=
  {| chatWindow := chatWindow s; nextNode := nextNode s;
     inputValue := inputValue s; inputDisabled := inputDisabled s;
     typingIndicator := typingIndicator s;
     messageHistory := messageHistory s; isProcessing := v;
     localStorage := localStorage s; effects := effects s |}.

Definition with_localStorage (v : Storage) (s : State) : State :=
  {| chatWindow := chatWindow s; nextNode := nextNode s;
     inputValue := inputValue s; inputDisabled := inputDisabled s;
     typingIndicator := typingIndicator s;
     messageHistory := messageHistory s; isProcessing := isProcessing s;
     localStorage := v; effects := effects s |}.

(** More entries at the end of the record of effects. *)
Definition noted (es : list Effect) (s : State) : State :=
  {| chatWindow := chatWindow s; nextNode := nextNode s;
     inputValue := inputValue s; inputDisabled := inputDisabled s;
     typingIndicator := typingIndicator s;
     messageHistory := messageHistory s; isProcessing := isProcessing s;
     localStorage := localStorage s; effects := effects s ++ es |}.

Definition emit (e : Effect) : M State unit :=
  fun s => (Ret tt, noted [e] s).

(** The key of the persisted history. *)
Definition storageKey : jsstring := js "genie-message-history".

(** The entry [{ text, sender, timestamp: new Date() }]. *)
Definition entry (text : JSValue) (who : Sender) (now : Z) : JSValue :=
  JObj [ (js "text", text);
         (js "sender", JStr (js (senderName who)));
         (js "timestamp", JDate now) ].

(** The selector [.message:not(.typing-indicator)]. *)
Definition isMessage (e : Element) : bool :=
  hasClass "message" e && negb (hasClass "typing-indicator" e).

(** The loop of [enforceMessageLimit]: among the selected elements, those
    of index below [excess] are removed unless they carry the class
    [welcome-message]. *)
Fixpoint removeExcess (excess : nat) (children : list Element)
  : list Element :=
  match children with
  | [] => []
  | e :: r =>
      if isMessage e then
        match excess with
        | O => e :: r
        | S n =>
            if hasClass "welcome-message" e then e :: removeExcess n r
            else removeExcess n r
        end
      else e :: removeExcess excess r
  end.

(** The task that [handleSendMessage] leaves behind at
    [await this.sleep(delay)]. *)
Record Task : Type := { userMessage : jsstring; delay : Z }.

Section Methods.

Context `{JSONHost}.
Variable config : Config.

(** [log(...args)] *)
Definition log (what : jsstring) : M State unit :=
  when (development_enableLogging config) (emit (ConsoleLog what)).

(** [handleError(message, error)] *)
Definition handleError (message : jsstring) : M State unit :=
  log (js "Error: " ++ message) ;;
  when (development_debugMode config) (emit (ConsoleError message)).

(** [showError(message)] *)
Definition showError (message : jsstring) : M State unit :=
  emit (Alert message).

(** [validateMessage(message)] *)
Definition validateMessage (message : jsstring) : M State bool :=
  if falsy message then
    showError (messages_errorEmpty config) ;;
    emit FocusInput ;;
    ret false
  else if (ui_maxMessageLength config <? length message)%nat then
    showError (js "Message too long. Maximum "
                 ++ decimal (N.of_nat (ui_maxMessageLength config))
                 ++ js " characters allowed.") ;;
    ret false
  else ret true.

(** [getRandomDelay()] *)
Definition getRandomDelay (r : Draw) : Z :=
  let min := responses_delay_min config in
  let max := responses_delay_max config in
  floor_mul r (max - min + 1) + min.

(** [generateResponse(userMessage)] *)
Definition generateResponse (userMessage : jsstring) (r : Draw) : JSValue :=
  if development_mockResponses config then
    let responses := responses_replies config in
    match Array_get responses (floor_mul r (Z.of_nat (length responses))) with
    | Some reply => JStr reply
    | None => JUndefined
    end
  else JStr (js "I'm not connected to the real genie API yet!").

(** [createMessageElement(text, sender)] *)
Definition createMessageElement (text : JSValue) (who : Sender)
  : M State Element :=
  id <- gets nextNode ;;
  modify (with_nextNode (S id)) ;;
  ret {| el_id := id;
         el_classes := ["message"; senderName who ++ "-message"]%string;
         el_text := text |}.

(** [this.elements.chatWindow.appendChild(element)] *)
Definition appendChild (e : Element) : M State unit :=
  modify (fun s => with_chatWindow (chatWindow s ++ [e]) s).

(** [scrollToBottom()] *)
Definition scrollToBottom : M State unit := emit ScrollToBottom.

(** [announceToScreenReader(text)] *)
Definition announceToScreenReader (text : JSValue) : M State unit :=
  emit (Announce text).

(** [this.messageHistory.push(entry)] *)
Definition push (e : JSValue) : M State unit :=
  h <- gets messageHistory ;;
  match h with
  | JArr a => modify (with_messageHistory (JArr (a ++ [e])))
  | _ => throw TypeError
  end.

(** [enforceMessageLimit()] *)
Definition enforceMessageLimit : M State unit :=
  messages <- gets (fun s => List.filter isMessage (chatWindow s)) ;;
  let limit := ui_messageLimit config in
  if (limit <? length messages)%nat then
    let excess := (length messages - limit)%nat in
    modify (fun s => with_chatWindow (removeExcess excess (chatWindow s)) s) ;;
    h <- gets messageHistory ;;
    match slice (- Z.of_nat limit) h with
    | inr h' => modify (with_messageHistory h')
    | inl e => throw e
    end
  else ret tt.

(** [localStorage.setItem(key, value)] *)
Definition setItem (key value : jsstring) : M State unit :=
  emit (StorageWrite key value) ;;
  st <- gets localStorage ;;
  match Storage_setItem st key value with
  | inr st' => modify (with_localStorage st')
  | inl e => throw e
  end.

(** [localStorage.getItem(key)] *)
Definition getItem (key : jsstring) : M State (option jsstring) :=
  emit (StorageRead key) ;;
  st <- gets localStorage ;;
  match Storage_getItem st key with
  | inr v => ret v
  | inl e => throw e
  end.

(** [saveMessageHistory()] *)
Definition saveMessageHistory : M State unit :=
  if negb (features_enableMessageHistory config) then ret tt
  else
    try_catch
      (h <- gets messageHistory ;;
       match slice (-50) h with
       | inr toStore => setItem storageKey (JSON_stringify toStore)
       | inl e => throw e
       end)
      (fun _ => log (js "Failed to save message history:")).

(** [loadMessageHistory()] *)
Definition loadMessageHistory : M State unit :=
  if negb (features_enableMessageHistory config) then ret tt
  else
    try_catch
      (stored <- getItem storageKey ;;
       match stored with
       | Some text =>
           if falsy text then ret tt
           else
             match JSON_parse text with
             | Some v =>
                 modify (with_messageHistory v) ;;
                 log (js "Message history loaded")
             | None => throw SyntaxError
             end
       | None => ret tt
       end)
      (fun _ => log (js "Failed to load message history:")).

(** [addMessage(text, sender)], with the value of [new Date()]. *)
Definition addMessage (text : JSValue) (who : Sender) (now : Z)
  : M State unit :=
  messageElement <- createMessageElement text who ;;
  appendChild messageElement ;;
  emit (MessageAppended who text) ;;
  push (entry text who now) ;;
  enforceMessageLimit ;;
  when (ui_autoScroll config) scrollToBottom ;;
  when (accessibility_announceMessages config && Sender_eqb who genie)
    (announceToScreenReader text) ;;
  when (features_enableMessageHistory config) saveMessageHistory.

(** [showTypingIndicator()] *)
Definition showTypingIndicator : M State unit :=
  e <- createMessageElement (JStr (messages_processing config)) genie ;;
  let e' := {| el_id := el_id e;
               el_classes := el_classes e ++ ["typing-indicator"%string];
               el_text := el_text e |} in
  modify (with_typingIndicator (Some (el_id e'))) ;;
  appendChild e' ;;
  scrollToBottom.

(** [hideTypingIndicator()] *)
Definition hideTypingIndicator : M State unit :=
  t <- gets typingIndicator ;;
  match t with
  | Some id =>
      modify (fun s =>
                with_chatWindow
                  (List.filter (fun e => negb (el_id e =? id)%nat)
                     (chatWindow s)) s) ;;
      modify (with_typingIndicator None)
  | None => ret tt
  end.

(** [updateUIState(processing)]: the input is disabled while processing
    (the label and state of the send button are not modelled). *)
Definition updateUIState (processing : bool) : M State unit :=
  modify (with_inputDisabled processing).

(** [processGenieResponse(userMessage)] up to [await this.sleep(delay)]:
    the delay that the timer is set to. *)
Definition processGenieResponse_begin (rDelay : Draw) : M State Z :=
  when (ui_showTypingIndicator config) showTypingIndicator ;;
  ret (getRandomDelay rDelay).

(** [processGenieResponse(userMessage)] after the sleep. *)
Definition processGenieResponse_rest (userMessage : jsstring) (r : Draw)
    (now : Z) : M State unit :=
  hideTypingIndicator ;;
  let response := generateResponse userMessage r in
  addMessage response genie now.

(** The [catch] and [finally] clauses of [handleSendMessage] around what
    is left of the [try] block. *)
Definition settle (now : Z) (body : M State unit) : M State unit :=
  try_finally
    (try_catch body
       (fun _ =>
          handleError (js "Failed to send message") ;;
          addMessage (JStr (messages_errorNetwork config)) genie now))
    (modify (with_isProcessing false) ;;
     updateUIState false).

(** [handleSendMessage()] up to its first suspension.  The result is the
    task left waiting for the timer, or [None] when the call is over;
    [Throw] stands for a rejected promise. *)
Definition handleSendMessage (rDelay : Draw) (now : Z)
  : M State (option Task) :=
  messageText <- gets (fun s => trim (inputValue s)) ;;
  valid <- validateMessage messageText ;;
  if negb valid then ret None
  else
    busy <- gets isProcessing ;;
    if busy then ret None
    else
      fun s =>
        match (modify (with_isProcessing true) ;;
               updateUIState true ;;
               addMessage (JStr messageText) user now ;;
               modify (with_inputValue []) ;;
               processGenieResponse_begin rDelay) s with
        | (Ret d, s') =>
            (Ret (Some {| userMessage := messageText; delay := d |}), s')
        | (Throw e, s') =>
            match settle now (throw e) s' with
            | (Ret _, s'') => (Ret None, s'')
            | (Throw e', s'') => (Throw e', s'')
            end
        end.

(** [handleSendMessage()] from the moment the timer fires. *)
Definition handleSendMessage_resume (t : Task) (r : Draw) (now : Z)
  : M State unit :=
  settle now (processGenieResponse_rest (userMessage t) r now).

(** [logInitialization()] *)
Definition logInitialization : M State unit :=
  log (js "v" ++ app_version config ++ js " initialized successfully") ;;
  when (development_debugMode config)
    (log (js "Debug mode enabled") ;; log (js "Configuration:")).

End Methods.

(** What the constructor finds on the page: the chat window with the
    elements that the markup puts in it, the form, the input field with its
    value, and the storage of the origin. *)
Record Page : Type := {
  page_chatWindow : option (list Element);
  page_messageForm : bool;
  page_messageInput : option jsstring;
  page_localStorage : Storage;
}.

(** The names that [cacheElements] reports as missing. *)
Definition missingElements (page : Page) : list string :=
  match page_chatWindow page with
  | Some _ => []
  | None => ["chatWindow"%string]
  end
  ++ (if page_messageForm page then [] else ["messageForm"%string])
  ++ match page_messageInput page with
     | Some _ => []
     | None => ["messageInput"%string]
     end.

(** The instance as the constructor leaves it before [init()]. *)
Definition blank (page : Page) : State :=
  let children := default [] (page_chatWindow page) in
  {| chatWindow := children;
     nextNode := S (list_max (map el_id children));
     inputValue := default [] (page_messageInput page);
     inputDisabled := false;
     typingIndicator := None;
     messageHistory := JArr [];
     isProcessing := false;
     localStorage := page_localStorage page;
     effects := [] |}.

(** [cacheElements()] *)
Definition cacheElements (page : Page) : M State unit :=
  match missingElements page with
  | [] => ret tt
  | missing => throw (MissingElements missing)
  end.

(** How a page load ends for the class. *)
Inductive Startup : Type :=
| ConfigMissing (log : list Effect)  (* no instance, or one without config *)
| InitFailed (s : State)             (* init() caught an error: no event
                                        is bound, the instance stays inert *)
| Started (s : State).               (* the instance answers to the form *)

(** [init()]: [bindEvents] registers the handlers, which the events of
    [Genie.step] stand for. *)
Definition init `{JSONHost} (config : Config) (page : Page) : Startup :=
  match cacheElements page (blank page) with
  | (Throw _, s) =>
      InitFailed (snd (handleError config
                         (js "Failed to initialize application") s))
  | (Ret _, s) =>
      Started (snd (try_catch
                      (loadMessageHistory config ;; logInitialization config)
                      (fun _ => handleError config
                                  (js "Failed to initialize application")) s))
  end.

(** [new GlobocorpGenie()] *)
Definition constructor `{JSONHost} (windowGenieConfig : option Config)
    (page : Page) : Startup :=
  match windowGenieConfig with
  | None =>
      ConfigMissing
        [ConsoleError
           (js "GenieConfig not found. Please ensure config.js is loaded first.")]
  | Some config => init config page
  end.

(** The handler of [DOMContentLoaded]. *)
Definition main `{JSONHost} (windowGenieConfig : option Config)
    (page : Page) : Startup :=
  match windowGenieConfig with
  | None =>
      ConfigMissing
        [ConsoleError (js "GenieConfig not found. Application cannot start.")]
  | Some _ => constructor windowGenieConfig page
  end.

(** The instance and the calls of [handleSendMessage] that wait for their
    timer. *)
Record System : Type := { instance : State; waiting : list Task }.

(** What happens to a running instance: the input field is given a value,
    [handleSendMessage] is called (by the form, a key, or a script), or the
    timer of the waiting call number [i] fires. *)
Inductive Event : Type :=
| Typed (text : jsstring)
| Submit (rDelay : Draw) (now : Z)
| TimerFires (i : nat) (r : Draw) (now : Z).

Definition step `{JSONHost} (config : Config) (ev : Event) (sys : System)
  : System :=
  match ev with
  | Typed text =>
      {| instance := with_inputValue text (instance sys);
         waiting := waiting sys |}
  | Submit rDelay now =>
      match handleSendMessage config rDelay now (instance sys) with
      | (Ret (Some t), s) =>
          {| instance := s; waiting := waiting sys ++ [t] |}
      | (_, s) => {| instance := s; waiting := waiting sys |}
      end
  | TimerFires i r now =>
      match nth_error (waiting sys) i with
      | Some t =>
          {| instance := snd (handleSendMessage_resume config t r now
                                (instance sys));
             waiting := firstn i (waiting sys) ++ skipn (S i) (waiting sys) |}
      | None => sys
      end
  end.

Definition run `{JSONHost} (config : Config) (events : list Event)
    (sys : System) : System :=
  fold_left (fun sys ev => step config ev sys) events sys.

(** The messages appended so far, in order. *)
Fixpoint appended (log : list Effect) : list (Sender * JSValue) :=
  match log with
  | [] => []
  | MessageAppended who text :: r => (who, text) :: appended r
  | _ :: r => appended r
  end.

End Genie.

(** ** app.js: object Utils and class GenieChat *)

Module App.

(** The fields of [CONFIG] that the code reads. *)
Record Config : Type := {
  app_name : jsstring;
  app_version : jsstring;
  app_author : jsstring;
  chat_maxMessageLength : nat;
  chat_typingDelay_min : Z;
  chat_typingDelay_max : Z;
  chat_responses : list jsstring;
  chat_errorMessages_empty : jsstring;
  chat_errorMessages_tooLong : jsstring;
  chat_errorMessages_network : jsstring;
  animation_messageDelay : Z;
}.

(** The constant [CONFIG] of the file. *)
Definition CONFIG : Config := {|
  app_name := js "GloboCorp's GPT Genie";
  app_version := js "2.0";
  app_author := js "mlazze@globocorp.com";
  chat_maxMessageLength := 500;
  chat_typingDelay_min := 800;
  chat_typingDelay_max := 2000;
  chat_responses := [
    js "Your wish is my command! ✨";
    js "That's an absolutely brilliant idea! 💡";
    js "I can feel the magic in your words! 🌟";
    js "What an incredible vision you have! 👁️";
    js "The genie approves of this wish! 🧞‍♂️";
    js "Your creativity knows no bounds! 🎨";
    js "I'm impressed by your imagination! 💭";
    js "That sounds like pure magic! ⚡";
    js "Let me weave some magic around that idea! 🪄";
    js "Your dreams are about to come true! 🌈";
    js "I sense great potential in your wish! 🔮";
    js "The universe is aligning with your vision! 🌌" ];
  chat_errorMessages_empty := js "Please share your wish with the genie! ✨";
  chat_errorMessages_tooLong :=
    js "Your wish is too long! Please keep it under 500 characters. 📝";
  chat_errorMessages_network :=
    js "The genie is temporarily unavailable. Please try again! 🧞‍♂️";
  animation_messageDelay := 50;
|}.

(** The result [{ valid, error }] of [Utils.validateMessage]. *)
Inductive Validation : Type :=
| valid
| invalid (error : jsstring).

(** An entry [{ type, content, timestamp }] of [state.messages]. *)
Record Message : Type := {
  type : Sender;
  content : JSValue;
  timestamp : Z;
}.

(** The instance with the part of the page that it reads and writes. *)
Record State : Type := {
  messageCount : nat;             (* this.state.messageCount *)
  messages : list Message;        (* this.state.messages *)
  isTyping : bool;                (* this.state.isTyping *)
  isFirstMessage : bool;          (* this.state.isFirstMessage *)
  chatContainer : list Element;   (* the elements inside #chatContainer *)
  nextNode : nat;
  inputValue : jsstring;          (* messageInput.value *)
  inputDisabled : bool;           (* messageInput.disabled, sendButton.disabled *)
  typingShown : bool;             (* #typingIndicator is displayed *)
  effects : list Effect;
}.

(** Where a call of [handleSendMessage] waits for a timer. *)
Inductive Task : Type :=
| AfterUserScroll    (* addUserMessage: await this.scrollToBottom() *)
| AfterTypingDelay (delay : Z)
                     (* simulateGenieResponse: await this.wait(delay) *)
| AfterGenieScroll.  (* addGenieMessage: await this.scrollToBottom() *)

Section Methods.

Variable config : Config.

(** [Utils.getRandomDelay()] *)
Definition getRandomDelay (r : Draw) : Z :=
  let min := chat_typingDelay_min config in
  let max := chat_typingDelay_max config in
  floor_mul r (max - min + 1) + min.

(** [Utils.getRandomResponse()] *)
Definition getRandomResponse (r : Draw) : JSValue :=
  let responses := chat_responses config in
  match Array_get responses (floor_mul r (Z.of_nat (length responses))) with
  | Some reply => JStr reply
  | None => JUndefined
  end.

(** [Utils.validateMessage(message)] *)
Definition validateMessage (message : jsstring) : Validation :=
  if falsy message || (length (trim message) =? 0)%nat then
    invalid (chat_errorMessages_empty config)
  else if (chat_maxMessageLength config <? length message)%nat then
    invalid (chat_errorMessages_tooLong config)
  else valid.

Definition noted (es : list Effect) (s : State) : State :=
  {| messageCount := messageCount s; messages := messages s;
     isTyping := isTyping s; isFirstMessage := isFirstMessage s;
     chatContainer := chatContainer s; nextNode := nextNode s;
     inputValue := inputValue s; inputDisabled := inputDisabled s;
     typingShown := typingShown s; effects := effects s ++ es |}.

Definition emit (e : Effect) : M State unit :=
  fun s => (Ret tt, noted [e] s).

Definition with_messages (count : nat) (v : list Message) (s : State)
  : State :=
  {| messageCount := count; messages := v;
     isTyping := isTyping s; isFirstMessage := isFirstMessage s;
     chatContainer := chatContainer s; nextNode := nextNode s;
     inputValue := inputValue s; inputDisabled := inputDisabled s;
     typingShown := typingShown s; effects := effects s |}.

Definition with_isTyping (v : bool) (s : State) : State :=
  {| messageCount := messageCount s; messages := messages s;
     isTyping := v; isFirstMessage := isFirstMessage s;
     chatContainer := chatContainer s; nextNode := nextNode s;
     inputValue := inputValue s; inputDisabled := inputDisabled s;
     typingShown := typingShown s; effects := effects s |}.

Definition with_isFirstMessage (v : bool) (s : State) : State :=
  {| messageCount := messageCount s; messages := messages s;
     isTyping := isTyping s; isFirstMessage := v;
     chatContainer := chatContainer s; nextNode := nextNode s;
     inputValue := inputValue s; inputDisabled := inputDisabled s;
     typingShown := typingShown s; effects := effects s |}.

Definition with_chatContainer (v : list Element) (next : nat) (s : State)
  : State :=
  {| messageCount := messageCount s; messages := messages s;
     isTyping := isTyping s; isFirstMessage := isFirstMessage s;
     chatContainer := v; nextNode := next;
     inputValue := inputValue s; inputDisabled := inputDisabled s;
     typingShown := typingShown s; effects := effects s |}.

Definition with_inputValue (v : jsstring) (s : State) : State :=
  {| messageCount := messageCount s; messages := messages s;
     isTyping := isTyping s; isFirstMessage := isFirstMessage s;
     chatContainer := chatContainer s; nextNode := nextNode s;
     inputValue := v; inputDisabled := inputDisabled s;
     typingShown := typingShown s; effects := effects s |}.

Definition with_inputDisabled (v : bool) (s : State) : State :=
  {| messageCount := messageCount s; messages := messages s;
     isTyping := isTyping s; isFirstMessage := isFirstMessage s;
     chatContainer := chatContainer s; nextNode := nextNode s;
     inputValue := inputValue s; inputDisabled := v;
     typingShown := typingShown s; effects := effects s |}.

Definition with_typingShown (v : bool) (s : State) : State :=
  {| messageCount := messageCount s; messages := messages s;
     isTyping := isTyping s; isFirstMessage := isFirstMessage s;
     chatContainer := chatContainer s; nextNode := nextNode s;
     inputValue := inputValue s; inputDisabled := inputDisabled s;
     typingShown := v; effects := effects s |}.

(** [focusInput()] *)
Definition focusInput : M State unit := emit FocusInput.

(** [showError(message)]: the timer that puts the placeholder back is not
    modelled. *)
Definition showError (message : jsstring) : M State unit :=
  emit (ConsoleWarn message) ;;
  focusInput ;;
  emit (Placeholder message).

(** [setInputDisabled(disabled)] *)
Definition setInputDisabled (disabled : bool) : M State unit :=
  modify (with_inputDisabled disabled).

(** The first element of the class [welcome-message] is removed. *)
Fixpoint removeWelcome (children : list Element) : list Element :=
  match children with
  | [] => []
  | e :: r => if hasClass "welcome-message" e then r
              else e :: removeWelcome r
  end.

(** [clearWelcomeMessage()] *)
Definition clearWelcomeMessage : M State unit :=
  modify (fun s =>
            with_chatContainer (removeWelcome (chatContainer s))
              (nextNode s) s).

(** [createMessageElement(message, type)] followed by
    [this.elements.chatContainer.appendChild(messageElement)]. *)
Definition appendMessageElement (message : JSValue) (who : Sender)
  : M State unit :=
  modify (fun s =>
            with_chatContainer
              (chatContainer s
               ++ [{| el_id := nextNode s;
                      el_classes :=
                        ["message"; senderName who ++ "-message"]%string;
                      el_text := message |}])
              (S (nextNode s)) s) ;;
  emit (MessageAppended who message).

(** [addUserMessage(message)] up to [await this.scrollToBottom()]. *)
Definition addUserMessage_begin (message : jsstring) (now : Z)
  : M State unit :=
  first <- gets isFirstMessage ;;
  when first (clearWelcomeMessage ;; modify (with_isFirstMessage false)) ;;
  appendMessageElement (JStr message) user ;;
  modify (fun s =>
            with_messages (S (messageCount s))
              (messages s
               ++ [{| type := user; content := JStr message;
                      timestamp := now |}]) s).

(** [addGenieMessage(message)] up to [await this.scrollToBottom()]. *)
Definition addGenieMessage_begin (message : JSValue) (now : Z)
  : M State unit :=
  appendMessageElement message genie ;;
  modify (fun s =>
            with_messages (messageCount s)
              (messages s
               ++ [{| type := genie; content := message;
                      timestamp := now |}]) s).

(** The [finally] clause of [handleSendMessage]. *)
Definition finish : M State unit :=
  setInputDisabled false ;;
  focusInput.

(** [handleSendMessage()] up to its first suspension: [None] when the
    call is over, or the place where it waits. *)
Definition handleSendMessage (now : Z) : M State (option Task) :=
  typing <- gets isTyping ;;
  if typing then ret None
  else
    message <- gets (fun s => trim (inputValue s)) ;;
    match validateMessage message with
    | invalid error => showError error ;; ret None
    | valid =>
        setInputDisabled true ;;
        addUserMessage_begin message now ;;
        ret (Some AfterUserScroll)
    end.

(** [handleSendMessage()] from the moment a timer fires to the next
    suspension.  [r] is the draw of [Math.random()] that the step makes,
    if it makes one. *)
Definition handleSendMessage_resume (t : Task) (r : Draw) (now : Z)
  : M State (option Task) :=
  match t with
  | AfterUserScroll =>
      emit ScrollToBottom ;;
      modify (with_inputValue []) ;;
      modify (with_typingShown true) ;;
      modify (with_isTyping true) ;;
      let delay := getRandomDelay r in
      ret (Some (AfterTypingDelay delay))
  | AfterTypingDelay _ =>
      modify (with_typingShown false) ;;
      let response := getRandomResponse r in
      addGenieMessage_begin response now ;;
      ret (Some AfterGenieScroll)
  | AfterGenieScroll =>
      emit ScrollToBottom ;;
      modify (with_isTyping false) ;;
      finish ;;
      ret None
  end.

End Methods.

(** The five elements that [initializeElements] requires, the elements
    that the markup puts in the chat container, and the value of the
    input. *)
Record Page : Type := {
  page_chatContainer : option (list Element);
  page_messageInput : option jsstring;
  page_messageForm : bool;
  page_typingIndicator : bool;
  page_sendButton : bool;
}.

(** How a page load ends for the class. *)
Inductive Startup : Type :=
| StartFailed (missing : string)   (* the constructor threw: the handler of
                                      DOMContentLoaded shows the error page *)
| Started (s : State).

(** [initializeElements()]: the first missing element, in the order of
    the object literal. *)
Definition initializeElements (page : Page) : option string :=
  match page_chatContainer page, page_messageInput page with
  | None, _ => Some "chatContainer"%string
  | Some _, None => Some "messageInput"%string
  | Some _, Some _ =>
      if negb (page_messageForm page) then Some "messageForm"%string
      else if negb (page_typingIndicator page)
      then Some "typingIndicator"%string
      else if negb (page_sendButton page) then Some "sendButton"%string
      else None
  end.

(** [new GenieChat()]: [initialize()] binds the handlers, writes the
    version into the footer, focuses the input and logs the start. *)
Definition constructor (config : Config) (page : Page) : Startup :=
  match initializeElements page with
  | Some missing => StartFailed missing
  | None =>
      let children := default [] (page_chatContainer page) in
      Started
        {| messageCount := 0; messages := []; isTyping := false;
           isFirstMessage := true; chatContainer := children;
           nextNode := S (list_max (map el_id children));
           inputValue := default [] (page_messageInput page);
           inputDisabled := false; typingShown := false;
           effects :=
             [FocusInput;
              ConsoleLog (app_name config ++ js " v" ++ app_version config
                            ++ js " loaded");
              ConsoleLog (js "Created by " ++ app_author config)] |}
  end.

(** The instance and the calls of [handleSendMessage] that wait for a
    timer. *)
Record System : Type := { instance : State; waiting : list Task }.

Inductive Event : Type :=
| Typed (text : jsstring)
| Submit (now : Z)
| TimerFires (i : nat) (r : Draw) (now : Z).

Definition step (config : Config) (ev : Event) (sys : System) : System :=
  match ev with
  | Typed text =>
      {| instance := with_inputValue text (instance sys);
         waiting := waiting sys |}
  | Submit now =>
      match handleSendMessage config now (instance sys) with
      | (Ret (Some t), s) =>
          {| instance := s; waiting := waiting sys ++ [t] |}
      | (_, s) => {| instance := s; waiting := waiting sys |}
      end
  | TimerFires i r now =>
      match nth_error (waiting sys) i with
      | Some t =>
          match handleSendMessage_resume config t r now (instance sys) with
          | (Ret (Some t'), s) =>
              {| instance := s;
                 waiting := firstn i (waiting sys) ++ [t']
                              ++ skipn (S i) (waiting sys) |}
          | (_, s) =>
              {| instance := s;
                 waiting := firstn i (waiting sys)
                              ++ skipn (S i) (waiting sys) |}
          end
      | None => sys
      end
  end.

Definition run (config : Config) (events : list Event) (sys : System)
  : System :=
  fold_left (fun sys ev => step config ev sys) events sys.

(** The page delivers the events: a disabled input field and a disabled
    send button submit nothing. *)
Definition deliver (config : Config) (ev : Event) (sys : System) : System :=
  match ev with
  | Submit _ =>
      if inputDisabled (instance sys) then sys else step config ev sys
  | _ => step config ev sys
  end.

Definition runPage (config : Config) (events : list Event) (sys : System)
  : System :=
  fold_left (fun sys ev => deliver config ev sys) events sys.

End App.

Example stringify_entry :
  MiniJSON.stringify (JArr [Genie.entry (JStr (js "hi")) user 0])
  = jsq "[{'text':'hi','sender':'user','timestamp':'1970-01-01T00:00:00.000Z'}]".
Proof. vm_compute. reflexivity. Qed.

Example roundtrip_entry :
  let v := JArr [Genie.entry (JStr (jsq "say 'hi' ✨ \ now")) user 1700000000123;
                 Genie.entry JUndefined genie 1700000000999] in
  MiniJSON.parse (MiniJSON.stringify v) = Some (toJSON v).
Proof. vm_compute. reflexivity. Qed.

(** * Properties *)

(** ** Random draws: delay and reply selection *)

Lemma floor_mul_bounds (r : Draw) (n : Z) :
  valid_draw r -> 0 < n -> 0 <= floor_mul r n < n.
Proof.
  unfold valid_draw, floor_mul. intros [Hlo Hhi] Hn. split.
  - apply Z.div_pos; nia.
  - apply Z.div_lt_upper_bound; nia.
Qed.

Lemma Array_get_in_range {A : Type} (a : list A) (i : Z) :
  0 <= i < Z.of_nat (length a) ->
  exists x, Array_get a i = Some x /\ nth_error a (Z.to_nat i) = Some x
            /\ In x a.
Proof.
  intros Hi. unfold Array_get.
  replace ((0 <=? i) && (i <? Z.of_nat (length a))) with true
    by (symmetry; apply andb_true_intro; split; lia).
  destruct (nth_error a (Z.to_nat i)) as [x|] eqn:E.
  - exists x. repeat split; trivial. eapply nth_error_In; eassumption.
  - apply nth_error_None in E. lia.
Qed.

Lemma getRandomDelay_range (min max : Z) (r : Draw) :
  valid_draw r -> min <= max ->
  min <= floor_mul r (max - min + 1) + min <= max.
Proof.
  intros Hr Hle.
  pose proof (floor_mul_bounds r (max - min + 1) Hr ltac:(lia)). lia.
Qed.

(** C8: with [min <= max] the delay that [getRandomDelay] computes, in
    genie.js and in app.js, lies in the closed interval [[min, max]] for every
    draw of [Math.random()]; for the range [{min: 5, max: 5}] it is 5. *)
Theorem getRandomDelay_in_range :
  forall (gc : Genie.Config) (ac : App.Config) (r : Draw),
    valid_draw r ->
    (Genie.responses_delay_min gc <= Genie.responses_delay_max gc ->
     Genie.responses_delay_min gc <= Genie.getRandomDelay gc r
       <= Genie.responses_delay_max gc)
    /\ (App.chat_typingDelay_min ac <= App.chat_typingDelay_max ac ->
        App.chat_typingDelay_min ac <= App.getRandomDelay ac r
          <= App.chat_typingDelay_max ac)
    /\ (Genie.responses_delay_min gc = 5 ->
        Genie.responses_delay_max gc = 5 -> Genie.getRandomDelay gc r = 5)
    /\ (App.chat_typingDelay_min ac = 5 ->
        App.chat_typingDelay_max ac = 5 -> App.getRandomDelay ac r = 5).
Proof.
  intros gc ac r Hr. unfold Genie.getRandomDelay, App.getRandomDelay.
  repeat split; intros.
  - apply getRandomDelay_range; assumption.
  - apply getRandomDelay_range; assumption.
  - apply getRandomDelay_range; assumption.
  - apply getRandomDelay_range; assumption.
  - pose proof (getRandomDelay_range (Genie.responses_delay_min gc)
                  (Genie.responses_delay_max gc) r Hr ltac:(lia)). lia.
  - pose proof (getRandomDelay_range (App.chat_typingDelay_min ac)
                  (App.chat_typingDelay_max ac) r Hr ltac:(lia)). lia.
Qed.

(** config.js with other replies, delay range, message limit and
    toggles. *)
Definition variant (replies : list jsstring) (min max : Z) (limit : nat)
    (enableMessageHistory mockResponses : bool) : Genie.Config := {|
  Genie.app_name := Genie.app_name Genie.GenieConfig;
  Genie.app_version := Genie.app_version Genie.GenieConfig;
  Genie.messages_errorEmpty := Genie.messages_errorEmpty Genie.GenieConfig;
  Genie.messages_errorNetwork := Genie.messages_errorNetwork Genie.GenieConfig;
  Genie.messages_processing := Genie.messages_processing Genie.GenieConfig;
  Genie.responses_replies := replies;
  Genie.responses_delay_min := min;
  Genie.responses_delay_max := max;
  Genie.ui_maxMessageLength := 500;
  Genie.ui_autoScroll := true;
  Genie.ui_showTypingIndicator := true;
  Genie.ui_messageLimit := limit;
  Genie.features_enableMessageHistory := enableMessageHistory;
  Genie.accessibility_announceMessages := true;
  Genie.development_enableLogging := true;
  Genie.development_debugMode := false;
  Genie.development_mockResponses := mockResponses;
|}.

(** config.js with the delay range [{min: 5, max: 5}]. *)
Definition config_delay_5_5 : Genie.Config :=
  variant (Genie.responses_replies Genie.GenieConfig) 5 5 100 true true.

Lemma getRandomDelay_in_range_witness :
  valid_draw {| num := 999; den := 1000 |}
  /\ Genie.getRandomDelay config_delay_5_5 {| num := 999; den := 1000 |} = 5
  /\ 800 <= App.getRandomDelay App.CONFIG {| num := 999; den := 1000 |}
       <= 2000.
Proof.
  assert (Hr : valid_draw {| num := 999; den := 1000 |})
    by (unfold valid_draw; simpl; lia).
  destruct (getRandomDelay_in_range config_delay_5_5 App.CONFIG _ Hr)
    as (_ & Happ & Hfive & _).
  split; [exact Hr|]. split.
  - apply Hfive; reflexivity.
  - apply Happ. simpl. lia.
Defined.

(** C9, as the code has it: for a non-empty reply set and every draw the
    index [floor(r * length)] is in bounds; [Utils.getRandomResponse] of
    app.js returns the reply at that index, and so does [generateResponse]
    of genie.js when [development.mockResponses] is on; when it is off,
    [generateResponse] returns its fixed placeholder text and the reply set
    is not consulted. *)
Theorem reply_selection_in_bounds :
  forall (gc : Genie.Config) (ac : App.Config) (userMessage : jsstring)
         (r : Draw),
    valid_draw r ->
    (Genie.responses_replies gc <> [] ->
     let replies := Genie.responses_replies gc in
     let i := floor_mul r (Z.of_nat (length replies)) in
     0 <= i < Z.of_nat (length replies)
     /\ (Genie.development_mockResponses gc = true ->
         exists reply,
           Genie.generateResponse gc userMessage r = JStr reply
           /\ nth_error replies (Z.to_nat i) = Some reply
           /\ In reply replies)
     /\ (Genie.development_mockResponses gc = false ->
         Genie.generateResponse gc userMessage r
         = JStr (js "I'm not connected to the real genie API yet!")))
    /\ (App.chat_responses ac <> [] ->
        let responses := App.chat_responses ac in
        let i := floor_mul r (Z.of_nat (length responses)) in
        0 <= i < Z.of_nat (length responses)
        /\ exists reply,
             App.getRandomResponse ac r = JStr reply
             /\ nth_error responses (Z.to_nat i) = Some reply
             /\ In reply responses).
Proof.
  intros gc ac userMessage r Hr. split.
  - intros Hne replies i.
    assert (Hi : 0 <= i < Z.of_nat (length replies)).
    { apply floor_mul_bounds; [assumption|].
      subst replies. destruct (Genie.responses_replies gc); [congruence|].
      simpl. lia. }
    split; [exact Hi|]. unfold Genie.generateResponse. split; intros Hmock.
    + rewrite Hmock. destruct (Array_get_in_range replies i Hi)
        as (reply & Hget & Hnth & Hin).
      exists reply. fold replies. fold i. rewrite Hget. auto.
    + rewrite Hmock. reflexivity.
  - intros Hne responses i.
    assert (Hi : 0 <= i < Z.of_nat (length responses)).
    { apply floor_mul_bounds; [assumption|].
      subst responses. destruct (App.chat_responses ac); [congruence|].
      simpl. lia. }
    split; [exact Hi|]. unfold App.getRandomResponse.
    destruct (Array_get_in_range responses i Hi)
      as (reply & Hget & Hnth & Hin).
    exists reply. fold responses. fold i. rewrite Hget. auto.
Qed.

Lemma reply_selection_in_bounds_witness :
  valid_draw {| num := 7; den := 10 |}
  /\ Genie.generateResponse Genie.GenieConfig (js "hi") {| num := 7; den := 10 |}
     = JStr (js "Your request has been processed successfully!")
  /\ exists reply,
       App.getRandomResponse App.CONFIG {| num := 7; den := 10 |} = JStr reply
       /\ In reply (App.chat_responses App.CONFIG).
Proof.
  assert (Hr : valid_draw {| num := 7; den := 10 |})
    by (unfold valid_draw; simpl; lia).
  destruct (reply_selection_in_bounds Genie.GenieConfig App.CONFIG (js "hi")
              _ Hr) as (Hg & Ha).
  split; [exact Hr|]. split.
  - reflexivity.
  - destruct Ha as (_ & reply & Hreply & _ & Hin); [discriminate|].
    exists reply. split; assumption.
Defined.

(** C9 fails as stated on genie.js: with [development.mockResponses] off
    the reply is not an element of a non-empty reply set. *)
Lemma reply_not_in_replySet :
  let gc := variant [js "Presto...100 points!"] 800 2000 100 true false in
  let r := {| num := 0; den := 1 |} in
  Genie.responses_replies gc <> []
  /\ valid_draw r
  /\ ~ (exists reply,
          Genie.generateResponse gc (js "hi") r = JStr reply
          /\ In reply (Genie.responses_replies gc)).
Proof.
  simpl. split; [discriminate|]. split; [unfold valid_draw; simpl; lia|].
  intros (reply & Hgen & Hin). vm_compute in Hgen.
  injection Hgen as <-. destruct Hin as [Heq | []]. vm_compute in Heq.
  discriminate.
Qed.

(** ** Validation *)

Definition headKept (s : jsstring) : Prop :=
  match s with [] => True | c :: _ => isWhiteSpace c = false end.

Lemma trimStart_headKept (s : jsstring) : headKept (trimStart s).
Proof.
  induction s as [|c r IH]; simpl; [exact I|].
  destruct (isWhiteSpace c) eqn:E; [exact IH|]. simpl. exact E.
Qed.

Lemma trimStart_fixed (s : jsstring) : headKept s -> trimStart s = s.
Proof. destruct s as [|c r]; simpl; [reflexivity|]. intros ->. reflexivity. Qed.

Lemma trimStart_suffix (s : jsstring) : exists pre, s = pre ++ trimStart s.
Proof.
  induction s as [|c r [pre IH]]; simpl.
  - exists []. reflexivity.
  - destruct (isWhiteSpace c).
    + exists (c :: pre). simpl. f_equal. exact IH.
    + exists []. reflexivity.
Qed.

Lemma trim_headKept (s : jsstring) : headKept (trim s).
Proof.
  unfold trim, trimEnd.
  pose proof (trimStart_headKept s) as Hs.
  destruct (trimStart_suffix (rev (trimStart s))) as [pre Hpre].
  apply (f_equal (@rev N)) in Hpre. rewrite rev_involutive, rev_app_distr in Hpre.
  destruct (rev (trimStart (rev (trimStart s)))) as [|c u]; [exact I|].
  rewrite Hpre in Hs. exact Hs.
Qed.

Lemma trim_idempotent (s : jsstring) : trim (trim s) = trim s.
Proof.
  unfold trim at 1. rewrite (trimStart_fixed _ (trim_headKept s)).
  unfold trim, trimEnd. rewrite rev_involutive.
  rewrite (trimStart_fixed (trimStart (rev (trimStart s)))); [reflexivity|].
  apply trimStart_headKept.
Qed.


(** The text of the alert for a message that is too long. *)
Definition tooLongAlert (gc : Genie.Config) : jsstring :=
  js "Message too long. Maximum "
    ++ decimal (N.of_nat (Genie.ui_maxMessageLength gc))
    ++ js " characters allowed.".


(** ** Reasoning about computations *)

(** [m] leaves the observation [f] of the state as it was. *)
Definition preserves {S X A : Type} (f : S -> X) (m : M S A) : Prop :=
  forall s, f (snd (m s)) = f s.

(** [m] returns: it does not throw. *)
Definition returns {S A : Type} (m : M S A) : Prop :=
  forall s, exists a, fst (m s) = Ret a.

Section Rules.

Context {S X : Type} (f : S -> X).

Lemma preserves_ret {A} (a : A) : preserves f (ret a).
Proof. intros s. reflexivity. Qed.

Lemma preserves_throw {A} (e : Exn) : preserves f (@throw S A e).
Proof. intros s. reflexivity. Qed.

Lemma preserves_gets {A} (g : S -> A) : preserves f (gets g).
Proof. intros s. reflexivity. Qed.

Lemma preserves_modify (g : S -> S) :
  (forall s, f (g s) = f s) -> preserves f (modify g).
Proof. intros Hg s. apply Hg. Qed.

Lemma preserves_bind {A B} (m : M S A) (k : A -> M S B) :
  preserves f m -> (forall a, preserves f (k a)) -> preserves f (bind m k).
Proof.
  intros Hm Hk s. unfold bind. specialize (Hm s).
  destruct (m s) as [[a|e] s1]; simpl in *.
  - rewrite Hk. exact Hm.
  - exact Hm.
Qed.

Lemma preserves_try_catch {A} (m : M S A) (h : Exn -> M S A) :
  preserves f m -> (forall e, preserves f (h e)) ->
  preserves f (try_catch m h).
Proof.
  intros Hm Hh s. unfold try_catch. specialize (Hm s).
  destruct (m s) as [[a|e] s1]; simpl in *.
  - exact Hm.
  - rewrite Hh. exact Hm.
Qed.

Lemma preserves_try_finally {A} (m : M S A) (final : M S unit) :
  preserves f m -> preserves f final -> preserves f (try_finally m final).
Proof.
  intros Hm Hf s. unfold try_finally. specialize (Hm s).
  destruct (m s) as [r s1]. specialize (Hf s1).
  destruct (final s1) as [[u|e] s2]; simpl in *; congruence.
Qed.

Lemma preserves_when (b : bool) (m : M S unit) :
  preserves f m -> preserves f (when b m).
Proof. intros Hm. destruct b; [exact Hm | apply preserves_ret]. Qed.

End Rules.

Section ReturnRules.

Context {S : Type}.

Lemma returns_ret {A} (a : A) : returns (@ret S A a).
Proof. intros s. exists a. reflexivity. Qed.

Lemma returns_gets {A} (g : S -> A) : returns (gets g).
Proof. intros s. exists (g s). reflexivity. Qed.

Lemma returns_modify (g : S -> S) : returns (modify g).
Proof. intros s. exists tt. reflexivity. Qed.

Lemma returns_bind {A B} (m : M S A) (k : A -> M S B) :
  returns m -> (forall a, returns (k a)) -> returns (bind m k).
Proof.
  intros Hm Hk s. unfold bind. destruct (Hm s) as [a Ha].
  destruct (m s) as [[a'|e] s1]; simpl in *; [|discriminate].
  apply Hk.
Qed.

Lemma returns_try_catch {A} (m : M S A) (h : Exn -> M S A) :
  (forall e, returns (h e)) -> returns (try_catch m h).
Proof.
  intros Hh s. unfold try_catch.
  destruct (m s) as [[a|e] s1]; simpl; [exists a; reflexivity | apply Hh].
Qed.

Lemma returns_when (b : bool) (m : M S unit) : returns m -> returns (when b m).
Proof. intros Hm. destruct b; [exact Hm | apply returns_ret]. Qed.

End ReturnRules.

(** A computation that returns, run on a state. *)
Lemma returns_run {S A : Type} (m : M S A) (s : S) :
  returns m -> exists a, m s = (Ret a, snd (m s)).
Proof.
  intros Hm. destruct (Hm s) as [a Ha]. exists a.
  destruct (m s) as [o s1]. simpl in *. subst o. reflexivity.
Qed.

Lemma bind_run {S A B : Type} (m : M S A) (k : A -> M S B) (s : S) :
  bind m k s = match m s with
               | (Ret a, s1) => k a s1
               | (Throw e, s1) => (Throw e, s1)
               end.
Proof. reflexivity. Qed.

(** ** genie.js: what the methods change *)

Lemma appended_app (a b : list Effect) :
  Genie.appended (a ++ b) = Genie.appended a ++ Genie.appended b.
Proof.
  induction a as [|e a IH]; simpl; [reflexivity|].
  destruct e; simpl; rewrite ?IH; reflexivity.
Qed.

(** The messages appended so far. *)
Definition trace (s : Genie.State) : list (Sender * JSValue) :=
  Genie.appended (Genie.effects s).

(** The accesses to the storage so far. *)
Fixpoint storageAccesses (log : list Effect) : list Effect :=
  match log with
  | [] => []
  | StorageRead k :: r => StorageRead k :: storageAccesses r
  | StorageWrite k v :: r => StorageWrite k v :: storageAccesses r
  | _ :: r => storageAccesses r
  end.

Lemma noted_nil (s : Genie.State) : Genie.noted [] s = s.
Proof. destruct s. unfold Genie.noted. simpl. rewrite app_nil_r. reflexivity. Qed.

Lemma noted_noted (a b : list Effect) (s : Genie.State) :
  Genie.noted b (Genie.noted a s) = Genie.noted (a ++ b) s.
Proof. unfold Genie.noted. simpl. rewrite app_assoc. reflexivity. Qed.

Lemma trace_noted (es : list Effect) (s : Genie.State) :
  trace (Genie.noted es s) = trace s ++ Genie.appended es.
Proof. unfold trace. simpl. apply appended_app. Qed.

(** Observations that do not depend on a part of the state. *)
Definition ignoresNotes {X} (f : Genie.State -> X) : Prop :=
  forall es s, Genie.appended es = [] -> f (Genie.noted es s) = f s.
Definition ignoresStorage {X} (f : Genie.State -> X) : Prop :=
  forall v s, f (Genie.with_localStorage v s) = f s.
Definition ignoresHistory {X} (f : Genie.State -> X) : Prop :=
  forall v s, f (Genie.with_messageHistory v s) = f s.

Lemma trace_ignoresNotes : ignoresNotes trace.
Proof. intros es s Hes. rewrite trace_noted, Hes. apply app_nil_r. Qed.

Lemma preserves_emit {X} (f : Genie.State -> X) (e : Effect) :
  ignoresNotes f -> Genie.appended [e] = [] -> preserves f (Genie.emit e).
Proof. intros Hf He s. simpl. apply Hf. exact He. Qed.

(** Decomposition of a frame goal along the structure of the method. *)
Ltac frame_step :=
  first
    [ apply preserves_ret | apply preserves_throw | apply preserves_gets
    | apply preserves_when
    | apply preserves_try_finally
    | apply preserves_try_catch; [|intros ?]
    | apply preserves_bind; [|intros ?]
    | apply preserves_emit; [assumption | reflexivity]
    | apply preserves_modify; solve [intros ?; reflexivity | auto]
    | match goal with
      | |- preserves _ (match ?x with _ => _ end) => destruct x
      end ].

Ltac frame := repeat frame_step.

Section GenieFacts.

Context `{JSONHost}.
Variable config : Genie.Config.

(** What [log] writes. *)
Definition logged (what : jsstring) : list Effect :=
  if Genie.development_enableLogging config then [ConsoleLog what] else [].

Lemma logged_quiet (what : jsstring) : Genie.appended (logged what) = [].
Proof. unfold logged. destruct (Genie.development_enableLogging config); reflexivity. Qed.

Lemma log_run (what : jsstring) (s : Genie.State) :
  Genie.log config what s = (Ret tt, Genie.noted (logged what) s).
Proof.
  unfold Genie.log, logged, when.
  destruct (Genie.development_enableLogging config); [reflexivity|].
  rewrite noted_nil. reflexivity.
Qed.

Lemma log_returns (what : jsstring) : returns (Genie.log config what).
Proof. intros s. rewrite log_run. exists tt. reflexivity. Qed.

Lemma log_frame {X} (f : Genie.State -> X) (what : jsstring) :
  ignoresNotes f -> preserves f (Genie.log config what).
Proof. intros Hf s. rewrite log_run. simpl. apply Hf, logged_quiet. Qed.

Lemma handleError_returns (message : jsstring) :
  returns (Genie.handleError config message).
Proof.
  unfold Genie.handleError. apply returns_bind; [apply log_returns|].
  intros _. apply returns_when. intros s. exists tt. reflexivity.
Qed.

Lemma handleError_frame {X} (f : Genie.State -> X) (message : jsstring) :
  ignoresNotes f -> preserves f (Genie.handleError config message).
Proof.
  intros Hf. unfold Genie.handleError.
  apply preserves_bind; [apply log_frame; assumption|]. intros _. frame.
Qed.

Lemma saveMessageHistory_returns : returns (Genie.saveMessageHistory config).
Proof.
  unfold Genie.saveMessageHistory.
  destruct (negb (Genie.features_enableMessageHistory config));
    [apply returns_ret|].
  apply returns_try_catch. intros _. apply log_returns.
Qed.

(** [saveMessageHistory] changes the storage and the record of effects
    only, and appends no message. *)
Lemma saveMessageHistory_frame {X} (f : Genie.State -> X) :
  ignoresNotes f -> ignoresStorage f ->
  preserves f (Genie.saveMessageHistory config).
Proof.
  intros Hn Hs. unfold Genie.saveMessageHistory, Genie.setItem.
  destruct (negb (Genie.features_enableMessageHistory config)); frame.
Qed.

Lemma loadMessageHistory_returns : returns (Genie.loadMessageHistory config).
Proof.
  unfold Genie.loadMessageHistory.
  destruct (negb (Genie.features_enableMessageHistory config));
    [apply returns_ret|].
  apply returns_try_catch. intros _. apply log_returns.
Qed.

(** [loadMessageHistory] changes the history and the record of effects
    only, and appends no message. *)
Lemma loadMessageHistory_frame {X} (f : Genie.State -> X) :
  ignoresNotes f -> ignoresHistory f ->
  preserves f (Genie.loadMessageHistory config).
Proof.
  intros Hn Hh. unfold Genie.loadMessageHistory, Genie.getItem.
  destruct (negb (Genie.features_enableMessageHistory config)); frame.
Qed.

End GenieFacts.

(** ** The toggle [features.enableMessageHistory] *)

(** The configuration with [features.enableMessageHistory] set to [b]. *)
Definition withMessageHistory (b : bool) (c : Genie.Config) : Genie.Config := {|
  Genie.app_name := Genie.app_name c;
  Genie.app_version := Genie.app_version c;
  Genie.messages_errorEmpty := Genie.messages_errorEmpty c;
  Genie.messages_errorNetwork := Genie.messages_errorNetwork c;
  Genie.messages_processing := Genie.messages_processing c;
  Genie.responses_replies := Genie.responses_replies c;
  Genie.responses_delay_min := Genie.responses_delay_min c;
  Genie.responses_delay_max := Genie.responses_delay_max c;
  Genie.ui_maxMessageLength := Genie.ui_maxMessageLength c;
  Genie.ui_autoScroll := Genie.ui_autoScroll c;
  Genie.ui_showTypingIndicator := Genie.ui_showTypingIndicator c;
  Genie.ui_messageLimit := Genie.ui_messageLimit c;
  Genie.features_enableMessageHistory := b;
  Genie.accessibility_announceMessages := Genie.accessibility_announceMessages c;
  Genie.development_enableLogging := Genie.development_enableLogging c;
  Genie.development_debugMode := Genie.development_debugMode c;
  Genie.development_mockResponses := Genie.development_mockResponses c;
|}.

Lemma storageAccesses_app (a b : list Effect) :
  storageAccesses (a ++ b) = storageAccesses a ++ storageAccesses b.
Proof.
  induction a as [|e a IH]; simpl; [reflexivity|].
  destruct e; simpl; rewrite ?IH; reflexivity.
Qed.

Lemma preserves_emit_direct {X} (f : Genie.State -> X) (e : Effect) :
  (forall s, f (Genie.noted [e] s) = f s) -> preserves f (Genie.emit e).
Proof. intros Hf s. apply Hf. Qed.

(** An effect that is no storage access leaves the accesses as they were. *)
Ltac no_access :=
  apply preserves_emit_direct; intros ?; unfold Genie.noted; simpl;
  rewrite storageAccesses_app; simpl; apply app_nil_r.

(** A computation that ends with [last], against the same computation
    without it. *)
Lemma bind_tail {S A B : Type} (m : M S A) (k k' : A -> M S B)
    (last : M S B) (s : S) :
  (forall a s1,
      k a s1 = match k' a s1 with
               | (Ret _, s2) => last s2
               | (Throw e, s2) => (Throw e, s2)
               end) ->
  bind m k s = match bind m k' s with
               | (Ret _, s2) => last s2
               | (Throw e, s2) => (Throw e, s2)
               end.
Proof.
  intros Hk. unfold bind. destruct (m s) as [[a|e] s1]; [apply Hk | reflexivity].
Qed.

(** C10: with [features.enableMessageHistory] off, [saveMessageHistory]
    and [loadMessageHistory] return at once and leave the whole state as it
    is; [addMessage] neither reads nor writes the storage, and it is
    [addMessage] of the configuration with the toggle on without its final
    [saveMessageHistory], which itself changes nothing but the storage and
    the record of effects; a start restores nothing and does not touch the
    storage. *)
Theorem history_toggle_off :
  forall (host : JSONHost) (config : Genie.Config),
    Genie.features_enableMessageHistory config = false ->
    (forall s, Genie.saveMessageHistory config s = (Ret tt, s))
    /\ (forall s, Genie.loadMessageHistory config s = (Ret tt, s))
    /\ (forall text who now s,
          let r := Genie.addMessage config text who now s in
          Genie.localStorage (snd r) = Genie.localStorage s
          /\ storageAccesses (Genie.effects (snd r))
             = storageAccesses (Genie.effects s)
          /\ Genie.addMessage (withMessageHistory true config) text who now s
             = match r with
               | (Ret _, s') =>
                   Genie.saveMessageHistory (withMessageHistory true config) s'
               | (Throw e, s') => (Throw e, s')
               end)
    /\ (forall s,
          let r := Genie.saveMessageHistory (withMessageHistory true config) s in
          fst r = Ret tt
          /\ Genie.chatWindow (snd r) = Genie.chatWindow s
          /\ Genie.messageHistory (snd r) = Genie.messageHistory s
          /\ Genie.isProcessing (snd r) = Genie.isProcessing s
          /\ Genie.inputValue (snd r) = Genie.inputValue s
          /\ Genie.inputDisabled (snd r) = Genie.inputDisabled s
          /\ trace (snd r) = trace s)
    /\ (forall page s,
          Genie.main (Some config) page = Genie.Started s ->
          Genie.messageHistory s = JArr []
          /\ Genie.localStorage s = Genie.page_localStorage page
          /\ storageAccesses (Genie.effects s) = []).
Proof.
  intros host config Hoff.
  split; [intros s; unfold Genie.saveMessageHistory; rewrite Hoff; reflexivity|].
  split; [intros s; unfold Genie.loadMessageHistory; rewrite Hoff; reflexivity|].
  split; [|split].
  - intros text who now s r. subst r. split; [|split].
    + revert s.
      change (preserves Genie.localStorage
                (Genie.addMessage config text who now)).
      unfold Genie.addMessage, Genie.createMessageElement, Genie.appendChild,
        Genie.push, Genie.enforceMessageLimit, Genie.scrollToBottom,
        Genie.announceToScreenReader.
      rewrite Hoff. cbn [when].
      repeat first [frame_step
                   | apply preserves_emit_direct; intros ?; reflexivity].
    + revert s.
      change (preserves (fun s => storageAccesses (Genie.effects s))
                (Genie.addMessage config text who now)).
      unfold Genie.addMessage, Genie.createMessageElement, Genie.appendChild,
        Genie.push, Genie.enforceMessageLimit, Genie.scrollToBottom,
        Genie.announceToScreenReader.
      rewrite Hoff. cbn [when].
      repeat first [frame_step | no_access].
    + unfold Genie.addMessage. rewrite Hoff.
      repeat (apply bind_tail; intros).
      reflexivity.
  - intros s r. subst r.
    destruct (returns_run _ s (saveMessageHistory_returns
                                 (withMessageHistory true config))) as [[] Hrun].
    split; [rewrite Hrun; reflexivity|].
    repeat split;
      apply (saveMessageHistory_frame (withMessageHistory true config));
      try (intros ? ? ?; reflexivity); try (intros ? ?; reflexivity);
      apply trace_ignoresNotes.
  - intros page s. unfold Genie.main, Genie.constructor, Genie.init.
    destruct (Genie.cacheElements page (Genie.blank page)) as [[[]|e] s0] eqn:E;
      [|discriminate].
    intros [= <-].
    assert (Hs0 : s0 = Genie.blank page).
    { unfold Genie.cacheElements in E.
      destruct (Genie.missingElements page); inversion E; reflexivity. }
    subst s0.
    set (body := try_catch
                   (Genie.loadMessageHistory config ;;
                    Genie.logInitialization config)
                   (fun _ => Genie.handleError config
                               (js "Failed to initialize application"))).
    assert (Hquiet : forall X (f : Genie.State -> X),
               (forall e s, f (Genie.noted [e] s) = f s) -> preserves f body).
    { intros X f Hf. subst body.
      unfold Genie.loadMessageHistory, Genie.logInitialization,
        Genie.handleError, Genie.log.
      rewrite Hoff. cbn [negb].
      repeat first [frame_step
                   | apply preserves_emit_direct; intros ?; apply Hf]. }
    assert (Hsilent : preserves (fun s => storageAccesses (Genie.effects s))
                        body).
    { subst body.
      unfold Genie.loadMessageHistory, Genie.logInitialization,
        Genie.handleError, Genie.log.
      rewrite Hoff. cbn [negb].
      repeat first [frame_step | no_access]. }
    split; [|split].
    + rewrite (Hquiet _ Genie.messageHistory); [reflexivity|].
      intros; reflexivity.
    + rewrite (Hquiet _ Genie.localStorage); [reflexivity|].
      intros; reflexivity.
    + rewrite Hsilent. reflexivity.
Qed.

(** A storage without entries and without quota, and a page that has the
    three elements, an empty chat window and that storage. *)
Definition emptyStorage : Storage :=
  {| available := true; quota := None; items := ∅ |}.

Definition pageWith (st : Storage) : Genie.Page :=
  {| Genie.page_chatWindow := Some [];
     Genie.page_messageForm := true;
     Genie.page_messageInput := Some [];
     Genie.page_localStorage := st |}.

Lemma history_toggle_off_witness :
  let config := variant [js "Presto...100 points!"] 800 2000 100 false true in
  let s := Genie.blank (pageWith emptyStorage) in
  Genie.features_enableMessageHistory config = false
  /\ Genie.saveMessageHistory (H := MiniJSON.host) config s = (Ret tt, s)
  /\ Genie.loadMessageHistory (H := MiniJSON.host) config s = (Ret tt, s).
Proof.
  intros config s.
  destruct (history_toggle_off MiniJSON.host config eq_refl)
    as (Hsave & Hload & _).
  split; [reflexivity|]. split; [apply Hsave | apply Hload].
Defined.

(** ** Persisting and restoring the history *)

Lemma Array_slice_negative {A : Type} (n : nat) (a : list A) :
  (0 < n)%nat -> Array_slice (- Z.of_nat n) a = skipn (length a - n) a.
Proof.
  intros Hn. unfold Array_slice.
  replace (- Z.of_nat n <? 0) with true by (symmetry; apply Z.ltb_lt; lia).
  f_equal. lia.
Qed.

Lemma Array_slice_suffix {A : Type} (start : Z) (a : list A) :
  exists dropped, a = dropped ++ Array_slice start a.
Proof.
  unfold Array_slice. eexists. symmetry. apply firstn_skipn.
Qed.

Lemma Array_slice_length {A : Type} (n : nat) (a : list A) :
  (0 < n)%nat -> length (Array_slice (- Z.of_nat n) a) = Nat.min (length a) n.
Proof.
  intros Hn. rewrite Array_slice_negative by assumption.
  rewrite length_skipn. lia.
Qed.

Lemma Storage_setItem_lookup (st st' : Storage) (key value : jsstring) :
  Storage_setItem st key value = inr st' ->
  Storage_getItem st' key = inr (Some value).
Proof.
  unfold Storage_setItem, Storage_getItem.
  destruct (available st); [|discriminate].
  destruct (quota st) as [q|].
  - destruct (q <? length value)%nat; [discriminate|].
    intros [= <-]. simpl. rewrite lookup_insert_eq. reflexivity.
  - intros [= <-]. simpl. rewrite lookup_insert_eq. reflexivity.
Qed.




Section StartupFacts.

Context `{JSONHost}.
Variable config : Genie.Config.

Lemma logInitialization_returns : returns (Genie.logInitialization config).
Proof.
  unfold Genie.logInitialization.
  apply returns_bind; [apply log_returns|]. intros _.
  apply returns_when. apply returns_bind; [apply log_returns|].
  intros _. apply log_returns.
Qed.

Lemma logInitialization_frame {X} (f : Genie.State -> X) :
  ignoresNotes f -> preserves f (Genie.logInitialization config).
Proof. intros Hf. unfold Genie.logInitialization. frame. Qed.

(** A page with the three elements starts the instance: the history is
    loaded and the start is logged. *)
Lemma main_started (page : Genie.Page) :
  Genie.missingElements page = [] ->
  Genie.main (Some config) page
  = Genie.Started
      (snd (Genie.logInitialization config
              (snd (Genie.loadMessageHistory config (Genie.blank page))))).
Proof.
  intros Hmiss.
  unfold Genie.main, Genie.constructor, Genie.init, Genie.cacheElements.
  rewrite Hmiss. unfold ret, try_catch. rewrite bind_run.
  destruct (returns_run _ (Genie.blank page)
              (loadMessageHistory_returns config)) as [[] Hload].
  rewrite Hload.
  destruct (returns_run _ (snd (Genie.loadMessageHistory config
                                  (Genie.blank page)))
              logInitialization_returns) as [[] Hlog].
  rewrite Hlog. reflexivity.
Qed.

(** A page that lacks one of them leaves the instance inert. *)
Lemma main_failed (page : Genie.Page) :
  Genie.missingElements page <> [] ->
  exists s, Genie.main (Some config) page = Genie.InitFailed s.
Proof.
  intros Hmiss.
  unfold Genie.main, Genie.constructor, Genie.init, Genie.cacheElements.
  destruct (Genie.missingElements page); [congruence|].
  unfold throw. eexists. reflexivity.
Qed.

End StartupFacts.

(** C6, as the code has it: [loadMessageHistory] never throws.  When the
    stored text is not JSON ([JSON.parse] throws), the error is caught and
    logged and the history stays as it was, which at startup is the empty
    array.  When the text parses, the value is installed as the history
    whatever its shape, and the load is logged as done. *)
Theorem restore_of_stored_text :
  forall (host : JSONHost) (config : Genie.Config),
    Genie.features_enableMessageHistory config = true ->
    (forall s, fst (Genie.loadMessageHistory config s) = Ret tt)
    /\ (forall s text,
          Storage_getItem (Genie.localStorage s) Genie.storageKey
          = inr (Some text) ->
          falsy text = false ->
          let r := Genie.loadMessageHistory config s in
          (JSON_parse text = None ->
           Genie.messageHistory (snd r) = Genie.messageHistory s
           /\ Genie.effects (snd r)
              = Genie.effects s
                  ++ StorageRead Genie.storageKey
                  :: logged config (js "Failed to load message history:"))
          /\ (forall v, JSON_parse text = Some v ->
              Genie.messageHistory (snd r) = v
              /\ Genie.effects (snd r)
                 = Genie.effects s
                     ++ StorageRead Genie.storageKey
                     :: logged config (js "Message history loaded")))
    /\ (forall page text,
          Genie.missingElements page = [] ->
          Storage_getItem (Genie.page_localStorage page) Genie.storageKey
          = inr (Some text) ->
          JSON_parse text = None ->
          exists s, Genie.main (Some config) page = Genie.Started s
                    /\ Genie.messageHistory s = JArr []).
Proof.
  intros host config Hon.
  assert (Hrun : forall s text,
             Storage_getItem (Genie.localStorage s) Genie.storageKey
             = inr (Some text) ->
             Genie.loadMessageHistory config s
             = if falsy text then (Ret tt, Genie.noted [StorageRead Genie.storageKey] s)
               else match JSON_parse text with
                    | Some v =>
                        Genie.log config (js "Message history loaded")
                          (Genie.with_messageHistory v
                             (Genie.noted [StorageRead Genie.storageKey] s))
                    | None =>
                        Genie.log config (js "Failed to load message history:")
                          (Genie.noted [StorageRead Genie.storageKey] s)
                    end).
  { intros s text Hget.
    unfold Genie.loadMessageHistory, Genie.getItem. rewrite Hon.
    unfold negb, try_catch, bind, gets, Genie.emit.
    change (Genie.localStorage (Genie.noted _ s)) with (Genie.localStorage s).
    rewrite Hget. unfold ret. destruct (falsy text); [reflexivity|].
    destruct (JSON_parse text) as [v|]; [|reflexivity].
    unfold modify. rewrite log_run. reflexivity. }
  split; [|split].
  - intros s.
    destruct (returns_run _ s (loadMessageHistory_returns config)) as [[] Hr].
    rewrite Hr. reflexivity.
  - intros s text Hget Htext r. subst r.
    rewrite (Hrun s text Hget), Htext. split.
    + intros ->. rewrite log_run. simpl.
      split; [reflexivity|]. rewrite <- app_assoc. reflexivity.
    + intros v ->. rewrite log_run. simpl.
      split; [reflexivity|]. rewrite <- app_assoc. reflexivity.
  - intros page text Hmiss Hget Hparse.
    rewrite (main_started config page Hmiss). eexists. split; [reflexivity|].
    rewrite (logInitialization_frame config Genie.messageHistory)
      by (intros ? ? ?; reflexivity).
    rewrite (Hrun (Genie.blank page) text Hget), Hparse.
    destruct (falsy text); [reflexivity|].
    rewrite log_run. reflexivity.
Qed.

(** A page whose storage holds [text] under the key of the history. *)
Definition pageStoring (text : jsstring) : Genie.Page :=
  pageWith {| available := true; quota := None;
              items := {[ Genie.storageKey := text ]} |}.

Lemma restore_of_stored_text_witness :
  Genie.features_enableMessageHistory Genie.GenieConfig = true
  /\ exists s,
       Genie.main (H := MiniJSON.host) (Some Genie.GenieConfig)
         (pageStoring (jsq "[{'text':'hi','sender':'user'"))
       = Genie.Started s
       /\ Genie.messageHistory s = JArr [].
Proof.
  split; [reflexivity|].
  destruct (restore_of_stored_text MiniJSON.host Genie.GenieConfig eq_refl)
    as (_ & _ & Hstart).
  apply (Hstart (pageStoring (jsq "[{'text':'hi','sender':'user'"))
           (jsq "[{'text':'hi','sender':'user'")).
  - reflexivity.
  - vm_compute. reflexivity.
  - vm_compute. reflexivity.
Defined.

(** C6 fails as stated: a stored text that parses but is not a sequence
    of messages is restored without any error, and the history is then that
    value, not the empty array. *)
Lemma restore_installs_any_value :
  exists s,
    Genie.main (H := MiniJSON.host) (Some Genie.GenieConfig)
      (pageStoring (jsq "{'oops':true}"))
    = Genie.Started s
    /\ Genie.messageHistory s = JObj [(js "oops", JBool true)]
    /\ Genie.messageHistory s <> JArr []
    /\ Genie.effects s
       = [StorageRead Genie.storageKey;
          ConsoleLog (js "Message history loaded");
          ConsoleLog (js "v2.0 initialized successfully")].
Proof.
  eexists. split; [vm_compute; reflexivity|].
  split; [reflexivity|]. split; [discriminate | reflexivity].
Qed.

(** ** Startup *)



(** ** genie.js: [addMessage] *)

(** The number of elements that [.message:not(.typing-indicator)]
    selects. *)
Definition countMessages (children : list Element) : nat :=
  length (List.filter Genie.isMessage children).

Lemma countMessages_app (a b : list Element) :
  countMessages (a ++ b) = (countMessages a + countMessages b)%nat.
Proof. unfold countMessages. rewrite List.filter_app, length_app. reflexivity. Qed.

(** Each element that the loop removes was one of the [excess] first. *)
Lemma countMessages_removeExcess (excess : nat) (children : list Element) :
  (countMessages children <= countMessages (Genie.removeExcess excess children)
                             + excess)%nat.
Proof.
  unfold countMessages. revert excess.
  induction children as [|e r IH]; intros excess; simpl.
  - lia.
  - destruct (Genie.isMessage e) eqn:E.
    + destruct excess as [|n]; simpl.
      * rewrite E. simpl. lia.
      * destruct (hasClass "welcome-message" e); simpl; rewrite ?E; simpl;
          specialize (IH n); lia.
    + simpl. rewrite E. apply IH.
Qed.

Definition isArray (v : JSValue) : Prop := exists a, v = JArr a.

Section AddMessage.

Context `{JSONHost}.
Variable config : Genie.Config.

Lemma push_array (e : JSValue) (s : Genie.State) (a : list JSValue) :
  Genie.messageHistory s = JArr a ->
  Genie.push e s = (Ret tt, Genie.with_messageHistory (JArr (a ++ [e])) s).
Proof. intros Ha. unfold Genie.push, bind, gets. rewrite Ha. reflexivity. Qed.

Lemma push_other (e : JSValue) (s : Genie.State) :
  ~ isArray (Genie.messageHistory s) ->
  Genie.push e s = (Throw TypeError, s).
Proof.
  intros Hno. unfold Genie.push, bind, gets.
  destruct (Genie.messageHistory s) eqn:E; try reflexivity.
  exfalso. apply Hno. eexists. reflexivity.
Qed.

Lemma enforceMessageLimit_array (s : Genie.State) (a : list JSValue) :
  Genie.messageHistory s = JArr a ->
  let limit := Genie.ui_messageLimit config in
  let n := countMessages (Genie.chatWindow s) in
  Genie.enforceMessageLimit config s
  = (Ret tt,
     if (limit <? n)%nat then
       Genie.with_messageHistory (JArr (Array_slice (- Z.of_nat limit) a))
         (Genie.with_chatWindow
            (Genie.removeExcess (n - limit) (Genie.chatWindow s)) s)
     else s).
Proof.
  intros Ha limit n. unfold Genie.enforceMessageLimit, bind, gets.
  fold (countMessages (Genie.chatWindow s)). fold n. fold limit.
  destruct (limit <? n)%nat; [|reflexivity].
  unfold modify. simpl. rewrite Ha. reflexivity.
Qed.

(** What [addMessage] does after [enforceMessageLimit]. *)
Definition afterLimit (text : JSValue) (who : Sender) : M Genie.State unit :=
  when (Genie.ui_autoScroll config) Genie.scrollToBottom ;;
  when (Genie.accessibility_announceMessages config && Sender_eqb who genie)
    (Genie.announceToScreenReader text) ;;
  when (Genie.features_enableMessageHistory config)
    (Genie.saveMessageHistory config).

Lemma afterLimit_returns (text : JSValue) (who : Sender) :
  returns (afterLimit text who).
Proof.
  unfold afterLimit.
  apply returns_bind; [apply returns_when; intros s; exists tt; reflexivity|].
  intros _.
  apply returns_bind; [apply returns_when; intros s; exists tt; reflexivity|].
  intros _. apply returns_when, saveMessageHistory_returns.
Qed.

Lemma afterLimit_frame {X} (f : Genie.State -> X) (text : JSValue)
    (who : Sender) :
  ignoresNotes f -> ignoresStorage f -> preserves f (afterLimit text who).
Proof.
  intros Hn Hs. unfold afterLimit.
  apply preserves_bind; [frame|]. intros _.
  apply preserves_bind; [frame|]. intros _.
  apply preserves_when, saveMessageHistory_frame; assumption.
Qed.

(** The element that [addMessage] creates. *)
Definition messageElement (text : JSValue) (who : Sender) (s : Genie.State)
  : Element :=
  {| el_id := Genie.nextNode s;
     el_classes := ["message"; senderName who ++ "-message"]%string;
     el_text := text |}.

(** The state in which [addMessage] pushes the entry. *)
Definition rendered (text : JSValue) (who : Sender) (s : Genie.State)
  : Genie.State :=
  Genie.noted [MessageAppended who text]
    (Genie.with_chatWindow (Genie.chatWindow s ++ [messageElement text who s])
       (Genie.with_nextNode (S (Genie.nextNode s)) s)).

Lemma addMessage_run (text : JSValue) (who : Sender) (now : Z)
    (s : Genie.State) :
  Genie.addMessage config text who now s
  = (Genie.push (Genie.entry text who now) ;;
     Genie.enforceMessageLimit config ;;
     afterLimit text who) (rendered text who s).
Proof. reflexivity. Qed.


(** [addMessage] on a history that is an array. *)
Lemma addMessage_array (text : JSValue) (who : Sender) (now : Z)
    (s : Genie.State) (a : list JSValue) :
  Genie.messageHistory s = JArr a ->
  let limit := Genie.ui_messageLimit config in
  let children := Genie.chatWindow s ++ [messageElement text who s] in
  let n := S (countMessages (Genie.chatWindow s)) in
  let r := Genie.addMessage config text who now s in
  fst r = Ret tt
  /\ Genie.messageHistory (snd r)
     = JArr (if (limit <? n)%nat
             then Array_slice (- Z.of_nat limit) (a ++ [Genie.entry text who now])
             else a ++ [Genie.entry text who now])
  /\ Genie.chatWindow (snd r)
     = (if (limit <? n)%nat then Genie.removeExcess (n - limit) children
        else children).
Proof.
  intros Ha limit children n r. subst r. rewrite addMessage_run.
  rewrite bind_run.
  rewrite (push_array _ (rendered text who s) a) by exact Ha.
  rewrite bind_run.
  rewrite (enforceMessageLimit_array _ (a ++ [Genie.entry text who now]))
    by reflexivity.
  cbv zeta.
  change (Genie.chatWindow
            (Genie.with_messageHistory _ (rendered text who s)))
    with children.
  replace (countMessages children) with n.
  2:{ unfold children, n. rewrite countMessages_app.
      assert (Hone : countMessages [messageElement text who s] = 1%nat)
        by (destruct who; reflexivity).
      lia. }
  fold limit.
  match goal with
  | |- context [afterLimit text who ?x] => set (s1 := x)
  end.
  destruct (returns_run _ s1 (afterLimit_returns text who)) as [[] Hrun].
  split; [rewrite Hrun; reflexivity|].
  split.
  - rewrite (afterLimit_frame Genie.messageHistory)
      by (intros ? ? ?; reflexivity) || (intros ? ?; reflexivity).
    subst s1. destruct (limit <? n)%nat; reflexivity.
  - rewrite (afterLimit_frame Genie.chatWindow)
      by (intros ? ? ?; reflexivity) || (intros ? ?; reflexivity).
    subst s1. destruct (limit <? n)%nat; reflexivity.
Qed.

End AddMessage.

(** ** The bound on the history *)

(** A sequence of calls of [addMessage], each with its text, its sender
    and its date. *)
Fixpoint appendAll `{JSONHost} (config : Genie.Config)
    (msgs : list (JSValue * Sender * Z)) : M Genie.State unit :=
  match msgs with
  | [] => ret tt
  | (text, who, now) :: r =>
      Genie.addMessage config text who now ;; appendAll config r
  end.

(** The entries that these calls push. *)
Definition entries (msgs : list (JSValue * Sender * Z)) : list JSValue :=
  map (fun m => Genie.entry (fst (fst m)) (snd (fst m)) (snd m)) msgs.

(** The history is an array that is not longer than the number of message
    elements in the chat window. *)
Definition inStep (s : Genie.State) (a : list JSValue) : Prop :=
  Genie.messageHistory s = JArr a
  /\ (length a <= countMessages (Genie.chatWindow s))%nat.

Lemma skipn_skipn_snoc {A : Type} (limit : nat) (a : list A) (e : A) :
  (0 < limit)%nat ->
  skipn (length (skipn (length a - limit) a ++ [e]) - limit)
        (skipn (length a - limit) a ++ [e])
  = skipn (length (a ++ [e]) - limit) (a ++ [e]).
Proof.
  intros Hpos. rewrite !length_app, length_skipn. simpl.
  destruct (le_lt_dec (length a) limit) as [Hle | Hlt].
  - replace (length a - limit)%nat with 0%nat by lia. simpl.
    rewrite Nat.sub_0_r. reflexivity.
  - replace (length a - (length a - limit) + 1 - limit)%nat with 1%nat by lia.
    replace (length a + 1 - limit)%nat with (S (length a - limit)) by lia.
    rewrite (skipn_app (S (length a - limit)) a [e]).
    replace (S (length a - limit) - length a)%nat with 0%nat by lia.
    simpl skipn at 3.
    destruct (skipn (length a - limit) a) as [|x l] eqn:E.
    + apply (f_equal (@length A)) in E. rewrite length_skipn in E.
      simpl in E. lia.
    + simpl. f_equal.
      replace (S (length a - limit)) with (1 + (length a - limit))%nat by lia.
      rewrite <- skipn_skipn, E. reflexivity.
Qed.

Lemma Array_slice_snoc {A : Type} (limit : nat) (a : list A) (e : A) :
  (0 < limit)%nat ->
  Array_slice (- Z.of_nat limit) (Array_slice (- Z.of_nat limit) a ++ [e])
  = Array_slice (- Z.of_nat limit) (a ++ [e]).
Proof.
  intros Hpos. rewrite !Array_slice_negative by assumption.
  apply skipn_skipn_snoc. assumption.
Qed.

Lemma Array_slice_short {A : Type} (limit : nat) (a : list A) :
  (0 < limit)%nat -> (length a <= limit)%nat ->
  Array_slice (- Z.of_nat limit) a = a.
Proof.
  intros Hpos Hle. rewrite Array_slice_negative by assumption.
  replace (length a - limit)%nat with 0%nat by lia. reflexivity.
Qed.

Section Bound.

Context `{JSONHost}.
Variable config : Genie.Config.

Hypothesis limit_positive : (1 <= Genie.ui_messageLimit config)%nat.

Lemma addMessage_inStep (text : JSValue) (who : Sender) (now : Z)
    (s : Genie.State) (a : list JSValue) :
  inStep s a ->
  let r := Genie.addMessage config text who now s in
  fst r = Ret tt
  /\ inStep (snd r)
       (Array_slice (- Z.of_nat (Genie.ui_messageLimit config))
          (a ++ [Genie.entry text who now])).
Proof.
  intros [Ha Hlen] r.
  destruct (addMessage_array config text who now s a Ha)
    as (Hret & Hhist & Hchat).
  fold r in Hret, Hhist, Hchat.
  set (limit := Genie.ui_messageLimit config) in *.
  set (n := S (countMessages (Genie.chatWindow s))) in *.
  set (children := Genie.chatWindow s ++ [messageElement text who s]) in *.
  assert (Hn : countMessages children = n).
  { unfold children, n. rewrite countMessages_app.
    assert (Hone : countMessages [messageElement text who s] = 1%nat)
      by (destruct who; reflexivity).
    lia. }
  split; [exact Hret|]. unfold inStep. rewrite Hhist, Hchat.
  destruct (limit <? n)%nat eqn:E.
  - split; [reflexivity|].
    rewrite Array_slice_length by lia.
    pose proof (countMessages_removeExcess (n - limit) children).
    apply Nat.ltb_lt in E. lia.
  - apply Nat.ltb_ge in E.
    rewrite Array_slice_short; [|lia|rewrite length_app; simpl; lia].
    split; [reflexivity|]. rewrite length_app. simpl. lia.
Qed.

Lemma appendAll_inStep (msgs : list (JSValue * Sender * Z))
    (s : Genie.State) (a : list JSValue) :
  inStep s a -> msgs <> [] ->
  let r := appendAll config msgs s in
  fst r = Ret tt
  /\ inStep (snd r)
       (Array_slice (- Z.of_nat (Genie.ui_messageLimit config))
          (a ++ entries msgs)).
Proof.
  revert s a. induction msgs as [|[[text who] now] rest IH]; intros s a Hs Hne.
  - congruence.
  - destruct (addMessage_inStep text who now s a Hs) as (Hret & Hstep).
    cbn [appendAll]. rewrite bind_run.
    destruct (Genie.addMessage config text who now s) as [o s1].
    simpl in Hret, Hstep. subst o.
    destruct rest as [|m rest'].
    + simpl. split; [reflexivity | exact Hstep].
    + destruct (IH s1 _ Hstep ltac:(discriminate)) as (Hret' & Hstep').
      split; [exact Hret'|].
      replace (Array_slice (- Z.of_nat (Genie.ui_messageLimit config))
                 (a ++ entries ((text, who, now) :: m :: rest')))
        with (Array_slice (- Z.of_nat (Genie.ui_messageLimit config))
                (Array_slice (- Z.of_nat (Genie.ui_messageLimit config))
                   (a ++ [Genie.entry text who now]) ++ entries (m :: rest')));
        [exact Hstep'|].
      clear - limit_positive.
      change (entries ((text, who, now) :: m :: rest'))
        with ([Genie.entry text who now] ++ entries (m :: rest')).
      rewrite app_assoc.
      generalize (a ++ [Genie.entry text who now]) as b.
      generalize (entries (m :: rest')) as tail.
      intros tail. induction tail as [|x tail IHt] using rev_ind; intros b.
      * rewrite !app_nil_r.
        rewrite Array_slice_short; [reflexivity|lia|].
        rewrite Array_slice_length by lia. lia.
      * rewrite !app_assoc. rewrite <- Array_slice_snoc by lia.
        rewrite IHt. apply Array_slice_snoc. lia.
Qed.

End Bound.

(** C1, as the code has it: with [ui.messageLimit >= 1], on a store whose
    history is an array not longer than the number of message elements in
    the chat window (as at a start that restored nothing), every non-empty
    sequence of [addMessage] calls returns and leaves as history the last
    [messageLimit] entries of the old history followed by the appended ones,
    in order; so the history has at most [messageLimit] entries after each
    call, and after [messageLimit + k] appends ([k >= 1]) to an empty history
    it is exactly the last [messageLimit] appended entries. *)
Theorem history_bounded_by_appends :
  forall (host : JSONHost) (config : Genie.Config) (s : Genie.State)
         (a : list JSValue) (msgs : list (JSValue * Sender * Z)),
    (1 <= Genie.ui_messageLimit config)%nat ->
    Genie.messageHistory s = JArr a ->
    (length a <= countMessages (Genie.chatWindow s))%nat ->
    msgs <> [] ->
    let limit := Genie.ui_messageLimit config in
    let r := appendAll config msgs s in
    let kept := Array_slice (- Z.of_nat limit) (a ++ entries msgs) in
    fst r = Ret tt
    /\ Genie.messageHistory (snd r) = JArr kept
    /\ (length kept <= limit)%nat
    /\ (exists dropped, a ++ entries msgs = dropped ++ kept)
    /\ (a = [] ->
        forall k, (1 <= k)%nat -> length msgs = (limit + k)%nat ->
                  kept = skipn k (entries msgs) /\ length kept = limit).
Proof.
  intros host config s a msgs Hlimit Ha Hlen Hne limit r kept.
  destruct (appendAll_inStep config Hlimit msgs s a (conj Ha Hlen) Hne)
    as (Hret & Hhist & _).
  split; [exact Hret|]. split; [exact Hhist|].
  split; [unfold kept; rewrite Array_slice_length by exact Hlimit; lia|].
  split; [apply Array_slice_suffix|].
  intros -> k Hk Hmsgs. unfold kept. simpl.
  rewrite Array_slice_negative by exact Hlimit.
  assert (Hentries : length (entries msgs) = (limit + k)%nat)
    by (unfold entries; rewrite length_map; exact Hmsgs).
  rewrite Hentries. replace (limit + k - limit)%nat with k by lia.
  split; [reflexivity|]. rewrite length_skipn. lia.
Qed.

(** A start under [ui.messageLimit = 2] that restored nothing, followed by
    three appends. *)
Definition limitTwo : Genie.Config :=
  variant (Genie.responses_replies Genie.GenieConfig) 800 2000 2 true true.

Definition threeMessages : list (JSValue * Sender * Z) :=
  [ (JStr (js "one"), user, 1700000000000);
    (JStr (js "two"), genie, 1700000001000);
    (JStr (js "three"), user, 1700000002000) ].

Lemma history_bounded_by_appends_witness :
  Genie.messageHistory
    (snd (appendAll (H := MiniJSON.host) limitTwo threeMessages
            (Genie.blank (pageWith emptyStorage))))
  = JArr [ Genie.entry (JStr (js "two")) genie 1700000001000;
           Genie.entry (JStr (js "three")) user 1700000002000 ].
Proof.
  destruct (history_bounded_by_appends MiniJSON.host limitTwo
              (Genie.blank (pageWith emptyStorage)) [] threeMessages)
    as (_ & Hhist & _ & _ & Hlast).
  - simpl. lia.
  - reflexivity.
  - simpl. lia.
  - discriminate.
  - rewrite Hhist. destruct (Hlast eq_refl 1%nat) as [-> _]; reflexivity.
Defined.

(** C1 fails as stated: under [ui.messageLimit = 2], a session that
    appended two messages has stored both; the next start restores them
    without rendering them, and the first append of the new session leaves
    three entries in the history. *)
Lemma restored_history_exceeds_limit :
  let first := snd (appendAll (H := MiniJSON.host) limitTwo
                      [ (JStr (js "one"), user, 1700000000000);
                        (JStr (js "two"), genie, 1700000001000) ]
                      (Genie.blank (pageWith emptyStorage))) in
  exists s restored grown,
    Genie.main (H := MiniJSON.host) (Some limitTwo)
      (pageWith (Genie.localStorage first)) = Genie.Started s
    /\ Genie.messageHistory s = JArr restored
    /\ length restored = 2%nat
    /\ Genie.addMessage (H := MiniJSON.host) limitTwo (JStr (js "three")) user
         1700000002000 s
       = (Ret tt, grown)
    /\ (exists a, Genie.messageHistory grown = JArr a
                  /\ (Genie.ui_messageLimit limitTwo < length a)%nat).
Proof.
  do 3 eexists.
  split; [vm_compute; reflexivity|].
  split; [reflexivity|]. split; [reflexivity|].
  split; [vm_compute; reflexivity|].
  eexists. split; [reflexivity | simpl; lia].
Qed.

(** ** genie.js: [handleSendMessage] *)

(** Effects that append no message and do not touch the storage. *)
Definition silent (es : list Effect) : Prop :=
  Genie.appended es = [] /\ storageAccesses es = [].

Section Handler.

Context `{JSONHost}.
Variable config : Genie.Config.

Lemma validateMessage_cases (message : jsstring) (s : Genie.State) :
  ((0 < length message <= Genie.ui_maxMessageLength config)%nat
   /\ Genie.validateMessage config message s = (Ret true, s))
  \/ exists es, silent es
                /\ Genie.validateMessage config message s
                   = (Ret false, Genie.noted es s).
Proof.
  unfold Genie.validateMessage.
  destruct message as [|c m]; unfold falsy.
  - right. eexists. split; [|unfold Genie.showError, Genie.emit, bind, ret;
                              rewrite noted_noted; reflexivity].
    split; reflexivity.
  - destruct (Genie.ui_maxMessageLength config <? length (c :: m))%nat eqn:E.
    + right. eexists. split; [|reflexivity]. split; reflexivity.
    + left. apply Nat.ltb_ge in E. split; [simpl in *; lia | reflexivity].
Qed.

Lemma validateMessage_valid (message : jsstring) (s : Genie.State) :
  (0 < length message <= Genie.ui_maxMessageLength config)%nat ->
  Genie.validateMessage config message s = (Ret true, s).
Proof.
  intros [Hpos Hle]. unfold Genie.validateMessage.
  destruct message as [|c m]; [simpl in Hpos; lia|]. unfold falsy.
  replace (Genie.ui_maxMessageLength config <? length (c :: m))%nat with false
    by (symmetry; apply Nat.ltb_ge; exact Hle).
  reflexivity.
Qed.

(** The part of [handleSendMessage] from [try] on, up to the first
    suspension. *)
Definition accepted (messageText : jsstring) (rDelay : Draw) (now : Z)
  : M Genie.State (option Genie.Task) :=
  fun s =>
    match (modify (Genie.with_isProcessing true) ;;
           Genie.updateUIState true ;;
           Genie.addMessage config (JStr messageText) user now ;;
           modify (Genie.with_inputValue []) ;;
           Genie.processGenieResponse_begin config rDelay) s with
    | (Ret d, s') =>
        (Ret (Some {| Genie.userMessage := messageText; Genie.delay := d |}),
         s')
    | (Throw e, s') =>
        match Genie.settle config now (throw e) s' with
        | (Ret _, s'') => (Ret None, s'')
        | (Throw e', s'') => (Throw e', s'')
        end
    end.

Lemma handleSendMessage_run (rDelay : Draw) (now : Z) (s : Genie.State) :
  Genie.handleSendMessage config rDelay now s
  = match Genie.validateMessage config (trim (Genie.inputValue s)) s with
    | (Ret true, s1) =>
        if Genie.isProcessing s1 then (Ret None, s1)
        else accepted (trim (Genie.inputValue s)) rDelay now s1
    | (Ret false, s1) => (Ret None, s1)
    | (Throw e, s1) => (Throw e, s1)
    end.
Proof.
  unfold Genie.handleSendMessage. rewrite bind_run. unfold gets at 1.
  cbv beta iota. rewrite bind_run.
  destruct (Genie.validateMessage config (trim (Genie.inputValue s)) s)
    as [[[|]|e] s1]; try reflexivity.
  change (negb true) with false. cbv iota.
  change (Genie.isProcessing s1)
    with (fst (Genie.isProcessing s1, s1)).
  unfold accepted. unfold bind at 1. unfold gets.
  destruct (Genie.isProcessing s1); reflexivity.
Qed.

(** A call while [isProcessing] is true is over at once: nothing changes
    but the record of effects, which gains at most the alert of a failed
    validation. *)
Lemma handleSendMessage_busy (rDelay : Draw) (now : Z) (s : Genie.State) :
  Genie.isProcessing s = true ->
  exists es, silent es
             /\ Genie.handleSendMessage config rDelay now s
                = (Ret None, Genie.noted es s).
Proof.
  intros Hbusy. rewrite handleSendMessage_run.
  destruct (validateMessage_cases (trim (Genie.inputValue s)) s)
    as [[_ Hv] | (es & Hes & Hv)]; rewrite Hv.
  - rewrite Hbusy.
    exists []. split; [split; reflexivity|]. rewrite noted_nil. reflexivity.
  - exists es. split; [exact Hes | reflexivity].
Qed.

(** A call whose input does not pass the validation is over at once as
    well. *)
Lemma handleSendMessage_invalid (rDelay : Draw) (now : Z) (s : Genie.State) :
  ~ (0 < length (trim (Genie.inputValue s))
     <= Genie.ui_maxMessageLength config)%nat ->
  exists es, silent es
             /\ Genie.handleSendMessage config rDelay now s
                = (Ret None, Genie.noted es s).
Proof.
  intros Hbad. rewrite handleSendMessage_run.
  destruct (validateMessage_cases (trim (Genie.inputValue s)) s)
    as [[Hok _] | (es & Hes & Hv)]; [contradiction|].
  rewrite Hv. exists es. split; [exact Hes | reflexivity].
Qed.

(** A valid input on an idle instance enters the [try] block. *)
Lemma handleSendMessage_accepted (rDelay : Draw) (now : Z) (s : Genie.State) :
  (0 < length (trim (Genie.inputValue s))
   <= Genie.ui_maxMessageLength config)%nat ->
  Genie.isProcessing s = false ->
  Genie.handleSendMessage config rDelay now s
  = accepted (trim (Genie.inputValue s)) rDelay now s.
Proof.
  intros Hok Hidle. rewrite handleSendMessage_run.
  destruct (validateMessage_cases (trim (Genie.inputValue s)) s)
    as [[_ Hv] | (es & Hes & Hv)]; rewrite Hv.
  - rewrite Hidle. reflexivity.
  - rewrite (validateMessage_valid _ s Hok) in Hv. discriminate.
Qed.

Lemma addMessage_trace (text : JSValue) (who : Sender) (now : Z)
    (s : Genie.State) :
  trace (snd (Genie.addMessage config text who now s))
  = trace s ++ [(who, text)].
Proof.
  rewrite addMessage_run.
  assert (Hrest : preserves trace
            (Genie.push (Genie.entry text who now) ;;
             Genie.enforceMessageLimit config ;;
             afterLimit config text who)).
  { apply preserves_bind.
    - unfold Genie.push. pose proof trace_ignoresNotes. frame.
    - intros _. apply preserves_bind.
      + unfold Genie.enforceMessageLimit. pose proof trace_ignoresNotes. frame.
      + intros _. apply afterLimit_frame; [apply trace_ignoresNotes|].
        intros ? ?; reflexivity. }
  rewrite Hrest. unfold rendered. rewrite trace_noted. reflexivity.
Qed.

(** The fields that [addMessage] never writes. *)
Lemma addMessage_keeps {X} (f : Genie.State -> X) (text : JSValue)
    (who : Sender) (now : Z) :
  (forall es s, f (Genie.noted es s) = f s) ->
  (forall v s, f (Genie.with_localStorage v s) = f s) ->
  (forall v s, f (Genie.with_messageHistory v s) = f s) ->
  (forall v s, f (Genie.with_chatWindow v s) = f s) ->
  (forall v s, f (Genie.with_nextNode v s) = f s) ->
  preserves f (Genie.addMessage config text who now).
Proof.
  intros Hn Hs Hh Hc Hx.
  assert (Hnotes : ignoresNotes f) by (intros es s _; apply Hn).
  unfold Genie.addMessage, Genie.createMessageElement, Genie.appendChild,
    Genie.push, Genie.enforceMessageLimit.
  apply preserves_bind; [frame|]. intros el.
  apply preserves_bind; [frame|]. intros _.
  apply preserves_bind; [apply preserves_emit_direct; intros; apply Hn|].
  intros _.
  apply preserves_bind; [frame|]. intros _.
  apply preserves_bind; [frame|]. intros _.
  apply afterLimit_frame; assumption.
Qed.

Lemma addMessage_other (text : JSValue) (who : Sender) (now : Z)
    (s : Genie.State) :
  ~ isArray (Genie.messageHistory s) ->
  fst (Genie.addMessage config text who now s) = Throw TypeError
  /\ Genie.messageHistory (snd (Genie.addMessage config text who now s))
     = Genie.messageHistory s.
Proof.
  intros Hno. rewrite addMessage_run, bind_run.
  rewrite push_other by exact Hno. split; reflexivity.
Qed.

Lemma addMessage_array_returns (text : JSValue) (who : Sender) (now : Z)
    (s : Genie.State) :
  isArray (Genie.messageHistory s) ->
  fst (Genie.addMessage config text who now s) = Ret tt
  /\ isArray (Genie.messageHistory
                (snd (Genie.addMessage config text who now s))).
Proof.
  intros [a Ha].
  destruct (addMessage_array config text who now s a Ha) as (Hret & Hhist & _).
  split; [exact Hret|]. eexists. exact Hhist.
Qed.

Lemma isArray_dec (v : JSValue) : isArray v \/ ~ isArray v.
Proof.
  destruct v; try (right; intros [a Ha]; discriminate).
  left. eexists. reflexivity.
Qed.

(** The [catch] and [finally] clauses: whatever the block did, the
    instance is idle and the input enabled afterwards. *)
Lemma settle_run (now : Z) (body : M Genie.State unit) (s : Genie.State) :
  Genie.settle config now body s
  = let r := try_catch body
               (fun _ =>
                  Genie.handleError config (js "Failed to send message") ;;
                  Genie.addMessage config
                    (JStr (Genie.messages_errorNetwork config)) genie now) s in
    (fst r,
     Genie.with_inputDisabled false (Genie.with_isProcessing false (snd r))).
Proof.
  unfold Genie.settle, try_finally.
  destruct (try_catch _ _ s) as [o s1]. reflexivity.
Qed.

Lemma showTypingIndicator_returns :
  returns (Genie.showTypingIndicator config).
Proof. intros s. exists tt. reflexivity. Qed.

Lemma processGenieResponse_begin_run (rDelay : Draw) (s : Genie.State) :
  Genie.processGenieResponse_begin config rDelay s
  = (Ret (Genie.getRandomDelay config rDelay),
     snd (Genie.processGenieResponse_begin config rDelay s)).
Proof.
  unfold Genie.processGenieResponse_begin. rewrite bind_run.
  destruct (returns_run _ s
              (returns_when (Genie.ui_showTypingIndicator config) _
                 showTypingIndicator_returns)) as [[] Hrun].
  rewrite Hrun. reflexivity.
Qed.

Lemma processGenieResponse_begin_frame {X} (f : Genie.State -> X)
    (rDelay : Draw) :
  (forall es s, f (Genie.noted es s) = f s) ->
  (forall v s, f (Genie.with_chatWindow v s) = f s) ->
  (forall v s, f (Genie.with_nextNode v s) = f s) ->
  (forall v s, f (Genie.with_typingIndicator v s) = f s) ->
  preserves f (Genie.processGenieResponse_begin config rDelay).
Proof.
  intros Hn Hc Hx Ht.
  assert (Hnotes : ignoresNotes f) by (intros es s _; apply Hn).
  unfold Genie.processGenieResponse_begin, Genie.showTypingIndicator,
    Genie.createMessageElement, Genie.appendChild, Genie.scrollToBottom.
  frame.
Qed.

Lemma processGenieResponse_begin_trace (rDelay : Draw) :
  preserves trace (Genie.processGenieResponse_begin config rDelay).
Proof.
  pose proof trace_ignoresNotes.
  unfold Genie.processGenieResponse_begin, Genie.showTypingIndicator,
    Genie.createMessageElement, Genie.appendChild, Genie.scrollToBottom.
  frame.
Qed.

Lemma hideTypingIndicator_run (s : Genie.State) :
  exists s1, Genie.hideTypingIndicator s = (Ret tt, s1)
             /\ Genie.messageHistory s1 = Genie.messageHistory s
             /\ Genie.isProcessing s1 = Genie.isProcessing s
             /\ trace s1 = trace s.
Proof.
  unfold Genie.hideTypingIndicator, bind, gets, modify.
  destruct (Genie.typingIndicator s); eexists; split; try reflexivity;
    repeat split; reflexivity.
Qed.

(** An accepted submission on a history that is an array: the user
    message is appended and the call waits for its timer with
    [isProcessing] set. *)
Lemma accepted_array (message : jsstring) (rDelay : Draw) (now : Z)
    (s : Genie.State) :
  isArray (Genie.messageHistory s) ->
  exists s',
    accepted message rDelay now s
    = (Ret (Some {| Genie.userMessage := message;
                    Genie.delay := Genie.getRandomDelay config rDelay |}), s')
    /\ Genie.isProcessing s' = true
    /\ isArray (Genie.messageHistory s')
    /\ trace s' = trace s ++ [(user, JStr message)].
Proof.
  intros Harr. unfold accepted.
  rewrite bind_run. unfold modify at 1. cbv beta iota.
  rewrite bind_run. unfold Genie.updateUIState at 1, modify at 1.
  cbv beta iota. rewrite bind_run.
  set (s0 := Genie.with_inputDisabled true (Genie.with_isProcessing true s)).
  assert (Harr0 : isArray (Genie.messageHistory s0)) by exact Harr.
  destruct (addMessage_array_returns (JStr message) user now s0 Harr0)
    as (Hret & Harr1).
  pose proof (addMessage_trace (JStr message) user now s0) as Htrace.
  pose proof (addMessage_keeps Genie.isProcessing (JStr message) user now
                ltac:(reflexivity) ltac:(reflexivity) ltac:(reflexivity)
                ltac:(reflexivity) ltac:(reflexivity) s0) as Hbusy.
  destruct (Genie.addMessage config (JStr message) user now s0) as [o s1].
  simpl in Hret, Harr1, Htrace, Hbusy. subst o.
  rewrite bind_run. unfold modify at 1. cbv beta iota.
  set (s2 := Genie.with_inputValue [] s1).
  rewrite processGenieResponse_begin_run.
  eexists. split; [reflexivity|].
  split; [|split].
  - rewrite (processGenieResponse_begin_frame Genie.isProcessing rDelay)
      by reflexivity.
    exact Hbusy.
  - rewrite (processGenieResponse_begin_frame Genie.messageHistory rDelay)
      by reflexivity.
    exact Harr1.
  - rewrite processGenieResponse_begin_trace. exact Htrace.
Qed.

(** An accepted submission on a history that is no array: [push] throws,
    the [catch] clause renders the error message, whose [push] throws again,
    and the [finally] clause leaves the instance idle. *)
Lemma accepted_other (message : jsstring) (rDelay : Draw) (now : Z)
    (s : Genie.State) :
  ~ isArray (Genie.messageHistory s) ->
  exists s',
    accepted message rDelay now s = (Throw TypeError, s')
    /\ Genie.isProcessing s' = false
    /\ Genie.messageHistory s' = Genie.messageHistory s
    /\ trace s'
       = trace s ++ [(user, JStr message);
                     (genie, JStr (Genie.messages_errorNetwork config))].
Proof.
  intros Hno. unfold accepted.
  rewrite bind_run. unfold modify at 1. cbv beta iota.
  rewrite bind_run. unfold Genie.updateUIState at 1, modify at 1.
  cbv beta iota. rewrite bind_run.
  set (s0 := Genie.with_inputDisabled true (Genie.with_isProcessing true s)).
  assert (Hno0 : ~ isArray (Genie.messageHistory s0)) by exact Hno.
  destruct (addMessage_other (JStr message) user now s0 Hno0) as (Hthrow & Hh).
  pose proof (addMessage_trace (JStr message) user now s0) as Htrace.
  destruct (Genie.addMessage config (JStr message) user now s0) as [o s1].
  simpl in Hthrow, Hh, Htrace. subst o.
  rewrite settle_run. cbv zeta. unfold try_catch, throw.
  rewrite bind_run.
  destruct (returns_run _ s1
              (handleError_returns config (js "Failed to send message")))
    as [[] Herr].
  rewrite Herr.
  set (s2 := snd (Genie.handleError config (js "Failed to send message") s1)).
  assert (Hh2 : Genie.messageHistory s2 = Genie.messageHistory s1)
    by (apply (handleError_frame config Genie.messageHistory);
        intros ? ? ?; reflexivity).
  assert (Ht2 : trace s2 = trace s1)
    by (apply (handleError_frame config trace), trace_ignoresNotes).
  assert (Hno2 : ~ isArray (Genie.messageHistory s2))
    by (rewrite Hh2, Hh; exact Hno0).
  destruct (addMessage_other (JStr (Genie.messages_errorNetwork config)) genie
              now s2 Hno2) as (Hthrow2 & Hh3).
  pose proof (addMessage_trace (JStr (Genie.messages_errorNetwork config))
                genie now s2) as Htrace2.
  destruct (Genie.addMessage config _ genie now s2) as [o s3].
  simpl in Hthrow2, Hh3, Htrace2. subst o.
  eexists. split; [reflexivity|]. split; [reflexivity|]. split.
  - transitivity (Genie.messageHistory s3); [reflexivity|].
    rewrite Hh3, Hh2, Hh. reflexivity.
  - transitivity (trace s3); [reflexivity|].
    rewrite Htrace2, Ht2, Htrace. rewrite <- app_assoc. reflexivity.
Qed.

(** The timer fires on a history that is an array: the reply is appended
    and the instance is idle again. *)
Lemma resume_array (t : Genie.Task) (r : Draw) (now : Z) (s : Genie.State) :
  isArray (Genie.messageHistory s) ->
  exists s',
    Genie.handleSendMessage_resume config t r now s = (Ret tt, s')
    /\ Genie.isProcessing s' = false
    /\ isArray (Genie.messageHistory s')
    /\ trace s'
       = trace s
           ++ [(genie, Genie.generateResponse config (Genie.userMessage t) r)].
Proof.
  intros Harr. unfold Genie.handleSendMessage_resume. rewrite settle_run.
  cbv zeta. unfold try_catch, Genie.processGenieResponse_rest.
  rewrite bind_run.
  destruct (hideTypingIndicator_run s) as (s1 & Hhide & Hh1 & _ & Ht1).
  rewrite Hhide.
  assert (Harr1 : isArray (Genie.messageHistory s1))
    by (rewrite Hh1; exact Harr).
  set (response := Genie.generateResponse config (Genie.userMessage t) r).
  destruct (addMessage_array_returns response genie now s1 Harr1)
    as (Hret & Harr2).
  pose proof (addMessage_trace response genie now s1) as Htrace.
  destruct (Genie.addMessage config response genie now s1) as [o s2].
  simpl in Hret, Harr2, Htrace. subst o.
  eexists. split; [reflexivity|]. split; [reflexivity|]. split.
  - exact Harr2.
  - transitivity (trace s2); [reflexivity|].
    rewrite Htrace, Ht1. reflexivity.
Qed.

End Handler.

(** ** The order of the appended messages *)

Definition other (who : Sender) : Sender :=
  match who with user => genie | genie => user end.

(** The senders alternate, starting with [expect]. *)
Fixpoint alternates (expect : Sender) (l : list Sender) : bool :=
  match l with
  | [] => true
  | who :: r => Sender_eqb who expect && alternates (other expect) r
  end.

(** User, Genie, User, Genie, ...: every user message is followed by its
    reply before the next user message. *)
Definition inPairs (l : list Sender) : bool := alternates user l.

Lemma other_involutive (who : Sender) : other (other who) = who.
Proof. destruct who; reflexivity. Qed.

Lemma alternates_snoc (expect : Sender) (l : list Sender) :
  alternates expect l = true ->
  alternates expect
    (l ++ [if Nat.even (length l) then expect else other expect]) = true.
Proof.
  revert expect. induction l as [|who r IH]; intros expect Hl.
  - destruct expect; reflexivity.
  - cbn [alternates] in Hl. apply andb_true_iff in Hl as [Hwho Hr].
    cbn [alternates app length]. rewrite Hwho. cbn [andb].
    specialize (IH (other expect) Hr).
    rewrite Nat.even_succ, <- Nat.negb_even.
    destruct (Nat.even (length r)); cbn [negb].
    + exact IH.
    + rewrite other_involutive in IH. exact IH.
Qed.

Lemma inPairs_user (l : list Sender) :
  inPairs l = true -> Nat.even (length l) = true ->
  inPairs (l ++ [user]) = true /\ Nat.even (length (l ++ [user])) = false.
Proof.
  intros Hl Heven. pose proof (alternates_snoc user l Hl) as H.
  rewrite Heven in H. split; [exact H|].
  rewrite length_app. simpl. rewrite Nat.add_1_r, Nat.even_succ.
  rewrite <- Nat.negb_even, Heven. reflexivity.
Qed.

Lemma inPairs_genie (l : list Sender) :
  inPairs l = true -> Nat.even (length l) = false ->
  inPairs (l ++ [genie]) = true /\ Nat.even (length (l ++ [genie])) = true.
Proof.
  intros Hl Hodd. pose proof (alternates_snoc user l Hl) as H.
  rewrite Hodd in H. split; [exact H|].
  rewrite length_app. simpl. rewrite Nat.add_1_r, Nat.even_succ.
  rewrite <- Nat.negb_even, Hodd. reflexivity.
Qed.

(** The senders of the messages that the instance appended. *)
Definition senders (s : Genie.State) : list Sender := map fst (trace s).

(** Between two events of genie.js: the appended messages are in pairs;
    either no call waits and the instance is idle after a reply, or one call
    waits, the instance is processing, the history is an array and the last
    message is the user's. *)
Definition genieInvariant (sys : Genie.System) : Prop :=
  let s := Genie.instance sys in
  inPairs (senders s) = true
  /\ ((Genie.waiting sys = [] /\ Genie.isProcessing s = false
       /\ Nat.even (length (senders s)) = true)
      \/ (exists t, Genie.waiting sys = [t]
                    /\ Genie.isProcessing s = true
                    /\ isArray (Genie.messageHistory s)
                    /\ Nat.even (length (senders s)) = false)).

Section GenieOrder.

Context `{JSONHost}.
Variable config : Genie.Config.

Lemma senders_noted (es : list Effect) (s : Genie.State) :
  silent es -> senders (Genie.noted es s) = senders s.
Proof.
  intros [Hes _]. unfold senders. rewrite trace_noted, Hes, app_nil_r.
  reflexivity.
Qed.

Lemma genieInvariant_step (ev : Genie.Event) (sys : Genie.System) :
  genieInvariant sys -> genieInvariant (Genie.step config ev sys).
Proof.
  intros (Hpairs & Hstate). destruct sys as [s waiting]. simpl in *.
  destruct ev as [text | rDelay now | i r now]; simpl.
  - (* the input field is given a value *)
    split; [exact Hpairs | exact Hstate].
  - (* handleSendMessage is called *)
    destruct Hstate as [(-> & Hidle & Heven) | (t & -> & Hbusy & Harr & Hodd)].
    + destruct (le_lt_dec 1 (length (trim (Genie.inputValue s)))) as [Hpos|Hz];
        [destruct (le_lt_dec (length (trim (Genie.inputValue s)))
                     (Genie.ui_maxMessageLength config)) as [Hle|Hgt]|].
      * rewrite (handleSendMessage_accepted config rDelay now s) by
          (try split; assumption).
        destruct (isArray_dec (Genie.messageHistory s)) as [Harr | Hno].
        -- destruct (accepted_array config (trim (Genie.inputValue s)) rDelay
                       now s Harr) as (s' & -> & Hbusy & Harr' & Htrace).
           unfold genieInvariant. simpl. unfold senders in *.
           rewrite Htrace, map_app. simpl.
           destruct (inPairs_user _ Hpairs Heven) as [Hp He].
           split; [exact Hp|]. right. eexists. repeat split; eassumption.
        -- destruct (accepted_other config (trim (Genie.inputValue s)) rDelay
                       now s Hno) as (s' & -> & Hidle' & _ & Htrace).
           unfold genieInvariant. simpl. unfold senders in *.
           rewrite Htrace, map_app. simpl.
           destruct (inPairs_user _ Hpairs Heven) as [Hp He].
           change (map fst (trace s) ++ [user; genie])
             with (map fst (trace s) ++ [user] ++ [genie]).
           rewrite app_assoc.
           destruct (inPairs_genie _ Hp He) as [Hp' He'].
           split; [exact Hp'|]. left. repeat split; assumption.
      * destruct (handleSendMessage_invalid config rDelay now s)
          as (es & Hes & ->); [lia|].
        unfold genieInvariant. simpl. rewrite senders_noted by exact Hes.
        split; [exact Hpairs|]. left. repeat split; assumption.
      * destruct (handleSendMessage_invalid config rDelay now s)
          as (es & Hes & ->); [lia|].
        unfold genieInvariant. simpl. rewrite senders_noted by exact Hes.
        split; [exact Hpairs|]. left. repeat split; assumption.
    + destruct (handleSendMessage_busy config rDelay now s Hbusy)
        as (es & Hes & ->).
      unfold genieInvariant. simpl. rewrite senders_noted by exact Hes.
      split; [exact Hpairs|]. right. exists t. repeat split; assumption.
  - (* a timer fires *)
    destruct Hstate as [(-> & Hidle & Heven) | (t & -> & Hbusy & Harr & Hodd)].
    + destruct i; simpl; (split; [exact Hpairs|]); left;
        repeat split; assumption.
    + destruct i as [|i]; simpl.
      * destruct (resume_array config t r now s Harr)
          as (s' & -> & Hidle & Harr' & Htrace).
        unfold genieInvariant. simpl. unfold senders in *.
        rewrite Htrace, map_app. simpl.
        destruct (inPairs_genie _ Hpairs Hodd) as [Hp He].
        split; [exact Hp|]. left. repeat split; assumption.
      * destruct i; simpl; (split; [exact Hpairs|]); right; exists t;
          repeat split; assumption.
Qed.

Lemma genieInvariant_run (events : list Genie.Event) (sys : Genie.System) :
  genieInvariant sys -> genieInvariant (Genie.run config events sys).
Proof.
  revert sys. induction events as [|ev events IH]; intros sys Hsys.
  - exact Hsys.
  - apply IH, genieInvariant_step, Hsys.
Qed.

(** A started instance is idle and has appended nothing. *)
Lemma main_started_idle (page : Genie.Page) (s : Genie.State) :
  Genie.main (Some config) page = Genie.Started s ->
  genieInvariant {| Genie.instance := s; Genie.waiting := [] |}.
Proof.
  intros Hs.
  destruct (Genie.missingElements page) as [|m l] eqn:E.
  - rewrite (main_started config page E) in Hs. injection Hs as <-.
    assert (Htrace : trace (snd (Genie.logInitialization config
                                   (snd (Genie.loadMessageHistory config
                                           (Genie.blank page))))) = []).
    { rewrite (logInitialization_frame config trace trace_ignoresNotes).
      rewrite (loadMessageHistory_frame config trace trace_ignoresNotes);
        [reflexivity | intros ? ?; reflexivity]. }
    unfold genieInvariant, senders. simpl. rewrite Htrace.
    split; [reflexivity|]. left. split; [reflexivity|]. split; [|reflexivity].
    rewrite (logInitialization_frame config Genie.isProcessing)
      by (intros ? ? ?; reflexivity).
    rewrite (loadMessageHistory_frame config Genie.isProcessing);
      [reflexivity | intros ? ? ?; reflexivity | intros ? ?; reflexivity].
  - destruct (main_failed config page) as [s' Hs']; [congruence|].
    rewrite Hs' in Hs. discriminate.
Qed.

End GenieOrder.

(** ** app.js: [handleSendMessage] *)

(** The senders of [state.messages]. *)
Definition types (s : App.State) : list Sender := map App.type (App.messages s).

(** Between two events that the page delivers to app.js. *)
Definition appInvariant (sys : App.System) : Prop :=
  let s := App.instance sys in
  inPairs (types s) = true
  /\ ((App.waiting sys = [] /\ App.inputDisabled s = false
       /\ App.isTyping s = false /\ Nat.even (length (types s)) = true)
      \/ (App.waiting sys = [App.AfterUserScroll]
          /\ App.inputDisabled s = true /\ Nat.even (length (types s)) = false)
      \/ (exists d, App.waiting sys = [App.AfterTypingDelay d]
                    /\ App.inputDisabled s = true
                    /\ Nat.even (length (types s)) = false)
      \/ (App.waiting sys = [App.AfterGenieScroll]
          /\ App.inputDisabled s = true /\ Nat.even (length (types s)) = true)).

Section AppOrder.

Variable config : App.Config.

Lemma App_validateMessage_valid (message : jsstring) :
  (0 < length (trim message) <= App.chat_maxMessageLength config)%nat ->
  App.validateMessage config (trim message) = App.valid.
Proof.
  intros [Hpos Hle]. unfold App.validateMessage. rewrite trim_idempotent.
  destruct (trim message) as [|c m]; [simpl in Hpos; lia|].
  replace (App.chat_maxMessageLength config <? length (c :: m))%nat with false
    by (symmetry; apply Nat.ltb_ge; exact Hle).
  reflexivity.
Qed.

(** What a call does on an instance that is not typing. *)
Lemma App_handleSendMessage_idle (now : Z) (s : App.State) :
  App.isTyping s = false ->
  (exists es s',
      App.handleSendMessage config now s = (Ret None, s')
      /\ s' = App.noted es s)
  \/ (exists s',
         App.handleSendMessage config now s = (Ret (Some App.AfterUserScroll), s')
         /\ App.messages s'
            = App.messages s
                ++ [{| App.type := user;
                       App.content := JStr (trim (App.inputValue s));
                       App.timestamp := now |}]
         /\ App.inputDisabled s' = true
         /\ App.isTyping s' = false).
Proof.
  intros Hidle. unfold App.handleSendMessage, bind, gets. rewrite Hidle.
  destruct (App.validateMessage config (trim (App.inputValue s))) as [|error].
  - right. unfold App.setInputDisabled, App.addUserMessage_begin,
      App.appendMessageElement, App.clearWelcomeMessage, bind, gets, modify,
      ret, when, App.emit.
    change (App.isFirstMessage (App.with_inputDisabled true s))
      with (App.isFirstMessage s).
    destruct (App.isFirstMessage s); eexists; repeat split;
      try reflexivity; exact Hidle.
  - left. unfold App.showError, App.focusInput, App.emit, bind, ret.
    exists [ConsoleWarn error; FocusInput; Placeholder error]. eexists.
    split; [reflexivity|].
    unfold App.noted. simpl. rewrite <- !app_assoc. reflexivity.
Qed.

Lemma appInvariant_deliver (ev : App.Event) (sys : App.System) :
  appInvariant sys -> appInvariant (App.deliver config ev sys).
Proof.
  intros (Hpairs & Hstate). destruct sys as [s waiting]. simpl in *.
  destruct ev as [text | now | i r now].
  - (* the input field is given a value *)
    split; [exact Hpairs | exact Hstate].
  - (* the form is submitted *)
    unfold App.deliver. simpl.
    assert (Hcase : App.inputDisabled s = true \/ App.inputDisabled s = false)
      by (destruct (App.inputDisabled s); auto).
    destruct Hcase as [Hdisabled | Hdisabled]; rewrite Hdisabled;
      [split; [exact Hpairs | exact Hstate]|].
    destruct Hstate as [(-> & _ & Hidle & Heven)
                       | [(_ & Hd & _) | [(d & _ & Hd & _) | (_ & Hd & _)]]];
      try congruence.
    destruct (App_handleSendMessage_idle now s Hidle)
      as [(es & s' & -> & ->) | (s' & -> & Hmsgs & Hdis & Htyp)].
    + split; [exact Hpairs|]. left. repeat split; assumption.
    + unfold appInvariant, types in *. simpl. rewrite Hmsgs, map_app. simpl.
      destruct (inPairs_user _ Hpairs Heven) as [Hp He].
      split; [exact Hp|]. right. left. repeat split; assumption.
  - (* a timer fires *)
    unfold App.deliver, App.step. simpl.
    destruct Hstate as [(-> & Hen & Hidle & Heven)
                       | [(-> & Hd & Hodd)
                         | [(d & -> & Hd & Hodd) | (-> & Hd & Heven)]]].
    + destruct i; simpl; (split; [exact Hpairs|]); left;
        repeat split; assumption.
    + destruct i as [|i]; simpl.
      * split; [exact Hpairs|]. right. right. left. eexists.
        repeat split; assumption.
      * destruct i; simpl; (split; [exact Hpairs|]); right; left;
          repeat split; assumption.
    + destruct i as [|i]; simpl.
      * unfold appInvariant, types in *. simpl. rewrite map_app. simpl.
        destruct (inPairs_genie _ Hpairs Hodd) as [Hp He].
        split; [exact Hp|]. right. right. right. repeat split; assumption.
      * destruct i; simpl; (split; [exact Hpairs|]); right; right; left;
          exists d; repeat split; assumption.
    + destruct i as [|i]; simpl.
      * split; [exact Hpairs|]. left. repeat split; try assumption;
          reflexivity.
      * destruct i; simpl; (split; [exact Hpairs|]); right; right; right;
          repeat split; assumption.
Qed.

Lemma appInvariant_runPage (events : list App.Event) (sys : App.System) :
  appInvariant sys -> appInvariant (App.runPage config events sys).
Proof.
  revert sys. induction events as [|ev events IH]; intros sys Hsys.
  - exact Hsys.
  - apply IH, appInvariant_deliver, Hsys.
Qed.

Lemma constructor_started_idle (page : App.Page) (s : App.State) :
  App.constructor config page = App.Started s ->
  appInvariant {| App.instance := s; App.waiting := [] |}.
Proof.
  unfold App.constructor. destruct (App.initializeElements page); [discriminate|].
  intros [= <-]. split; [reflexivity|]. left. repeat split; reflexivity.
Qed.

End AppOrder.

(** C2, as the code has it.  While the flag is true ([isProcessing] in
    genie.js, [isTyping] in app.js) a call of [handleSendMessage] is over at
    once, appends nothing and leaves the instance as it is (genie.js may
    show the alert of a failed validation first).  In genie.js the flag is
    set as soon as a submission is accepted, so in every run from a start the
    appended messages come in pairs, User then Genie, and the instance is
    processing exactly when the last message is the user's.  In app.js the
    flag is set only when the reply simulation starts; until then a second
    submission is kept out by the disabled input, so the pairs hold in every
    run in which the page delivers the submissions. *)
Theorem submissions_in_flight :
  forall (host : JSONHost) (gc : Genie.Config) (ac : App.Config),
    (forall rDelay now s,
        Genie.isProcessing s = true ->
        exists es, silent es
                   /\ Genie.handleSendMessage gc rDelay now s
                      = (Ret None, Genie.noted es s))
    /\ (forall page s0 events,
          Genie.main (Some gc) page = Genie.Started s0 ->
          let s := Genie.instance
                     (Genie.run gc events
                        {| Genie.instance := s0; Genie.waiting := [] |}) in
          inPairs (senders s) = true
          /\ Genie.isProcessing s = negb (Nat.even (length (senders s))))
    /\ (forall now s,
          App.isTyping s = true ->
          App.handleSendMessage ac now s = (Ret None, s))
    /\ (forall page s0 events,
          App.constructor ac page = App.Started s0 ->
          let s := App.instance
                     (App.runPage ac events
                        {| App.instance := s0; App.waiting := [] |}) in
          inPairs (types s) = true).
Proof.
  intros host gc ac. split; [|split; [|split]].
  - intros rDelay now s. apply handleSendMessage_busy.
  - intros page s0 events Hstart s.
    pose proof (genieInvariant_run gc events _
                  (main_started_idle gc page s0 Hstart)) as (Hpairs & Hstate).
    fold s in Hpairs, Hstate. split; [exact Hpairs|].
    destruct Hstate as [(_ & -> & ->) | (t & _ & -> & _ & ->)]; reflexivity.
  - intros now s Htyping. unfold App.handleSendMessage, bind, gets.
    rewrite Htyping. reflexivity.
  - intros page s0 events Hstart s.
    apply (appInvariant_runPage ac events _
             (constructor_started_idle ac page s0 Hstart)).
Qed.

(** A page for app.js with the five elements and an empty container. *)
Definition appPage : App.Page :=
  {| App.page_chatContainer := Some [];
     App.page_messageInput := Some [];
     App.page_messageForm := true;
     App.page_typingIndicator := true;
     App.page_sendButton := true |}.

Definition appStart : App.System :=
  match App.constructor App.CONFIG appPage with
  | App.Started s => {| App.instance := s; App.waiting := [] |}
  | App.StartFailed _ =>
      {| App.instance :=
           {| App.messageCount := 0; App.messages := []; App.isTyping := false;
              App.isFirstMessage := true; App.chatContainer := [];
              App.nextNode := 0; App.inputValue := [];
              App.inputDisabled := false; App.typingShown := false;
              App.effects := [] |};
         App.waiting := [] |}
  end.

(** C2 fails as stated on app.js: a second call of [handleSendMessage]
    that arrives while the first waits for the scroll after its user
    message finds [isTyping] false, is accepted and appends a second user
    message before any reply. *)
Lemma second_call_interleaves :
  let sys := App.run App.CONFIG
               [App.Typed (js "hello"); App.Submit 1700000000000;
                App.Submit 1700000000010] appStart in
  App.waiting sys = [App.AfterUserScroll; App.AfterUserScroll]
  /\ types (App.instance sys) = [user; user]
  /\ inPairs (types (App.instance sys)) = false.
Proof. vm_compute. repeat split; reflexivity. Qed.

(** C7: an input whose trimmed text is not empty and not longer than the
    bound passes the validation, and the message that the idle instance
    then appends for the user is the trimmed text. *)
Theorem accepted_text_is_trimmed :
  forall (host : JSONHost) (gc : Genie.Config) (ac : App.Config)
         (candidate : jsstring) (rDelay : Draw) (now : Z)
         (gs : Genie.State) (s : App.State),
    Genie.isProcessing gs = false ->
    App.isTyping s = false ->
    let message := trim candidate in
    ((0 < length message <= Genie.ui_maxMessageLength gc)%nat ->
     Genie.validateMessage gc message gs = (Ret true, gs)
     /\ exists rest,
          trace (snd (Genie.handleSendMessage gc rDelay now
                        (Genie.with_inputValue candidate gs)))
          = trace gs ++ (user, JStr message) :: rest)
    /\ ((0 < length message <= App.chat_maxMessageLength ac)%nat ->
        App.validateMessage ac message = App.valid
        /\ exists s',
             App.handleSendMessage ac now (App.with_inputValue candidate s)
             = (Ret (Some App.AfterUserScroll), s')
             /\ App.messages s'
                = App.messages s
                    ++ [{| App.type := user; App.content := JStr message;
                           App.timestamp := now |}]).
Proof.
  intros host gc ac candidate rDelay now gs s Hidle Hquiet message. split.
  - intros Hok. split; [apply validateMessage_valid; exact Hok|].
    set (gs' := Genie.with_inputValue candidate gs).
    rewrite (handleSendMessage_accepted gc rDelay now gs') by assumption.
    change (trim (Genie.inputValue gs')) with message.
    destruct (isArray_dec (Genie.messageHistory gs')) as [Harr | Hno].
    + destruct (accepted_array gc message rDelay now gs' Harr)
        as (s' & -> & _ & _ & Htrace).
      exists []. exact Htrace.
    + destruct (accepted_other gc message rDelay now gs' Hno)
        as (s' & -> & _ & _ & Htrace).
      eexists. exact Htrace.
  - intros Hok.
    pose proof (App_validateMessage_valid ac candidate Hok) as Hvalid.
    split; [exact Hvalid|].
    destruct (App_handleSendMessage_idle ac now
                (App.with_inputValue candidate s) Hquiet)
      as [(es & s' & Hrun & _) | (s' & Hrun & Hmsgs & _)].
    + exfalso. revert Hrun. unfold App.handleSendMessage, bind, gets.
      change (App.isTyping (App.with_inputValue candidate s))
        with (App.isTyping s).
      rewrite Hquiet.
      change (trim (App.inputValue (App.with_inputValue candidate s)))
        with (trim candidate).
      rewrite Hvalid.
      unfold App.setInputDisabled, App.addUserMessage_begin, bind, ret, modify.
      destruct (_ : Outcome unit * App.State) as [[u|e] s1]; discriminate.
    + exists s'. split; [exact Hrun | exact Hmsgs].
Qed.

Lemma accepted_text_is_trimmed_witness :
  let gs := Genie.blank (pageWith emptyStorage) in
  let sys := App.step App.CONFIG (App.Typed (js "  hello  ")) appStart in
  trace (snd (Genie.handleSendMessage (H := MiniJSON.host) Genie.GenieConfig
                {| num := 1; den := 2 |} 1700000000000
                (Genie.with_inputValue (js "  hello  ") gs)))
  = [(user, JStr (js "hello"))]
  /\ exists s',
       App.handleSendMessage App.CONFIG 1700000000000 (App.instance sys)
       = (Ret (Some App.AfterUserScroll), s')
       /\ App.messages s'
          = [{| App.type := user; App.content := JStr (js "hello");
                App.timestamp := 1700000000000 |}].
Proof.
  intros gs sys.
  destruct (accepted_text_is_trimmed MiniJSON.host Genie.GenieConfig App.CONFIG
              (js "  hello  ") {| num := 1; den := 2 |} 1700000000000 gs
              (App.instance appStart) eq_refl eq_refl) as (Hg & Ha).
  split.
  - destruct Hg as (_ & rest & Hrest); [vm_compute; split; lia|].
    vm_compute. reflexivity.
  - destruct Ha as (_ & s' & Hrun & Hmsgs); [vm_compute; split; lia|].
    exists s'. split; [exact Hrun | exact Hmsgs].
Defined.

(** * Further properties of the code *)

(** ** genie.js: what [enforceMessageLimit] removes from the chat window *)

Definition isWelcome (e : Element) : bool := hasClass "welcome-message" e.

Lemma removeExcess_messages (excess : nat) (children : list Element) :
  List.filter Genie.isMessage (Genie.removeExcess excess children)
  = List.filter isWelcome
      (firstn excess (List.filter Genie.isMessage children))
    ++ skipn excess (List.filter Genie.isMessage children).
Proof.
  revert excess. induction children as [|e r IH]; intros excess.
  - destruct excess; reflexivity.
  - cbn [Genie.removeExcess List.filter].
    destruct (Genie.isMessage e) eqn:E.
    + destruct excess as [|n].
      * cbn [List.filter firstn skipn app]. rewrite E. reflexivity.
      * cbn [firstn skipn List.filter]. unfold isWelcome at 1.
        destruct (hasClass "welcome-message" e).
        -- cbn [List.filter app]. rewrite E, IH. reflexivity.
        -- apply IH.
    + cbn [List.filter]. rewrite E. apply IH.
Qed.

Lemma removeExcess_others (excess : nat) (children : list Element) :
  List.filter (fun e => negb (Genie.isMessage e))
    (Genie.removeExcess excess children)
  = List.filter (fun e => negb (Genie.isMessage e)) children.
Proof.
  revert excess. induction children as [|e r IH]; intros excess.
  - destruct excess; reflexivity.
  - cbn [Genie.removeExcess List.filter].
    destruct (Genie.isMessage e) eqn:E.
    + destruct excess as [|n].
      * cbn [List.filter]. rewrite E. reflexivity.
      * destruct (hasClass "welcome-message" e);
          cbn [List.filter negb]; rewrite ?E; cbn [negb]; apply IH.
    + cbn [List.filter]. rewrite E. cbn [negb]. f_equal. apply IH.
Qed.

Lemma removeExcess_sublist (excess : nat) (children : list Element) :
  sublist (Genie.removeExcess excess children) children.
Proof.
  revert excess. induction children as [|e r IH]; intros excess.
  - destruct excess; constructor.
  - cbn [Genie.removeExcess].
    destruct (Genie.isMessage e).
    + destruct excess as [|n]; [reflexivity|].
      destruct (hasClass "welcome-message" e).
      * apply sublist_skip, IH.
      * apply sublist_cons, IH.
    + apply sublist_skip, IH.
Qed.

Lemma enforceMessageLimit_chatWindow `{JSONHost} (config : Genie.Config)
    (s : Genie.State) :
  Genie.chatWindow (snd (Genie.enforceMessageLimit config s))
  = if (Genie.ui_messageLimit config <? countMessages (Genie.chatWindow s))%nat
    then Genie.removeExcess
           (countMessages (Genie.chatWindow s) - Genie.ui_messageLimit config)
           (Genie.chatWindow s)
    else Genie.chatWindow s.
Proof.
  unfold Genie.enforceMessageLimit, bind, gets, modify.
  fold (countMessages (Genie.chatWindow s)).
  destruct (Genie.ui_messageLimit config <? countMessages (Genie.chatWindow s))%nat;
    [|reflexivity].
  cbn [fst snd Genie.messageHistory Genie.with_chatWindow].
  destruct (slice _ (Genie.messageHistory s)); reflexivity.
Qed.

(** X1: whatever the history is, [enforceMessageLimit] leaves in the chat
    window a subsequence of what was there; it never removes an element that
    the selector [.message:not(.typing-indicator)] does not select (the
    typing indicator among them); and the selected elements that remain are
    the welcome messages among the [excess] oldest ones followed by all the
    later ones, so the newest [messageLimit] messages always stay. *)
Theorem enforceMessageLimit_keeps_newest :
  forall (host : JSONHost) (config : Genie.Config) (s : Genie.State),
    let limit := Genie.ui_messageLimit config in
    let messages := List.filter Genie.isMessage (Genie.chatWindow s) in
    let after := Genie.chatWindow (snd (Genie.enforceMessageLimit config s)) in
    let excess := (length messages - limit)%nat in
    sublist after (Genie.chatWindow s)
    /\ List.filter (fun e => negb (Genie.isMessage e)) after
       = List.filter (fun e => negb (Genie.isMessage e)) (Genie.chatWindow s)
    /\ List.filter Genie.isMessage after
       = List.filter isWelcome (firstn excess messages) ++ skipn excess messages
    /\ (limit <= length (List.filter Genie.isMessage after)
        \/ List.filter Genie.isMessage after = messages)%nat.
Proof.
  intros host config s limit messages after excess.
  assert (Hafter : after
                   = if (limit <? length messages)%nat
                     then Genie.removeExcess excess (Genie.chatWindow s)
                     else Genie.chatWindow s)
    by apply enforceMessageLimit_chatWindow.
  destruct (limit <? length messages)%nat eqn:E; rewrite Hafter.
  - apply Nat.ltb_lt in E.
    split; [apply removeExcess_sublist|].
    split; [apply removeExcess_others|].
    split; [apply removeExcess_messages|].
    left. rewrite removeExcess_messages. fold messages.
    rewrite length_app, length_skipn. unfold excess. lia.
  - apply Nat.ltb_ge in E.
    split; [reflexivity|]. split; [reflexivity|].
    fold messages. replace excess with 0%nat by (unfold excess; lia).
    split; [reflexivity | right; reflexivity].
Qed.

(** ** genie.js: the chat window shows the history *)








(** ** genie.js: the storage after an append *)

(** What [saveMessageHistory] leaves in the storage when the history is
    the array [a]: the text it writes, if the write goes through. *)
Definition storedAfter `{JSONHost} (a : list JSValue) (st : Storage)
  : Storage :=
  match Storage_setItem st Genie.storageKey
          (JSON_stringify (JArr (Array_slice (-50) a))) with
  | inr st' => st'
  | inl _ => st
  end.

Section Persistence.

Context `{JSONHost}.
Variable config : Genie.Config.

Hypothesis history_on : Genie.features_enableMessageHistory config = true.

Lemma saveMessageHistory_storage (s : Genie.State) (a : list JSValue) :
  Genie.messageHistory s = JArr a ->
  Genie.localStorage (snd (Genie.saveMessageHistory config s))
  = storedAfter a (Genie.localStorage s).
Proof.
  intros Ha. unfold Genie.saveMessageHistory, Genie.setItem, storedAfter.
  rewrite history_on.
  unfold negb, try_catch, bind, gets, Genie.emit. rewrite Ha. unfold slice.
  change (Genie.localStorage (Genie.noted _ s)) with (Genie.localStorage s).
  destruct (Storage_setItem (Genie.localStorage s) Genie.storageKey _)
    as [e | st']; [|reflexivity].
  unfold throw. rewrite log_run. reflexivity.
Qed.

Lemma afterLimit_storage (text : JSValue) (who : Sender) (s : Genie.State)
    (a : list JSValue) :
  Genie.messageHistory s = JArr a ->
  Genie.localStorage (snd (afterLimit config text who s))
  = storedAfter a (Genie.localStorage s).
Proof.
  intros Ha. unfold afterLimit. rewrite history_on. unfold when at 3.
  assert (Hquiet : forall b (m : M Genie.State unit) s0,
             (exists e, m = Genie.emit e) ->
             exists es, when b m s0 = (Ret tt, Genie.noted es s0)).
  { intros b m s0 [e ->]. destruct b.
    - exists [e]. reflexivity.
    - exists []. rewrite noted_nil. reflexivity. }
  rewrite bind_run.
  destruct (Hquiet (Genie.ui_autoScroll config) Genie.scrollToBottom s
              ltac:(eexists; reflexivity)) as [es1 ->].
  rewrite bind_run.
  destruct (Hquiet (Genie.accessibility_announceMessages config
                    && Sender_eqb who genie)
              (Genie.announceToScreenReader text) (Genie.noted es1 s)
              ltac:(eexists; reflexivity)) as [es2 ->].
  rewrite (saveMessageHistory_storage _ a) by exact Ha. reflexivity.
Qed.

Lemma addMessage_storage (text : JSValue) (who : Sender) (now : Z)
    (s : Genie.State) (a : list JSValue) :
  Genie.messageHistory s = JArr a ->
  exists a',
    Genie.messageHistory (snd (Genie.addMessage config text who now s))
    = JArr a'
    /\ (exists dropped, a ++ [Genie.entry text who now] = dropped ++ a')
    /\ Genie.localStorage (snd (Genie.addMessage config text who now s))
       = storedAfter a' (Genie.localStorage s).
Proof.
  intros Ha.
  destruct (addMessage_array config text who now s a Ha) as (_ & Hhist & _).
  eexists. split; [exact Hhist|]. split.
  { destruct (_ <? _)%nat; [apply Array_slice_suffix | exists []; reflexivity]. }
  rewrite addMessage_run, bind_run.
  rewrite (push_array _ (rendered text who s) a) by exact Ha.
  rewrite bind_run.
  rewrite (enforceMessageLimit_array config _ (a ++ [Genie.entry text who now]))
    by reflexivity.
  cbv zeta.
  replace (countMessages
             (Genie.chatWindow
                (Genie.with_messageHistory (JArr (a ++ [Genie.entry text who now]))
                   (rendered text who s))))
    with (S (countMessages (Genie.chatWindow s))).
  2:{ change (Genie.chatWindow (Genie.with_messageHistory _ _))
        with (Genie.chatWindow s ++ [messageElement text who s]).
      rewrite countMessages_app.
      assert (Hone : countMessages [messageElement text who s] = 1%nat)
        by (destruct who; reflexivity).
      lia. }
  destruct (_ <? _)%nat.
  - rewrite (afterLimit_storage text who _
               (Array_slice (- Z.of_nat (Genie.ui_messageLimit config))
                  (a ++ [Genie.entry text who now]))) by reflexivity.
    reflexivity.
  - rewrite (afterLimit_storage text who _ (a ++ [Genie.entry text who now]))
      by reflexivity.
    reflexivity.
Qed.

End Persistence.

Lemma storedAfter_other_keys `{JSONHost} (a : list JSValue) (st : Storage)
    (key : jsstring) :
  key <> Genie.storageKey ->
  items (storedAfter a st) !! key = items st !! key.
Proof.
  intros Hkey. unfold storedAfter, Storage_setItem.
  destruct (available st); [|reflexivity].
  destruct (quota st) as [q|].
  - destruct (q <? _)%nat; [reflexivity|]. simpl.
    apply lookup_insert_ne. congruence.
  - simpl. apply lookup_insert_ne. congruence.
Qed.

(** X3: with the toggle on and a history that is an array, when the write
    of [saveMessageHistory] goes through, the storage holds after
    [addMessage], under the key of the history, the serialization of the last
    fifty entries of the history as [addMessage] leaves it; every other key
    of the storage keeps its value, whether the write goes through or
    not. *)
Theorem addMessage_stores_history :
  forall (host : JSONHost) (config : Genie.Config) (text : JSValue)
         (who : Sender) (now : Z) (s : Genie.State) (a : list JSValue),
    Genie.features_enableMessageHistory config = true ->
    Genie.messageHistory s = JArr a ->
    let s' := snd (Genie.addMessage config text who now s) in
    exists a',
      Genie.messageHistory s' = JArr a'
      /\ (forall st',
            Storage_setItem (Genie.localStorage s) Genie.storageKey
              (JSON_stringify (JArr (Array_slice (-50) a'))) = inr st' ->
            Storage_getItem (Genie.localStorage s') Genie.storageKey
            = inr (Some (JSON_stringify (JArr (Array_slice (-50) a')))))
      /\ (forall key, key <> Genie.storageKey ->
            items (Genie.localStorage s') !! key
            = items (Genie.localStorage s) !! key).
Proof.
  intros host config text who now s a Hon Ha s'.
  destruct (addMessage_storage config Hon text who now s a Ha)
    as (a' & Hhist & _ & Hstore).
  exists a'. split; [exact Hhist|]. fold s' in Hstore. split.
  - intros st' Hset. rewrite Hstore. unfold storedAfter. rewrite Hset.
    eapply Storage_setItem_lookup. exact Hset.
  - intros key Hkey. rewrite Hstore. apply storedAfter_other_keys. exact Hkey.
Qed.

Lemma addMessage_stores_history_witness :
  let s := Genie.blank (pageStoring (js "[]")) in
  let s' := snd (Genie.addMessage (H := MiniJSON.host) Genie.GenieConfig
                   (JStr (js "hi")) user 0 s) in
  Storage_getItem (Genie.localStorage s') Genie.storageKey
  = inr (Some (jsq "[{'text':'hi','sender':'user','timestamp':'1970-01-01T00:00:00.000Z'}]")).
Proof.
  intros s s'.
  destruct (addMessage_stores_history MiniJSON.host Genie.GenieConfig
              (JStr (js "hi")) user 0 s [] eq_refl eq_refl)
    as (a' & Hhist & Hstored & _).
  fold s' in Hhist, Hstored.
  assert (Ha' : a' = [Genie.entry (JStr (js "hi")) user 0]).
  { assert (Hvalue : Genie.messageHistory s'
                     = JArr [Genie.entry (JStr (js "hi")) user 0])
      by (vm_compute; reflexivity).
    congruence. }
  subst a'. eapply eq_trans; [eapply Hstored; reflexivity|].
  vm_compute. reflexivity.
Defined.



(** ** genie.js: the typing indicator *)

(** Every element of the chat window was created before the next node. *)
Definition freshIds (s : Genie.State) : Prop :=
  Forall (fun e => (el_id e < Genie.nextNode s)%nat) (Genie.chatWindow s).

Lemma filter_other_ids (id : nat) (children : list Element) :
  Forall (fun e => (el_id e < id)%nat) children ->
  List.filter (fun e => negb (el_id e =? id)%nat) children = children.
Proof.
  induction 1 as [|e r He Hr IH]; [reflexivity|].
  cbn [List.filter]. replace (el_id e =? id)%nat with false
    by (symmetry; apply Nat.eqb_neq; lia).
  cbn [negb]. f_equal. exact IH.
Qed.

(** X5: the typing indicator is not a message and leaves no trace.  On an
    instance whose elements are older than the next node,
    [showTypingIndicator] adds one element that the message selector does not
    select, so it never counts towards [ui.messageLimit];
    [hideTypingIndicator] right after it gives back the chat window as it
    was and forgets the indicator; and [hideTypingIndicator] without an
    indicator changes nothing in the chat window. *)
Theorem typing_indicator_round_trip :
  forall (config : Genie.Config) (s : Genie.State),
    freshIds s ->
    let s1 := snd (Genie.showTypingIndicator config s) in
    let s2 := snd (Genie.hideTypingIndicator s1) in
    countMessages (Genie.chatWindow s1) = countMessages (Genie.chatWindow s)
    /\ length (Genie.chatWindow s1) = S (length (Genie.chatWindow s))
    /\ Genie.chatWindow s2 = Genie.chatWindow s
    /\ Genie.typingIndicator s2 = None
    /\ freshIds s2
    /\ (Genie.typingIndicator s = None ->
        Genie.chatWindow (snd (Genie.hideTypingIndicator s))
        = Genie.chatWindow s).
Proof.
  intros config s Hfresh s1 s2.
  assert (Hs1 : Genie.chatWindow s1
                = Genie.chatWindow s
                  ++ [{| el_id := Genie.nextNode s;
                         el_classes := ["message"; "genie-message";
                                        "typing-indicator"]%string;
                         el_text := JStr (Genie.messages_processing config) |}])
    by reflexivity.
  assert (Hs2 : Genie.chatWindow s2
                = List.filter (fun e => negb (el_id e =? Genie.nextNode s)%nat)
                    (Genie.chatWindow s1)) by reflexivity.
  split.
  { rewrite Hs1, countMessages_app.
    match goal with
    | |- (_ + countMessages ?l)%nat = _ =>
        change (countMessages l) with 0%nat
    end.
    lia. }
  split; [rewrite Hs1, length_app; cbn [length]; lia|].
  assert (Hback : Genie.chatWindow s2 = Genie.chatWindow s).
  { rewrite Hs2, Hs1, List.filter_app, filter_other_ids by exact Hfresh.
    cbn [List.filter el_id]. rewrite Nat.eqb_refl. cbn [negb].
    apply app_nil_r. }
  split; [exact Hback|]. split; [reflexivity|]. split.
  - unfold freshIds. rewrite Hback.
    eapply Forall_impl; [exact Hfresh|].
    intros e He. cbv beta in He |- *.
    change (Genie.nextNode s2) with (S (Genie.nextNode s)). lia.
  - intros Hnone. unfold Genie.hideTypingIndicator, bind, gets.
    rewrite Hnone. reflexivity.
Qed.

Lemma typing_indicator_round_trip_witness :
  let s := snd (Genie.addMessage (H := MiniJSON.host) Genie.GenieConfig
                  (JStr (js "hi")) user 0 (Genie.blank (pageWith emptyStorage))) in
  Genie.chatWindow
    (snd (Genie.hideTypingIndicator
            (snd (Genie.showTypingIndicator Genie.GenieConfig s))))
  = Genie.chatWindow s.
Proof.
  intros s.
  destruct (typing_indicator_round_trip Genie.GenieConfig s)
    as (_ & _ & Hback & _).
  - vm_compute. repeat constructor.
  - exact Hback.
Defined.

(** ** genie.js: the input field during an exchange *)

Section Controls.

Context `{JSONHost}.
Variable config : Genie.Config.

(** The state that an accepted submission leaves when the history is an
    array. *)
Lemma accepted_array_state (message : jsstring) (rDelay : Draw) (now : Z)
    (s : Genie.State) :
  isArray (Genie.messageHistory s) ->
  snd (accepted config message rDelay now s)
  = snd (Genie.processGenieResponse_begin config rDelay
           (Genie.with_inputValue []
              (snd (Genie.addMessage config (JStr message) user now
                      (Genie.with_inputDisabled true
                         (Genie.with_isProcessing true s)))))).
Proof.
  intros Harr. unfold accepted.
  rewrite bind_run. unfold modify at 1. cbv beta iota.
  rewrite bind_run. unfold Genie.updateUIState at 1, modify at 1.
  cbv beta iota. rewrite bind_run.
  set (s0 := Genie.with_inputDisabled true (Genie.with_isProcessing true s)).
  assert (Harr0 : isArray (Genie.messageHistory s0)) by exact Harr.
  destruct (addMessage_array_returns config (JStr message) user now s0 Harr0)
    as (Hret & _).
  destruct (Genie.addMessage config (JStr message) user now s0) as [o s1].
  simpl in Hret. subst o.
  rewrite bind_run. unfold modify at 1. cbv beta iota.
  rewrite processGenieResponse_begin_run. reflexivity.
Qed.

(** The input field after an accepted submission that waits for its
    timer. *)
Lemma accepted_array_controls (message : jsstring) (rDelay : Draw) (now : Z)
    (s : Genie.State) :
  isArray (Genie.messageHistory s) ->
  let s' := snd (accepted config message rDelay now s) in
  Genie.inputDisabled s' = true /\ Genie.inputValue s' = [].
Proof.
  intros Harr s'. subst s'. rewrite accepted_array_state by exact Harr.
  split.
  - rewrite (processGenieResponse_begin_frame config Genie.inputDisabled rDelay)
      by reflexivity.
    change (Genie.inputDisabled (Genie.with_inputValue [] ?x))
      with (Genie.inputDisabled x).
    rewrite (addMessage_keeps config Genie.inputDisabled) by reflexivity.
    reflexivity.
  - rewrite (processGenieResponse_begin_frame config Genie.inputValue rDelay)
      by reflexivity.
    reflexivity.
Qed.

(** The state that an accepted submission leaves when the history is no
    array. *)
Lemma accepted_other_state (message : jsstring) (rDelay : Draw) (now : Z)
    (s : Genie.State) :
  ~ isArray (Genie.messageHistory s) ->
  snd (accepted config message rDelay now s)
  = Genie.with_inputDisabled false
      (Genie.with_isProcessing false
         (snd ((Genie.handleError config (js "Failed to send message") ;;
                Genie.addMessage config
                  (JStr (Genie.messages_errorNetwork config)) genie now)
                 (snd (Genie.addMessage config (JStr message) user now
                         (Genie.with_inputDisabled true
                            (Genie.with_isProcessing true s))))))).
Proof.
  intros Hno. unfold accepted.
  rewrite bind_run. unfold modify at 1. cbv beta iota.
  rewrite bind_run. unfold Genie.updateUIState at 1, modify at 1.
  cbv beta iota. rewrite bind_run.
  set (s0 := Genie.with_inputDisabled true (Genie.with_isProcessing true s)).
  assert (Hno0 : ~ isArray (Genie.messageHistory s0)) by exact Hno.
  destruct (addMessage_other config (JStr message) user now s0 Hno0)
    as (Hthrow & _).
  destruct (Genie.addMessage config (JStr message) user now s0) as [o s1].
  simpl in Hthrow. subst o.
  rewrite settle_run. cbv zeta. unfold try_catch, throw. cbn [fst snd].
  destruct ((Genie.handleError config (js "Failed to send message") ;; _) s1)
    as [[u|e] s2]; reflexivity.
Qed.

Lemma accepted_other_controls (message : jsstring) (rDelay : Draw) (now : Z)
    (s : Genie.State) :
  ~ isArray (Genie.messageHistory s) ->
  let s' := snd (accepted config message rDelay now s) in
  Genie.inputDisabled s' = false
  /\ Genie.typingIndicator s' = Genie.typingIndicator s.
Proof.
  intros Hno s'. subst s'. rewrite accepted_other_state by exact Hno.
  split; [reflexivity|].
  change (Genie.typingIndicator
            (Genie.with_inputDisabled false (Genie.with_isProcessing false ?x)))
    with (Genie.typingIndicator x).
  assert (Hp : preserves Genie.typingIndicator
            (Genie.handleError config (js "Failed to send message") ;;
             Genie.addMessage config
               (JStr (Genie.messages_errorNetwork config)) genie now)).
  { apply preserves_bind.
    - apply handleError_frame. intros ? ? ?; reflexivity.
    - intros _. apply addMessage_keeps; reflexivity. }
  rewrite Hp.
  rewrite (addMessage_keeps config Genie.typingIndicator) by reflexivity.
  reflexivity.
Qed.

Lemma resume_array_controls (t : Genie.Task) (r : Draw) (now : Z)
    (s : Genie.State) :
  isArray (Genie.messageHistory s) ->
  let s' := snd (Genie.handleSendMessage_resume config t r now s) in
  Genie.inputDisabled s' = false
  /\ Genie.typingIndicator s' = None
  /\ Genie.inputValue s' = Genie.inputValue s.
Proof.
  intros Harr s'. subst s'. unfold Genie.handleSendMessage_resume.
  rewrite settle_run. cbv zeta. cbn [snd].
  split; [reflexivity|].
  assert (Hind : forall s0, Genie.typingIndicator
                              (snd (Genie.hideTypingIndicator s0)) = None).
  { intros s0. unfold Genie.hideTypingIndicator, bind, gets, modify.
    destruct (Genie.typingIndicator s0) eqn:E; [reflexivity | exact E]. }
  assert (Hval : preserves Genie.inputValue Genie.hideTypingIndicator).
  { unfold Genie.hideTypingIndicator. frame. }
  unfold try_catch, Genie.processGenieResponse_rest. rewrite bind_run.
  destruct (hideTypingIndicator_run s) as (s1 & Hhide & Hh1 & _).
  specialize (Hind s). specialize (Hval s). rewrite Hhide in Hind, Hval |- *.
  simpl in Hind, Hval.
  assert (Harr1 : isArray (Genie.messageHistory s1))
    by (rewrite Hh1; exact Harr).
  set (response := Genie.generateResponse config (Genie.userMessage t) r).
  destruct (addMessage_array_returns config response genie now s1 Harr1)
    as (Hret & _).
  pose proof (addMessage_keeps config Genie.typingIndicator response genie now
                ltac:(reflexivity) ltac:(reflexivity) ltac:(reflexivity)
                ltac:(reflexivity) ltac:(reflexivity) s1) as Hk1.
  pose proof (addMessage_keeps config Genie.inputValue response genie now
                ltac:(reflexivity) ltac:(reflexivity) ltac:(reflexivity)
                ltac:(reflexivity) ltac:(reflexivity) s1) as Hk2.
  destruct (Genie.addMessage config response genie now s1) as [o s2].
  simpl in Hret, Hk1, Hk2. subst o. simpl. split; congruence.
Qed.

End Controls.

(** Between two events of genie.js: the input field is disabled exactly
    while the instance is processing; either no call waits, the instance is
    idle and no typing indicator is kept, or one call waits, the instance is
    processing and the history is an array. *)
Definition controlsInvariant (sys : Genie.System) : Prop :=
  let s := Genie.instance sys in
  Genie.inputDisabled s = Genie.isProcessing s
  /\ ((Genie.waiting sys = [] /\ Genie.isProcessing s = false
       /\ Genie.typingIndicator s = None)
      \/ (exists t, Genie.waiting sys = [t]
                    /\ Genie.isProcessing s = true
                    /\ isArray (Genie.messageHistory s))).

Section ControlsInvariant.

Context `{JSONHost}.
Variable config : Genie.Config.

Lemma controlsInvariant_step (ev : Genie.Event) (sys : Genie.System) :
  controlsInvariant sys -> controlsInvariant (Genie.step config ev sys).
Proof.
  intros (Hdis & Hstate). destruct sys as [s waiting]. simpl in *.
  destruct ev as [text | rDelay now | i r now]; simpl.
  - split; [exact Hdis | exact Hstate].
  - destruct Hstate as [(-> & Hidle & Hind) | (t & -> & Hbusy & Harr)].
    + destruct (le_lt_dec 1 (length (trim (Genie.inputValue s)))) as [Hpos|Hz];
        [destruct (le_lt_dec (length (trim (Genie.inputValue s)))
                     (Genie.ui_maxMessageLength config)) as [Hle|Hgt]|].
      * rewrite (handleSendMessage_accepted config rDelay now s) by
          (try split; assumption).
        destruct (isArray_dec (Genie.messageHistory s)) as [Harr | Hno].
        -- destruct (accepted_array_controls config
                       (trim (Genie.inputValue s)) rDelay now s Harr)
             as (Hd & _).
           destruct (accepted_array config (trim (Genie.inputValue s)) rDelay
                       now s Harr) as (s' & Hrun & Hbusy & Harr' & _).
           rewrite Hrun in Hd |- *. simpl in Hd.
           unfold controlsInvariant. simpl.
           split; [congruence|]. right. eexists. repeat split; eassumption.
        -- destruct (accepted_other_controls config
                       (trim (Genie.inputValue s)) rDelay now s Hno)
             as (Hd & Hi).
           destruct (accepted_other config (trim (Genie.inputValue s)) rDelay
                       now s Hno) as (s' & Hrun & Hidle' & _).
           rewrite Hrun in Hd, Hi |- *. simpl in Hd, Hi.
           unfold controlsInvariant. simpl.
           split; [congruence|]. left. repeat split; congruence.
      * destruct (handleSendMessage_invalid config rDelay now s)
          as (es & Hes & ->); [lia|].
        unfold controlsInvariant. simpl.
        split; [exact Hdis|]. left. repeat split; assumption.
      * destruct (handleSendMessage_invalid config rDelay now s)
          as (es & Hes & ->); [lia|].
        unfold controlsInvariant. simpl.
        split; [exact Hdis|]. left. repeat split; assumption.
    + destruct (handleSendMessage_busy config rDelay now s Hbusy)
        as (es & Hes & ->).
      unfold controlsInvariant. simpl.
      split; [exact Hdis|]. right. exists t. repeat split; assumption.
  - destruct Hstate as [(-> & Hidle & Hind) | (t & -> & Hbusy & Harr)].
    + destruct i; simpl; (split; [exact Hdis|]); left;
        repeat split; assumption.
    + destruct i as [|i]; simpl.
      * destruct (resume_array_controls config t r now s Harr)
          as (Hd & Hi & _).
        destruct (resume_array config t r now s Harr)
          as (s' & Hrun & Hidle & _).
        rewrite Hrun in Hd, Hi |- *. simpl in Hd, Hi.
        unfold controlsInvariant. simpl.
        split; [congruence|]. left. repeat split; assumption.
      * destruct i; simpl; (split; [exact Hdis|]); right; exists t;
          repeat split; assumption.
Qed.

Lemma controlsInvariant_run (events : list Genie.Event) (sys : Genie.System) :
  controlsInvariant sys -> controlsInvariant (Genie.run config events sys).
Proof.
  revert sys. induction events as [|ev events IH]; intros sys Hsys.
  - exact Hsys.
  - apply IH, controlsInvariant_step, Hsys.
Qed.

Lemma main_started_controls (page : Genie.Page) (s : Genie.State) :
  Genie.main (Some config) page = Genie.Started s ->
  controlsInvariant {| Genie.instance := s; Genie.waiting := [] |}.
Proof.
  intros Hs.
  destruct (Genie.missingElements page) as [|m l] eqn:E.
  - rewrite (main_started config page E) in Hs. injection Hs as <-.
    assert (Hkeep : forall X (f : Genie.State -> X),
               (forall es s, f (Genie.noted es s) = f s) ->
               (forall v s, f (Genie.with_messageHistory v s) = f s) ->
               f (snd (Genie.logInitialization config
                         (snd (Genie.loadMessageHistory config
                                 (Genie.blank page)))))
               = f (Genie.blank page)).
    { intros X f Hn Hh.
      rewrite (logInitialization_frame config f) by (intros es s _; apply Hn).
      apply (loadMessageHistory_frame config f); [intros es s _; apply Hn|].
      exact Hh. }
    unfold controlsInvariant. simpl.
    rewrite (Hkeep _ Genie.inputDisabled), (Hkeep _ Genie.isProcessing),
      (Hkeep _ Genie.typingIndicator) by reflexivity.
    split; [reflexivity|]. left. repeat split; reflexivity.
  - destruct (main_failed config page) as [s' Hs']; [congruence|].
    rewrite Hs' in Hs. discriminate.
Qed.

End ControlsInvariant.

(** X6: in every run of genie.js from a start, whatever is typed, however
    often [handleSendMessage] is called and whenever the timers fire: the
    input field is disabled exactly while the instance is processing, at most
    one call waits for its timer, one waits exactly while the instance is
    processing, and an idle instance keeps no typing indicator. *)
Theorem input_disabled_while_processing :
  forall (host : JSONHost) (config : Genie.Config) (page : Genie.Page)
         (s0 : Genie.State) (events : list Genie.Event),
    Genie.main (Some config) page = Genie.Started s0 ->
    let sys := Genie.run config events
                 {| Genie.instance := s0; Genie.waiting := [] |} in
    let s := Genie.instance sys in
    Genie.inputDisabled s = Genie.isProcessing s
    /\ (length (Genie.waiting sys) <= 1)%nat
    /\ (Genie.waiting sys = [] <-> Genie.isProcessing s = false)
    /\ (Genie.isProcessing s = false -> Genie.typingIndicator s = None).
Proof.
  intros host config page s0 events Hstart sys s.
  pose proof (controlsInvariant_run config events _
                (main_started_controls config page s0 Hstart))
    as (Hdis & Hstate).
  fold sys in Hdis, Hstate. fold s in Hdis, Hstate.
  split; [exact Hdis|].
  destruct Hstate as [(Hw & Hidle & Hind) | (t & Hw & Hbusy & _)];
    rewrite Hw.
  - split; [simpl; lia|]. split; [tauto|]. intros _. exact Hind.
  - split; [simpl; lia|]. split; [|congruence].
    split; [discriminate | congruence].
Qed.

Lemma input_disabled_while_processing_witness :
  let sys := Genie.run (H := MiniJSON.host) Genie.GenieConfig
               [Genie.Typed (js "hello"); Genie.Submit {| num := 1; den := 2 |} 5;
                Genie.Submit {| num := 1; den := 3 |} 6]
               {| Genie.instance :=
                    snd (Genie.logInitialization Genie.GenieConfig
                           (snd (Genie.loadMessageHistory (H := MiniJSON.host)
                                   Genie.GenieConfig
                                   (Genie.blank (pageWith emptyStorage)))));
                  Genie.waiting := [] |} in
  Genie.inputDisabled (Genie.instance sys) = Genie.isProcessing (Genie.instance sys)
  /\ (length (Genie.waiting sys) <= 1)%nat.
Proof.
  intros sys.
  destruct (input_disabled_while_processing MiniJSON.host Genie.GenieConfig
              (pageWith emptyStorage) _
              [Genie.Typed (js "hello"); Genie.Submit {| num := 1; den := 2 |} 5;
               Genie.Submit {| num := 1; den := 3 |} 6]
              (main_started Genie.GenieConfig (pageWith emptyStorage) eq_refl))
    as (Hdis & Hlen & _).
  split; [exact Hdis | exact Hlen].
Defined.

(** X7: one full exchange of genie.js.  On an idle instance whose history
    is an array and whose input passes the validation, the call of
    [handleSendMessage] appends the user's trimmed text, clears and disables
    the input and waits for a timer of [getRandomDelay] milliseconds; when
    the timer fires, the reply of [generateResponse] is appended, the typing
    indicator is forgotten, and the instance is idle again with the input
    enabled and empty. *)
Theorem one_exchange :
  forall (host : JSONHost) (config : Genie.Config) (s : Genie.State)
         (rDelay r : Draw) (now1 now2 : Z),
    Genie.isProcessing s = false ->
    isArray (Genie.messageHistory s) ->
    (0 < length (trim (Genie.inputValue s))
     <= Genie.ui_maxMessageLength config)%nat ->
    let message := trim (Genie.inputValue s) in
    let sys1 := Genie.step config (Genie.Submit rDelay now1)
                  {| Genie.instance := s; Genie.waiting := [] |} in
    let sys2 := Genie.step config (Genie.TimerFires 0 r now2) sys1 in
    Genie.waiting sys1
    = [{| Genie.userMessage := message;
          Genie.delay := Genie.getRandomDelay config rDelay |}]
    /\ Genie.isProcessing (Genie.instance sys1) = true
    /\ Genie.inputDisabled (Genie.instance sys1) = true
    /\ Genie.inputValue (Genie.instance sys1) = []
    /\ trace (Genie.instance sys1) = trace s ++ [(user, JStr message)]
    /\ Genie.waiting sys2 = []
    /\ Genie.isProcessing (Genie.instance sys2) = false
    /\ Genie.inputDisabled (Genie.instance sys2) = false
    /\ Genie.inputValue (Genie.instance sys2) = []
    /\ Genie.typingIndicator (Genie.instance sys2) = None
    /\ trace (Genie.instance sys2)
       = trace s ++ [(user, JStr message);
                     (genie, Genie.generateResponse config message r)].
Proof.
  intros host config s rDelay r now1 now2 Hidle Harr Hok message sys1 sys2.
  destruct (accepted_array_controls config message rDelay now1 s Harr)
    as (Hd1 & Hv1).
  destruct (accepted_array config message rDelay now1 s Harr)
    as (s1 & Hrun1 & Hbusy1 & Harr1 & Htrace1).
  rewrite Hrun1 in Hd1, Hv1. simpl in Hd1, Hv1.
  assert (Hsys1 : sys1 = {| Genie.instance := s1;
                            Genie.waiting :=
                              [{| Genie.userMessage := message;
                                  Genie.delay :=
                                    Genie.getRandomDelay config rDelay |}] |}).
  { unfold sys1, Genie.step. cbn [Genie.instance Genie.waiting].
    rewrite (handleSendMessage_accepted config rDelay now1 s Hok Hidle).
    fold message. rewrite Hrun1. reflexivity. }
  set (t := {| Genie.userMessage := message;
               Genie.delay := Genie.getRandomDelay config rDelay |}) in *.
  destruct (resume_array_controls config t r now2 s1 Harr1)
    as (Hd2 & Hi2 & Hv2).
  destruct (resume_array config t r now2 s1 Harr1)
    as (s2 & Hrun2 & Hidle2 & _ & Htrace2).
  rewrite Hrun2 in Hd2, Hi2, Hv2. simpl in Hd2, Hi2, Hv2.
  assert (Hsys2 : sys2 = {| Genie.instance := s2; Genie.waiting := [] |}).
  { unfold sys2. rewrite Hsys1. unfold Genie.step.
    cbn [Genie.instance Genie.waiting nth_error]. rewrite Hrun2. reflexivity. }
  rewrite Hsys2, Hsys1. cbn [Genie.instance Genie.waiting].
  repeat split; try assumption; try congruence.
  rewrite Htrace2, Htrace1, <- app_assoc. reflexivity.
Qed.

Lemma one_exchange_witness :
  let s := Genie.with_inputValue (js " hello ")
             (Genie.blank (pageWith emptyStorage)) in
  let sys2 := Genie.run (H := MiniJSON.host) Genie.GenieConfig
                [Genie.Submit {| num := 1; den := 2 |} 1700000000000;
                 Genie.TimerFires 0 {| num := 0; den := 1 |} 1700000001400]
                {| Genie.instance := s; Genie.waiting := [] |} in
  trace (Genie.instance sys2)
  = [(user, JStr (js "hello")); (genie, JStr (js "Presto...100 points!"))]
  /\ Genie.inputDisabled (Genie.instance sys2) = false.
Proof.
  intros s sys2.
  destruct (one_exchange MiniJSON.host Genie.GenieConfig s
              {| num := 1; den := 2 |} {| num := 0; den := 1 |}
              1700000000000 1700000001400)
    as (_ & _ & _ & _ & _ & _ & _ & Hdis & _ & _ & Htrace).
  - reflexivity.
  - exists []. reflexivity.
  - vm_compute. split; lia.
  - split; [|exact Hdis].
    eapply eq_trans; [exact Htrace|]. vm_compute. reflexivity.
Defined.

(** ** The delay under a range with [min > max] *)

Lemma floor_mul_nonpositive (r : Draw) (n : Z) :
  valid_draw r -> n <= 0 -> n <= floor_mul r n <= 0.
Proof.
  unfold valid_draw, floor_mul. intros [Hlo Hhi] Hn. split.
  - apply Z.div_le_lower_bound; nia.
  - apply Z.div_le_upper_bound; nia.
Qed.

(** X8: neither [getRandomDelay] rejects a range with [min > max]: the
    delay is then an integer between [max + 1] and [min], for every draw. *)
Theorem getRandomDelay_inverted_range :
  forall (gc : Genie.Config) (ac : App.Config) (r : Draw),
    valid_draw r ->
    (Genie.responses_delay_max gc < Genie.responses_delay_min gc ->
     Genie.responses_delay_max gc + 1 <= Genie.getRandomDelay gc r
       <= Genie.responses_delay_min gc)
    /\ (App.chat_typingDelay_max ac < App.chat_typingDelay_min ac ->
        App.chat_typingDelay_max ac + 1 <= App.getRandomDelay ac r
          <= App.chat_typingDelay_min ac).
Proof.
  intros gc ac r Hr. unfold Genie.getRandomDelay, App.getRandomDelay.
  split; intros Hinv.
  - pose proof (floor_mul_nonpositive r
                  (Genie.responses_delay_max gc - Genie.responses_delay_min gc + 1)
                  Hr ltac:(lia)).
    lia.
  - pose proof (floor_mul_nonpositive r
                  (App.chat_typingDelay_max ac - App.chat_typingDelay_min ac + 1)
                  Hr ltac:(lia)).
    lia.
Qed.

Lemma getRandomDelay_inverted_range_witness :
  valid_draw {| num := 999; den := 1000 |}
  /\ 801 <= Genie.getRandomDelay (variant [] 2000 800 100 true true)
              {| num := 999; den := 1000 |} <= 2000.
Proof.
  assert (Hr : valid_draw {| num := 999; den := 1000 |})
    by (unfold valid_draw; simpl; lia).
  destruct (getRandomDelay_inverted_range (variant [] 2000 800 100 true true)
              App.CONFIG _ Hr) as (Hg & _).
  split; [exact Hr|]. apply Hg. simpl. lia.
Defined.

(** ** app.js: the rest of the class *)

Module AppView.

(** [Utils.escapeHtml(text)]: the text is stored in a text node and read
    back as markup, which escapes the ampersand, the two angle brackets and
    the no-break space. *)
Definition escapeChar (c : N) : jsstring :=
  if (c =? 38)%N then js "&amp;"
  else if (c =? 60)%N then js "&lt;"
  else if (c =? 62)%N then js "&gt;"
  else if (c =? 160)%N then js "&nbsp;"
  else [c].

Definition escapeHtml (text : jsstring) : jsstring :=
  concat (map escapeChar text).

(** [handleInputChange(value)]: whether the input field carries the class
    [error] afterwards. *)
Definition handleInputChange (config : App.Config) (value : jsstring) : bool :=
  (App.chat_maxMessageLength config <? length value)%nat.

(** The markup that [clearChat] puts into the chat container. *)
Definition welcomeElement (id : nat) : Element :=
  {| el_id := id;
     el_classes := ["welcome-message"%string];
     el_text :=
       JStr (js "Welcome! Start a conversation by typing your message below...") |}.

(** [clearChat()] *)
Definition clearChat : M App.State unit :=
  modify (fun s =>
            App.with_chatContainer [welcomeElement (App.nextNode s)]
              (S (App.nextNode s)) s) ;;
  modify (App.with_messages 0 []) ;;
  modify (App.with_isFirstMessage true).

(** [getState()]: the fields of [this.state]. *)
Definition getState (s : App.State)
  : nat * list App.Message * bool * bool :=
  (App.messageCount s, App.messages s, App.isTyping s, App.isFirstMessage s).

(** The events of [App.Event], and a call of [clearChat]. *)
Inductive Event : Type :=
| Page (ev : App.Event)
| Clear.

Definition step (config : App.Config) (ev : Event) (sys : App.System)
  : App.System :=
  match ev with
  | Page ev => App.step config ev sys
  | Clear =>
      {| App.instance := snd (clearChat (App.instance sys));
         App.waiting := App.waiting sys |}
  end.

Definition run (config : App.Config) (events : list Event) (sys : App.System)
  : App.System :=
  fold_left (fun sys ev => step config ev sys) events sys.

End AppView.

Example escapeHtml_markup :
  AppView.escapeHtml (js "<b>Tom & Jerry</b>")
  = js "&lt;b&gt;Tom &amp; Jerry&lt;/b&gt;".
Proof. reflexivity. Qed.

(** X9: the text that [Utils.escapeHtml] returns contains no angle
    bracket; a text without ampersand, angle bracket and no-break space is
    returned as it is; and the escaped text of a concatenation is the
    concatenation of the escaped texts. *)
Theorem escapeHtml_leaves_no_markup :
  forall (text more : jsstring),
    Forall (fun c => c <> 60%N /\ c <> 62%N) (AppView.escapeHtml text)
    /\ (Forall (fun c => c <> 38%N /\ c <> 60%N /\ c <> 62%N /\ c <> 160%N)
          text ->
        AppView.escapeHtml text = text)
    /\ AppView.escapeHtml (text ++ more)
       = AppView.escapeHtml text ++ AppView.escapeHtml more.
Proof.
  intros text more. split; [|split].
  - unfold AppView.escapeHtml. induction text as [|c r IH]; [constructor|].
    cbn [map concat]. apply Forall_app. split; [|exact IH].
    unfold AppView.escapeChar.
    destruct (c =? 38)%N eqn:E38;
      [repeat constructor; vm_compute; discriminate|].
    destruct (c =? 60)%N eqn:E60;
      [repeat constructor; vm_compute; discriminate|].
    destruct (c =? 62)%N eqn:E62;
      [repeat constructor; vm_compute; discriminate|].
    destruct (c =? 160)%N eqn:E160;
      [repeat constructor; vm_compute; discriminate|].
    apply N.eqb_neq in E60, E62. repeat constructor; assumption.
  - unfold AppView.escapeHtml. induction 1 as [|c r (H38 & H60 & H62 & H160) Hr IH];
      [reflexivity|].
    cbn [map concat]. rewrite IH. unfold AppView.escapeChar.
    apply N.eqb_neq in H38, H60, H62, H160.
    rewrite H38, H60, H62, H160. reflexivity.
  - unfold AppView.escapeHtml. rewrite map_app, concat_app. reflexivity.
Qed.

Lemma escapeHtml_leaves_no_markup_witness :
  AppView.escapeHtml (js "wish 100%") = js "wish 100%".
Proof.
  destruct (escapeHtml_leaves_no_markup (js "wish 100%") []) as (_ & Hid & _).
  apply Hid. vm_compute. repeat constructor; discriminate.
Defined.

(** The user messages of [state.messages]. *)
Definition userMessages (s : App.State) : list App.Message :=
  List.filter (fun m => Sender_eqb (App.type m) user) (App.messages s).

Section AppCount.

Variable config : App.Config.

Lemma count_handleSendMessage (now : Z) (s : App.State) :
  App.messageCount s = length (userMessages s) ->
  App.messageCount (snd (App.handleSendMessage config now s))
  = length (userMessages (snd (App.handleSendMessage config now s))).
Proof.
  intros Hs. unfold App.handleSendMessage, bind, gets.
  destruct (App.isTyping s); [exact Hs|].
  destruct (App.validateMessage config (trim (App.inputValue s))) as [|error].
  - unfold App.setInputDisabled, App.addUserMessage_begin,
      App.appendMessageElement, App.clearWelcomeMessage, bind, gets, modify,
      ret, when, App.emit.
    change (App.isFirstMessage (App.with_inputDisabled true s))
      with (App.isFirstMessage s).
    destruct (App.isFirstMessage s); unfold userMessages; simpl;
      rewrite List.filter_app, length_app; simpl;
      fold (userMessages s); lia.
  - exact Hs.
Qed.

Lemma count_resume (t : App.Task) (r : Draw) (now : Z) (s : App.State) :
  App.messageCount s = length (userMessages s) ->
  App.messageCount (snd (App.handleSendMessage_resume config t r now s))
  = length (userMessages (snd (App.handleSendMessage_resume config t r now s))).
Proof.
  intros Hs. destruct t as [|d|]; try exact Hs.
  unfold userMessages. simpl. rewrite List.filter_app, length_app. simpl.
  fold (userMessages s). lia.
Qed.

Lemma count_step (ev : AppView.Event) (sys : App.System) :
  App.messageCount (App.instance sys)
  = length (userMessages (App.instance sys)) ->
  App.messageCount (App.instance (AppView.step config ev sys))
  = length (userMessages (App.instance (AppView.step config ev sys))).
Proof.
  intros Hs. destruct sys as [s waiting]. simpl in Hs.
  destruct ev as [[text | now | i r now] |]; simpl.
  - exact Hs.
  - pose proof (count_handleSendMessage now s Hs) as Hc.
    destruct (App.handleSendMessage config now s) as [[[t|]|e] s']; exact Hc.
  - destruct (nth_error waiting i) as [t|]; [|exact Hs].
    pose proof (count_resume t r now s Hs) as Hc.
    destruct (App.handleSendMessage_resume config t r now s)
      as [[[t'|]|e] s']; exact Hc.
  - reflexivity.
Qed.

End AppCount.

(** X10: in every run of app.js from a start, with calls of
    [handleSendMessage] at any time, timers firing in any order and calls of
    [clearChat] in between, [state.messageCount] is the number of user
    messages in [state.messages]: replies are not counted. *)
Theorem messageCount_counts_user_messages :
  forall (config : App.Config) (page : App.Page) (s0 : App.State)
         (events : list AppView.Event),
    App.constructor config page = App.Started s0 ->
    let s := App.instance
               (AppView.run config events
                  {| App.instance := s0; App.waiting := [] |}) in
    App.messageCount s = length (userMessages s).
Proof.
  intros config page s0 events Hstart.
  assert (Hs0 : App.messageCount s0 = length (userMessages s0)).
  { revert Hstart. unfold App.constructor.
    destruct (App.initializeElements page); [discriminate|].
    intros [= <-]. reflexivity. }
  clear Hstart. cbv zeta.
  change (App.messageCount s0 = length (userMessages s0))
    with (App.messageCount
            (App.instance {| App.instance := s0; App.waiting := [] |})
          = length (userMessages
                      (App.instance {| App.instance := s0; App.waiting := [] |})))
    in Hs0.
  revert Hs0. generalize {| App.instance := s0; App.waiting := [] |}.
  induction events as [|ev events IH]; intros sys Hsys; [exact Hsys|].
  apply IH, count_step, Hsys.
Qed.

Lemma messageCount_counts_user_messages_witness :
  let s := App.instance
             (AppView.run App.CONFIG
                [AppView.Page (App.Typed (js "hello"));
                 AppView.Page (App.Submit 1700000000000);
                 AppView.Page (App.TimerFires 0 {| num := 0; den := 1 |} 1700000000050);
                 AppView.Page (App.TimerFires 0 {| num := 0; den := 1 |} 1700000000850)]
                appStart) in
  App.messageCount s = length (userMessages s)
  /\ App.messageCount s = 1%nat /\ length (App.messages s) = 2%nat.
Proof.
  intros s. split.
  - apply (messageCount_counts_user_messages App.CONFIG appPage _ _ eq_refl).
  - vm_compute. split; reflexivity.
Defined.

(** X11: [clearChat] cancels nothing.  It empties the messages, resets
    the counter, puts the welcome message back and leaves [isTyping] as it
    is; a reply whose timer was already set is appended afterwards all the
    same, so that [state.messages] then is that single Genie message; and
    the welcome message is removed again by the next accepted user
    message. *)
Theorem clearChat_keeps_pending_reply :
  forall (config : App.Config) (s : App.State) (d : Z) (r : Draw)
         (now : Z),
    let cleared := snd (AppView.clearChat s) in
    App.messages cleared = []
    /\ App.messageCount cleared = 0%nat
    /\ App.isTyping cleared = App.isTyping s
    /\ App.chatContainer cleared = [AppView.welcomeElement (App.nextNode s)]
    /\ App.messages
         (snd (App.handleSendMessage_resume config (App.AfterTypingDelay d) r
                 now cleared))
       = [{| App.type := genie; App.content := App.getRandomResponse config r;
             App.timestamp := now |}]
    /\ (App.isTyping s = false ->
        (0 < length (trim (App.inputValue s))
         <= App.chat_maxMessageLength config)%nat ->
        map el_text
          (App.chatContainer (snd (App.handleSendMessage config now cleared)))
        = [JStr (trim (App.inputValue s))]).
Proof.
  intros config s d r now cleared.
  repeat (split; [reflexivity|]).
  intros Hidle Hok. unfold App.handleSendMessage, bind, gets.
  change (App.isTyping cleared) with (App.isTyping s). rewrite Hidle.
  change (App.inputValue cleared) with (App.inputValue s).
  rewrite (App_validateMessage_valid config (App.inputValue s) Hok).
  reflexivity.
Qed.

Lemma clearChat_keeps_pending_reply_witness :
  let typing := App.instance
                  (App.run App.CONFIG
                     [App.Typed (js "hello"); App.Submit 1700000000000;
                      App.TimerFires 0 {| num := 0; den := 1 |} 1700000000050]
                     appStart) in
  map el_text
    (App.chatContainer
       (snd (App.handleSendMessage App.CONFIG 1700000000900
               (snd (AppView.clearChat
                       (App.with_inputValue (js " again ")
                          (App.with_isTyping false typing)))))))
  = [JStr (js "again")].
Proof.
  intros typing.
  destruct (clearChat_keeps_pending_reply App.CONFIG
              (App.with_inputValue (js " again ")
                 (App.with_isTyping false typing))
              0 {| num := 0; den := 1 |} 1700000000900)
    as (_ & _ & _ & _ & _ & Hnext).
  apply Hnext; [reflexivity | vm_compute; split; lia].
Defined.

(** ** The live feedback on the input against the validation *)





(** ** genie.js: the send button *)

Module GenieView.

(** [handleInputChange()]: the value that it gives to
    [sendButton.disabled]. *)
Definition handleInputChange (s : Genie.State) : bool :=
  (length (trim (Genie.inputValue s)) =? 0)%nat || Genie.isProcessing s.

End GenieView.

(** X13: the send button of genie.js tells what a call would do.  When
    [handleInputChange] disables it, a call of [handleSendMessage] is over
    at once and changes nothing but the record of effects; when it leaves
    it enabled, the call either shows the too-long alert (the trimmed text
    exceeds the bound) or appends the user's trimmed text. *)
Theorem send_button_mirrors_guard :
  forall (host : JSONHost) (config : Genie.Config) (rDelay : Draw) (now : Z)
         (s : Genie.State),
    (GenieView.handleInputChange s = true ->
     exists es, silent es
                /\ Genie.handleSendMessage config rDelay now s
                   = (Ret None, Genie.noted es s))
    /\ (GenieView.handleInputChange s = false ->
        ((Genie.ui_maxMessageLength config
          < length (trim (Genie.inputValue s)))%nat
         /\ Genie.handleSendMessage config rDelay now s
            = (Ret None, Genie.noted [Alert (tooLongAlert config)] s))
        \/ exists rest,
             trace (snd (Genie.handleSendMessage config rDelay now s))
             = trace s ++ (user, JStr (trim (Genie.inputValue s))) :: rest).
Proof.
  intros host config rDelay now s. unfold GenieView.handleInputChange. split.
  - intros Hdis. apply orb_true_iff in Hdis as [Hempty | Hbusy].
    + apply handleSendMessage_invalid. apply Nat.eqb_eq in Hempty. lia.
    + apply handleSendMessage_busy. exact Hbusy.
  - intros Hen. apply orb_false_iff in Hen as [Hfull Hidle].
    apply Nat.eqb_neq in Hfull.
    destruct (le_lt_dec (length (trim (Genie.inputValue s)))
                (Genie.ui_maxMessageLength config)) as [Hle | Hgt].
    + right.
      rewrite (handleSendMessage_accepted config rDelay now s) by
        (try split; try assumption; lia).
      destruct (isArray_dec (Genie.messageHistory s)) as [Harr | Hno].
      * destruct (accepted_array config (trim (Genie.inputValue s)) rDelay
                    now s Harr) as (s' & -> & _ & _ & Htrace).
        exists []. exact Htrace.
      * destruct (accepted_other config (trim (Genie.inputValue s)) rDelay
                    now s Hno) as (s' & -> & _ & _ & Htrace).
        eexists. exact Htrace.
    + left. split; [exact Hgt|].
      rewrite handleSendMessage_run. unfold Genie.validateMessage.
      destruct (trim (Genie.inputValue s)) as [|c m] eqn:E;
        [simpl in Hfull; lia|].
      unfold falsy. apply Nat.ltb_lt in Hgt. rewrite Hgt. reflexivity.
Qed.

Lemma send_button_mirrors_guard_witness :
  exists es,
    silent es
    /\ Genie.handleSendMessage (H := MiniJSON.host) Genie.GenieConfig
         {| num := 1; den := 2 |} 0
         (Genie.with_inputValue (js "   ") (Genie.blank (pageWith emptyStorage)))
       = (Ret None,
          Genie.noted es
            (Genie.with_inputValue (js "   ")
               (Genie.blank (pageWith emptyStorage)))).
Proof.
  destruct (send_button_mirrors_guard MiniJSON.host Genie.GenieConfig
              {| num := 1; den := 2 |} 0
              (Genie.with_inputValue (js "   ")
                 (Genie.blank (pageWith emptyStorage)))) as (Hoff & _).
  apply Hoff. reflexivity.
Defined.

(** X14: in every run of app.js in which the page delivers the
    submissions, at most one call of [handleSendMessage] is in flight, the
    input is disabled exactly while one is, and [isTyping] is false whenever
    none is. *)
Theorem one_submission_in_flight :
  forall (config : App.Config) (page : App.Page) (s0 : App.State)
         (events : list App.Event),
    App.constructor config page = App.Started s0 ->
    let sys := App.runPage config events
                 {| App.instance := s0; App.waiting := [] |} in
    (length (App.waiting sys) <= 1)%nat
    /\ (App.waiting sys = [] <-> App.inputDisabled (App.instance sys) = false)
    /\ (App.waiting sys = [] -> App.isTyping (App.instance sys) = false).
Proof.
  intros config page s0 events Hstart sys.
  pose proof (appInvariant_runPage config events _
                (constructor_started_idle config page s0 Hstart))
    as (_ & Hstate).
  fold sys in Hstate.
  destruct Hstate as [(Hw & Hen & Hidle & _)
                     | [(Hw & Hd & _) | [(d & Hw & Hd & _) | (Hw & Hd & _)]]];
    rewrite Hw; (split; [simpl; lia|]); split;
    try (split; [discriminate | congruence]); try tauto; try discriminate.
Qed.

Lemma one_submission_in_flight_witness :
  let sys := App.runPage App.CONFIG
               [App.Typed (js "hello"); App.Submit 1700000000000;
                App.Submit 1700000000010]
               appStart in
  App.waiting sys = [App.AfterUserScroll]
  /\ (length (App.waiting sys) <= 1)%nat.
Proof.
  intros sys. split; [reflexivity|].
  apply (one_submission_in_flight App.CONFIG appPage _
           [App.Typed (js "hello"); App.Submit 1700000000000;
            App.Submit 1700000000010] eq_refl).
Defined.
